(** * Ensemble ML Platform: the server actions and the dashboard's metric
    post-processing, embedded in Rocq.

    The development follows [app/actions.ts] (request validation, the
    precomputed-result cache, the Python bridge, the normalisation of the
    classification payload), the metric helpers of
    [components/VisualizationDashboard.tsx], the quality marks and the
    feature chart of [components/InteractiveCharts.tsx], and the check of
    the precomputed results in [ml-scripts/check_precomputed.js].

    Conventions of the embedding:
    - a JavaScript string is a [string]; one [ascii] stands for one code unit,
      so the model covers code units below 256;
    - a JavaScript number is [NaN] or a rational ([Q]): finite doubles are read
      as the exact rationals they denote, arithmetic is exact, infinities do
      not occur;
    - an object is an association list of own enumerable data properties in
      insertion order, the first binding of a key being the property. An
      assignment [o[k] = v] whose key is [__proto__] reaches the setter of
      [Object.prototype] and adds no property ([Js.assign]); the prototype
      it installs is not recorded, so the model covers own properties only:
      [Object.keys], [Object.values], [Object.entries], a spread and the
      reads of own keys. A read of a key that the object does not own is
      [undefined], which is what the code finds unless such an assignment
      has installed a prototype that has the key;
    - a conversion to a number throws a [TypeError] on an object that has
      an own [toString] (nothing in these values is callable) and on an
      array holding one ([Js.coercion_throws]); [Js.ToNumber] is the
      result of the conversion where it completes, [Js.ToNumberT] the
      conversion as the server action performs it inside its [try]. The
      helpers of the dashboard run in no [try]: on a value whose conversion
      throws they do not return, and their definitions, which use
      [Js.ToNumber], describe them on the other values;
    - the trainers in Python are not among the sources; what the
      specification says of their loading step is modelled in [Loader];
    - a function that can throw returns [completion]: [Ok v] or [Throw msg],
      where [msg] is the [message] of the thrown [Error];
    - file system, JSON parser and the spawned interpreter are read from a
      [World] record, and every file-system or process call is recorded in an
      event log that the computation threads through; the calls to the
      logger are left out, and so are the limits of the engine (stack
      depth, memory). *)

From Stdlib Require Import String Ascii List Bool Arith ZArith QArith Qabs Qround Lia.
From Stdlib Require Import Numbers.DecimalString.
From Stdlib Require Import Lqa.
From Stdlib Require Import Sorted.
Import ListNotations.

Set Warnings "-register-all".
Local Open Scope string_scope.
Local Open Scope Z_scope.

(* ================================================================= *)
(** ** JavaScript strings *)

Module JsString.

Definition code (c : ascii) : N := N_of_ascii c.

Definition length (s : string) : Z := Z.of_nat (String.length s).

Fixpoint take (n : nat) (s : string) : string :=
  match n, s with
  | S n', String c s' => String c (take n' s')
  | _, _ => EmptyString
  end.

Fixpoint drop (n : nat) (s : string) : string :=
  match n, s with
  | S n', String _ s' => drop n' s'
  | _, _ => s
  end.

(** [s.indexOf(pat)]: position of the first occurrence, [-1] if none. *)
Definition indexOf (s pat : string) : Z :=
  match String.index 0 pat s with
  | Some i => Z.of_nat i
  | None => -1
  end.

Fixpoint lastIndexOf_from (pat s : string) (i acc : Z) : Z :=
  let acc' := if String.prefix pat s then i else acc in
  match s with
  | EmptyString => acc'
  | String _ s' => lastIndexOf_from pat s' (i + 1) acc'
  end.

(** [s.lastIndexOf(pat)]: position of the last occurrence, [-1] if none. *)
Definition lastIndexOf (s pat : string) : Z :=
  lastIndexOf_from pat s 0 (-1).

Definition clamp (s : string) (i : Z) : Z :=
  Z.min (Z.max i 0) (length s).

(** [s.substring(a, b)]: both bounds are clamped to [0, s.length] and
    swapped when [a > b]. *)
Definition substring (s : string) (a b : Z) : string :=
  let a' := clamp s a in
  let b' := clamp s b in
  let lo := Z.min a' b' in
  let hi := Z.max a' b' in
  String.substring (Z.to_nat lo) (Z.to_nat (hi - lo)) s.

(** White space of [String.prototype.trim] among the code units below 256:
    TAB, LF, VT, FF, CR, SPACE and NO-BREAK SPACE. *)
Definition is_white (c : ascii) : bool :=
  let n := code c in
  ((9 <=? n) && (n <=? 13) || (n =? 32) || (n =? 160))%N.

Fixpoint trimStart (s : string) : string :=
  match s with
  | String c s' => if is_white c then trimStart s' else s
  | EmptyString => EmptyString
  end.

Fixpoint trimEnd (s : string) : string :=
  match s with
  | EmptyString => EmptyString
  | String c s' =>
      match trimEnd s' with
      | EmptyString => if is_white c then EmptyString else String c EmptyString
      | t => String c t
      end
  end.

Definition trim (s : string) : string := trimEnd (trimStart s).

(** [String.prototype.toLowerCase] on code units below 256: [A-Z] and the
    Latin-1 capitals (except the multiplication sign) move up by 32. *)
Definition lower_char (c : ascii) : ascii :=
  let n := code c in
  if ((65 <=? n) && (n <=? 90)
      || (192 <=? n) && (n <=? 222) && negb (n =? 215))%N
  then ascii_of_N (n + 32) else c.

Fixpoint toLowerCase (s : string) : string :=
  match s with
  | EmptyString => EmptyString
  | String c s' => String (lower_char c) (toLowerCase s')
  end.

Definition includes (s pat : string) : bool :=
  negb (indexOf s pat =? -1).

(** [s.split(sep)] for a separator of one code unit. *)
Fixpoint split (sep : ascii) (s : string) : list string :=
  match s with
  | EmptyString => [EmptyString]
  | String c s' =>
      if Ascii.eqb c sep then EmptyString :: split sep s'
      else match split sep s' with
           | h :: t => String c h :: t
           | [] => [String c EmptyString]
           end
  end.

(** [xs.join(sep)]. *)
Fixpoint join (sep : string) (xs : list string) : string :=
  match xs with
  | [] => EmptyString
  | [x] => x
  | x :: rest => x ++ sep ++ join sep rest
  end.

Definition LF : ascii := ascii_of_N 10.
Definition DQUOTE : ascii := ascii_of_N 34.

End JsString.

(** The completion of a call that may throw an [Error]. *)
Inductive completion (A : Type) : Type :=
| Ok (a : A)
| Throw (message : string).
Arguments Ok {A} a.
Arguments Throw {A} message.

(* ================================================================= *)
(** ** [extractJsonFromStdout] *)

Module Extract.
Import JsString.

Definition markerStart : string := "RESULTS_JSON_START".
Definition markerEnd : string := "RESULTS_JSON_END".

Definition extractJsonFromStdout (stdout : string) : completion string :=
  let jsonStart := indexOf stdout markerStart in
  let jsonEnd := indexOf stdout markerEnd in
  if negb (jsonStart =? -1) && negb (jsonEnd =? -1) && (jsonEnd >? jsonStart)
  then
    let jsonStr := trim (substring stdout (jsonStart + length markerStart) jsonEnd) in
    Ok jsonStr
  else
    let firstBrace := indexOf stdout "{" in
    let lastBrace := lastIndexOf stdout "}" in
    if (firstBrace =? -1) || (lastBrace =? -1) || (lastBrace <=? firstBrace)
    then Throw "Failed to locate JSON output in Python response"
    else Ok (substring stdout firstBrace (lastBrace + 1)).

End Extract.

(* ================================================================= *)
(** ** JavaScript values *)

Module Js.

Inductive number : Type :=
| NaN
| Num (q : Q).

Inductive value : Type :=
| Undefined
| Null
| Bool (b : bool)
| Number (n : number)
| Str (s : string)
| Arr (items : list value)
| Obj (props : list (string * value)).

(** Built-ins of the host whose full definition lies outside the
    repository: [ToNumber] on strings, arrays and objects (the
    StringToNumber grammar and ToPrimitive), [Number.prototype.toFixed] and
    the conversion of a finite number to a string, [Math.sqrt] on a finite
    number. *)
Record Builtins : Type := {
  ToNumber_rest : value -> number;
  toFixed : Q -> nat -> string;
  Number_toString : Q -> string;
  Math_sqrt : Q -> number
}.

Definition zero : value := Number (Num 0).

Definition Qltb (a b : Q) : bool := negb (Qle_bool b a).

Definition isFinite (n : number) : bool :=
  match n with NaN => false | Num _ => true end.

Definition truthy (v : value) : bool :=
  match v with
  | Undefined | Null => false
  | Bool b => b
  | Number NaN => false
  | Number (Num q) => negb (Qeq_bool q 0)
  | Str s => negb (String.eqb s EmptyString)
  | Arr _ | Obj _ => true
  end.

(** [a || b] and [a ?? b] on already evaluated operands. *)
Definition or (a b : value) : value := if truthy a then a else b.

Definition nullish (v : value) : bool :=
  match v with Undefined | Null => true | _ => false end.

Definition coalesce (a b : value) : value := if nullish a then b else a.

Definition is_undefined (v : value) : bool :=
  match v with Undefined => true | _ => false end.

Definition typeof_number (v : value) : bool :=
  match v with Number _ => true | _ => false end.

Definition isRecord (v : value) : bool :=
  match v with Obj _ => true | _ => false end.

Definition Array_isArray (v : value) : bool :=
  match v with Arr _ => true | _ => false end.

Definition index_key (i : nat) : string :=
  NilEmpty.string_of_uint (Nat.to_uint i).

Fixpoint lookup (k : string) (props : list (string * value)) : option value :=
  match props with
  | [] => None
  | (k', v) :: rest => if String.eqb k' k then Some v else lookup k rest
  end.

Fixpoint lookup_index {A : Type} (k : string) (i : nat) (xs : list A) : option A :=
  match xs with
  | [] => None
  | x :: rest => if String.eqb (index_key i) k then Some x else lookup_index k (S i) rest
  end.

Definition from_option (o : option value) : value :=
  match o with Some v => v | None => Undefined end.

(** [v[k]] on a value that is neither [null] nor [undefined]; own
    properties, array and string indices, and [length]. *)
Definition get (v : value) (k : string) : value :=
  match v with
  | Obj props => from_option (lookup k props)
  | Arr items =>
      if String.eqb k "length" then Number (Num (inject_Z (Z.of_nat (List.length items))))
      else from_option (lookup_index k 0 items)
  | Str s =>
      if String.eqb k "length" then Number (Num (inject_Z (JsString.length s)))
      else match lookup_index k 0 (list_ascii_of_string s) with
           | Some c => Str (String c EmptyString)
           | None => Undefined
           end
  | _ => Undefined
  end.

(** [v?.[k]]. *)
Definition optGet (v : value) (k : string) : value :=
  if nullish v then Undefined else get v k.

(** [v[k]] where [v] may be [null] or [undefined]: a [TypeError]. *)
Definition getT (v : value) (k : string) : completion value :=
  if nullish v then Throw ("Cannot read properties of null or undefined (reading '" ++ k ++ "')")
  else Ok (get v k).

Fixpoint indices {A : Type} (i : nat) (xs : list A) : list string :=
  match xs with
  | [] => []
  | _ :: rest => index_key i :: indices (S i) rest
  end.

(** [Object.keys(v)] for a value that is neither [null] nor [undefined]. *)
Definition keys (v : value) : list string :=
  match v with
  | Obj props => nodup string_dec (map fst props)
  | Arr items => indices 0 items
  | Str s => indices 0 (list_ascii_of_string s)
  | _ => []
  end.

Definition values (v : value) : list value :=
  map (get v) (keys v).

(** The own property [k] is defined or redefined with the value [v]: a
    property of an object literal, also after a spread. *)
Fixpoint set (k : string) (v : value) (props : list (string * value))
  : list (string * value) :=
  match props with
  | [] => [(k, v)]
  | (k', v') :: rest =>
      if String.eqb k' k then (k', v) :: rest else (k', v') :: set k v rest
  end.

(** [o[k] = v] on an object created by [{}], for a key computed at run
    time. The key [__proto__] reaches the accessor of [Object.prototype]:
    it changes the prototype and adds no own property. *)
Definition assign (k : string) (v : value) (props : list (string * value))
  : list (string * value) :=
  if String.eqb k "__proto__" then props else set k v props.

(** Whether the conversion of [v] to a primitive throws. Of an object the
    conversion tries [valueOf] and [toString]: an own property of either
    name is not callable and is passed over, the inherited [valueOf] returns
    the object itself, and the inherited [toString] returns a string; so it
    throws exactly when the object has an own [toString]. An array is joined
    from the strings of its elements other than [null] and [undefined]. *)
Fixpoint coercion_throws (v : value) : bool :=
  match v with
  | Obj props =>
      match lookup "toString" props with
      | Some _ => true
      | None => false
      end
  | Arr items =>
      (fix any (xs : list value) : bool :=
         match xs with
         | [] => false
         | x :: rest => coercion_throws x || any rest
         end) items
  | _ => false
  end.

(** The message of the [TypeError] of a failed conversion. *)
Definition primitive_error : string := "Cannot convert object to primitive value".

Section Arithmetic.
Variable B : Builtins.

(** The number a conversion yields when it completes. *)
Definition ToNumber (v : value) : number :=
  match v with
  | Undefined => NaN
  | Null => Num 0
  | Bool b => Num (if b then 1 else 0)
  | Number n => n
  | _ => ToNumber_rest B v
  end.

(** The conversion with its [TypeError]. *)
Definition ToNumberT (v : value) : completion number :=
  if coercion_throws v then Throw primitive_error else Ok (ToNumber v).

Definition sub (a b : number) : number :=
  match a, b with
  | Num x, Num y => Num (x - y)
  | _, _ => NaN
  end.

Definition mul (a b : number) : number :=
  match a, b with
  | Num x, Num y => Num (x * y)
  | _, _ => NaN
  end.

Definition max2 (a b : number) : number :=
  match a, b with
  | Num x, Num y => if Qle_bool x y then Num y else Num x
  | _, _ => NaN
  end.

(** [Math.max(v, ...vs)] on at least one argument. *)
Definition Math_max (v : number) (vs : list number) : number :=
  fold_left max2 vs v.

(** [x.toFixed(1)] followed by a percent sign, for a finite [x]. *)
Definition percent (q : Q) : string := toFixed B q 1 ++ "%".
End Arithmetic.

End Js.

(* ================================================================= *)
(** ** [app/actions.ts] *)

Module Actions.
Import JsString Js Extract.

(** Events of the spawned interpreter, in the order in which the event loop
    delivers them to the handlers of [executePythonScript]. *)
Inductive proc_event : Type :=
| StdoutData (chunk : string)
| StderrData (chunk : string)
| Close (code : option Z)
| ProcError (message : string)
| TimerFired.

(** Calls that leave the process. *)
Inductive event : Type :=
| ExistsSync (path : string)
| ReadFileSync (path : string)
| StatSync (path : string)
| Spawn (command : string) (argv : list string).

(** The surroundings of a request: working directory, environment
    variables, the three file-system calls ([existsSync], [readFileSync],
    [statSync(...).size]), [JSON.parse], and what a spawned command does
    before the timer of its caller fires. *)
Record World : Type := {
  cwd : string;
  env : string -> option string;
  fs_exists : string -> bool;
  fs_read : string -> completion string;
  fs_size : string -> completion Q;
  JSON_parse : string -> completion value;
  child : string -> list string -> list proc_event
}.

(** Computations that keep the log of calls and may throw. *)
Definition M (A : Type) : Type := list event -> completion A * list event.

Definition ret {A : Type} (a : A) : M A := fun log => (Ok a, log).

Definition throw {A : Type} (message : string) : M A :=
  fun log => (Throw message, log).

Definition bind {A B : Type} (m : M A) (k : A -> M B) : M B :=
  fun log =>
    match m log with
    | (Ok a, log') => k a log'
    | (Throw e, log') => (Throw e, log')
    end.

Definition try_catch {A : Type} (body : M A) (handler : string -> M A) : M A :=
  fun log =>
    match body log with
    | (Ok a, log') => (Ok a, log')
    | (Throw e, log') => handler e log'
    end.

Definition lift {A : Type} (c : completion A) : M A := fun log => (c, log).

Definition emit (e : event) : M unit := fun log => (Ok tt, (log ++ [e])%list).

Notation "x <- m ;; k" := (bind m (fun x => k))
  (at level 61, m at next level, right associativity).
Notation "m ;;; k" := (bind m (fun _ => k))
  (at level 61, right associativity).

Definition DEFAULT_PYTHON_TIMEOUT_MS : Q := 120000.
Definition DEFAULT_MAX_DATASET_MB : Q := 5.
Definition DEFAULT_STDOUT_MAX_MB : Q := 5.

Definition ALLOWED_DATASETS : list string := ["automobile"; "concrete"; "loan"].
Definition ALLOWED_META_LEARNERS : list string := ["linear"; "random_forest"; "xgboost"].

Definition array_includes (xs : list string) (x : string) : bool :=
  existsb (String.eqb x) xs.

Definition isValidDataset (dataset : string) : bool :=
  array_includes ALLOWED_DATASETS dataset.

Definition isValidMetaLearner (metaLearner : string) : bool :=
  array_includes ALLOWED_META_LEARNERS metaLearner.

Definition DATASET_FILES : list (string * string) :=
  [("automobile", "Automobile.csv");
   ("concrete", "Concrete.csv");
   ("loan", "Loan Approval.csv")].

Fixpoint assoc (k : string) (table : list (string * string)) : option string :=
  match table with
  | [] => None
  | (k', v) :: rest => if String.eqb k' k then Some v else assoc k rest
  end.

(** [path.join] on segments that need no normalisation. *)
Definition path_join (parts : list string) : string := join "/" parts.

(** A [FormData] whose entries are strings; [get] returns the first value
    stored under the name, or [null]. *)
Definition FormData : Type := list (string * string).

Definition formData_get (formData : FormData) (name : string) : value :=
  match assoc name formData with
  | Some s => Str s
  | None => Null
  end.

(** The string held by a value that is known to be a string. *)
Definition text (v : value) : string :=
  match v with Str s => s | _ => EmptyString end.

Definition ensureDatasetInfo (results : value) : completion unit :=
  if negb (isRecord (get results "dataset_info"))
  then Throw "Python results missing dataset_info"
  else Ok tt.

Section WithHost.
Variable B : Builtins.
Variable W : World.

Definition getNumberEnv (name : string) (fallback : Q) : Q :=
  match env W name with
  | None => fallback
  | Some raw =>
      if negb (truthy (Str raw)) then fallback
      else match ToNumber B (Str raw) with
           | NaN => fallback
           | Num parsed => if Qle_bool parsed 0 then fallback else parsed
           end
  end.

Definition PYTHON_COMMAND : string :=
  match env W "PYTHON_PATH" with
  | Some p => text (or (Str (trim p)) (Str "python"))
  | None => "python"
  end.

Definition PYTHON_TIMEOUT_MS : Q :=
  getNumberEnv "PYTHON_TIMEOUT_MS" DEFAULT_PYTHON_TIMEOUT_MS.
Definition MAX_DATASET_FILE_SIZE_BYTES : Q :=
  getNumberEnv "MAX_DATASET_MB" DEFAULT_MAX_DATASET_MB * 1024 * 1024.
Definition PYTHON_STDOUT_MAX_BYTES : Q :=
  getNumberEnv "PYTHON_STDOUT_MAX_MB" DEFAULT_STDOUT_MAX_MB * 1024 * 1024.

(** *** [executePythonScript] *)

(** The variables captured by the handlers, and the calls made so far to
    [resolve] and [reject] and to [pythonProcess.kill]. *)
Record exec_state : Type := {
  stdout : string;
  stderr : string;
  completed : bool;
  timer_armed : bool;
  kills : nat;
  settled : list (completion string)
}.

Definition exec_init : exec_state :=
  {| stdout := ""; stderr := ""; completed := false; timer_armed := true;
     kills := 0; settled := [] |}.

Definition code_text (code : option Z) : string :=
  match code with
  | Some c => NilEmpty.string_of_int (Z.to_int c)
  | None => "null"
  end.

(** One handler invocation. A timer that was cleared does not fire. *)
Definition exec_step (timeoutMs : Q) (st : exec_state) (e : proc_event) : exec_state :=
  match e with
  | TimerFired =>
      if negb (timer_armed st) then st
      else if completed st then
        {| stdout := stdout st; stderr := stderr st; completed := completed st;
           timer_armed := false; kills := kills st; settled := settled st |}
      else
        {| stdout := stdout st; stderr := stderr st; completed := true;
           timer_armed := false; kills := S (kills st);
           settled := (settled st ++
             [Throw ("Python script timed out after "
                     ++ Number_toString B timeoutMs ++ " ms")])%list |}
  | StdoutData data =>
      if completed st then st
      else
        let out := stdout st ++ data in
        if Qltb PYTHON_STDOUT_MAX_BYTES (inject_Z (length out)) then
          {| stdout := out; stderr := stderr st; completed := true;
             timer_armed := false; kills := S (kills st);
             settled := (settled st ++
               [Throw "Python script output exceeded allowed size limit"])%list |}
        else
          {| stdout := out; stderr := stderr st; completed := completed st;
             timer_armed := timer_armed st; kills := kills st;
             settled := settled st |}
  | StderrData data =>
      if completed st then st
      else
        {| stdout := stdout st; stderr := stderr st ++ data;
           completed := completed st; timer_armed := timer_armed st;
           kills := kills st; settled := settled st |}
  | Close code =>
      if completed st then st
      else
        let outcome :=
          match code with
          | Some 0 => Ok (stdout st)
          | _ => Throw ("Python script exited with code " ++ code_text code ++ ": "
                        ++ text (or (Str (stderr st)) (Str "No stderr output")))
          end in
        {| stdout := stdout st; stderr := stderr st; completed := true;
           timer_armed := false; kills := kills st;
           settled := (settled st ++ [outcome])%list |}
  | ProcError message =>
      if completed st then st
      else
        {| stdout := stdout st; stderr := stderr st; completed := true;
           timer_armed := false; kills := kills st;
           settled := (settled st ++
             [Throw ("Failed to start Python process: " ++ message)])%list |}
  end.

Definition exec_run (timeoutMs : Q) (trace : list proc_event) : exec_state :=
  fold_left (exec_step timeoutMs) trace exec_init.

(** The state of the promise: that of the first call to [resolve] or
    [reject]; [None] while it is pending. *)
Definition promise (st : exec_state) : option (completion string) :=
  match settled st with
  | [] => None
  | c :: _ => Some c
  end.

(** The handlers run over what the child does; the timer set by
    [setTimeout] fires after that unless it was cleared. *)
Definition executePythonScript_events (scriptPath : string) (args : list string)
  : list proc_event :=
  (child W PYTHON_COMMAND (scriptPath :: args) ++ [TimerFired])%list.

(** Awaiting the promise. It is never pending once the timer has fired, so
    the last branch is not taken. *)
Definition executePythonScript (scriptPath : string) (args : list string) : M string :=
  emit (Spawn PYTHON_COMMAND (scriptPath :: args)) ;;;
  match promise (exec_run PYTHON_TIMEOUT_MS (executePythonScript_events scriptPath args)) with
  | Some c => lift c
  | None => throw "Python script timed out"
  end.

(** *** The classification payload *)

Definition metric_names : list string :=
  ["accuracy"; "precision"; "recall"; "f1_score"].

Definition mapBase_entry (metricsObj : value) (key : string) : value :=
  Obj [("accuracy", coalesce (optGet (get metricsObj key) "accuracy") zero);
       ("precision", coalesce (optGet (get metricsObj key) "precision") zero);
       ("recall", coalesce (optGet (get metricsObj key) "recall") zero);
       ("f1_score", coalesce (optGet (get metricsObj key) "f1_score") zero)].

Definition mapBase_step (metricsObj : value) (out : list (string * value))
  (key : string) : list (string * value) :=
  if includes (toLowerCase key) "ensemble" then out
  else assign key (mapBase_entry metricsObj key) out.

Definition mapBase (metricsObj : value) : value :=
  Obj (fold_left (mapBase_step metricsObj) (keys (or metricsObj (Obj []))) []).

(** The arguments of [Math.max] are converted from the first to the last;
    the first conversion that throws ends the call. *)
Fixpoint numbers_of (vals : list value) : completion (list number) :=
  match vals with
  | [] => Ok []
  | v :: rest =>
      match ToNumberT B v with
      | Throw e => Throw e
      | Ok n =>
          match numbers_of rest with
          | Throw e => Throw e
          | Ok ns => Ok (n :: ns)
          end
      end
  end.

(** [vals.length ? Math.max(...vals) : 0]. *)
Definition bestBase (base : value) : completion number :=
  let vals := map (fun m => or (get m "accuracy") zero) (values base) in
  match numbers_of vals with
  | Throw e => Throw e
  | Ok [] => Ok (Num 0)
  | Ok (n :: ns) => Ok (Math_max n ns)
  end.

(** [ens.accuracy - bestBase(base)]: the right operand is evaluated before
    the two operands are converted. *)
Definition impRaw (ensemble base : value) : completion number :=
  if negb (is_undefined (get ensemble "accuracy"))
  then
    match bestBase base with
    | Throw e => Throw e
    | Ok best =>
        match ToNumberT B (get ensemble "accuracy") with
        | Throw e => Throw e
        | Ok accuracy => Ok (mul (sub accuracy best) (Num 100))
        end
    end
  else Ok (Num 0).

Definition fmtImp (x : number) : string :=
  match x with
  | NaN => "0%"
  | Num v => percent B v
  end.

Definition performance (ensemble : value) (imp : number) : value :=
  Obj [("accuracy", coalesce (get ensemble "accuracy") zero);
       ("precision", coalesce (get ensemble "precision") zero);
       ("recall", coalesce (get ensemble "recall") zero);
       ("f1_score", coalesce (get ensemble "f1_score") zero);
       ("improvement_over_best_base", Str (fmtImp imp));
       ("raw_improvement", Number imp)].

(** [pythonResults.voting || (pythonResults.ensembles?.voting || {})] and
    its stacking twin. *)
Definition methodOf (pythonResults : value) (name : string) : value :=
  or (get pythonResults name)
     (or (optGet (get pythonResults "ensembles") name) (Obj [])).

(** [voting?.metrics || voting?.base_models || {}]. *)
Definition metricsOf (method : value) : value :=
  or (or (optGet method "metrics") (optGet method "base_models")) (Obj []).

(** [votingMetrics["Voting Ensemble"] || {}]. *)
Definition ensembleOf (metrics : value) (label : string) : value :=
  or (get metrics label) (Obj []).

(** The [results] literal of the classification branch, given the two
    improvements. *)
Definition classificationPayload (pythonResults : value) (datasetId : string)
  (n_samples n_features : Z) (headers : list string) (target_variable : string)
  (votingImpRaw stackingImpRaw : number) : value :=
  let voting := methodOf pythonResults "voting" in
  let stacking := methodOf pythonResults "stacking" in
  let votingMetrics := metricsOf voting in
  let stackingMetrics := metricsOf stacking in
  let votingBase := mapBase votingMetrics in
  let votingEnsemble := ensembleOf votingMetrics "Voting Ensemble" in
  let stackingBase := mapBase stackingMetrics in
  let stackingEnsemble := ensembleOf stackingMetrics "Stacking Ensemble" in
  let info := get pythonResults "dataset_info" in
  Obj [("voting",
        Obj [("algorithm", Str "Voting Classifier");
             ("base_models", votingBase);
             ("ensemble_performance", performance votingEnsemble votingImpRaw);
             ("feature_importance", or (optGet voting "feature_importance") (Obj []));
             ("predictions_sample", or (optGet voting "predictions_sample") (Arr []));
             ("visualizations", or (optGet voting "visualizations") Null)]);
       ("stacking",
        Obj [("algorithm", Str "Stacking Classifier");
             ("base_models", stackingBase);
             ("meta_model_performance", performance stackingEnsemble stackingImpRaw);
             ("feature_importance", or (optGet stacking "feature_importance") (Obj []));
             ("predictions_sample", or (optGet stacking "predictions_sample") (Arr []));
             ("visualizations", or (optGet stacking "visualizations") Null)]);
       ("dataset_info",
        Obj [("dataset_id", Str datasetId);
             ("n_samples", coalesce (optGet info "n_samples") (Number (Num (inject_Z n_samples))));
             ("n_features", coalesce (optGet info "n_features") (Number (Num (inject_Z n_features))));
             ("feature_names", coalesce (optGet info "feature_names") (Arr (map Str headers)));
             ("is_classification", Bool true);
             ("n_classes", coalesce (optGet info "n_classes") Null);
             ("class_names", coalesce (optGet info "class_names") Null);
             ("task_type", Str "classification");
             ("target_variable", Str target_variable)])].

(** The classification branch of [processDataset], from [const voting] to
    the end of the [results] literal: the improvement of the voting part is
    computed first, then that of the stacking part, and a conversion that
    throws ends the branch. *)
Definition classificationResults (pythonResults : value) (datasetId : string)
  (n_samples n_features : Z) (headers : list string) (target_variable : string)
  : completion value :=
  let votingMetrics := metricsOf (methodOf pythonResults "voting") in
  let stackingMetrics := metricsOf (methodOf pythonResults "stacking") in
  match impRaw (ensembleOf votingMetrics "Voting Ensemble") (mapBase votingMetrics) with
  | Throw e => Throw e
  | Ok votingImpRaw =>
      match impRaw (ensembleOf stackingMetrics "Stacking Ensemble")
                   (mapBase stackingMetrics) with
      | Throw e => Throw e
      | Ok stackingImpRaw =>
          Ok (classificationPayload pythonResults datasetId n_samples n_features
                headers target_variable votingImpRaw stackingImpRaw)
      end
  end.

(** The regression branch: the [results] literal. *)
Definition regressionResults (pythonResults : value) (datasetId : string)
  (target_variable : string) : value :=
  let info := get pythonResults "dataset_info" in
  Obj [("voting", get pythonResults "voting");
       ("stacking", get pythonResults "stacking");
       ("dataset_info",
        Obj [("dataset_id", Str datasetId);
             ("n_samples", get info "n_samples");
             ("n_features", get info "n_features");
             ("feature_names", get info "feature_names");
             ("is_classification", or (get info "is_classification") (Bool false));
             ("n_classes", or (get info "n_classes") Null);
             ("class_names", or (get info "class_names") Null);
             ("task_type", Str (if truthy (get info "is_classification")
                                then "classification" else "regression"));
             ("target_variable", Str target_variable)])].

(** *** File system and parser calls *)

Definition existsSync (path : string) : M bool :=
  emit (ExistsSync path) ;;; ret (fs_exists W path).

Definition readFileSync (path : string) : M string :=
  emit (ReadFileSync path) ;;; lift (fs_read W path).

Definition statSync (path : string) : M Q :=
  emit (StatSync path) ;;; lift (fs_size W path).

Definition parse (s : string) : M value := lift (JSON_parse W s).

(** [JSON.stringify({ meta_learner: metaLearner })] for a meta-learner
    that passed [isValidMetaLearner] (nothing to escape). *)
Definition stringify_meta (metaLearner : string) : string :=
  let q := String DQUOTE EmptyString in
  "{" ++ q ++ "meta_learner" ++ q ++ ":" ++ q ++ metaLearner ++ q ++ "}".

(** *** CSV header and rows *)

Definition csv_lines (csvContent : string) : list string :=
  split LF (trim csvContent).

Definition csv_headers (lines : list string) : list string :=
  map trim (split "," (hd EmptyString lines)).

Definition csv_dataRows (lines : list string) : list string :=
  filter (fun line => truthy (Str (trim line))) (tl lines).

(** *** [processDataset] *)

Definition success_response (data : value) : value :=
  Obj [("success", Bool true); ("data", data)].

Definition failure_response (message : string) : value :=
  Obj [("success", Bool false); ("error", Str message)].

(** The [try] block over the two precomputed files; [Some r] when the
    block executes [return r]. *)
Definition loadPrecomputed (votingFile stackingFile : string) : M (option value) :=
  try_catch
    (votingText <- readFileSync votingFile ;;
     votingData <- parse votingText ;;
     stackingText <- readFileSync stackingFile ;;
     stackingData <- parse stackingText ;;
     votingOk <- lift (getT votingData "success") ;;
     bothOk <- (if truthy votingOk
                then (stackingOk <- lift (getT stackingData "success") ;;
                      ret (truthy stackingOk))
                else ret false) ;;
     if bothOk : bool then
       votingPayload <- lift (getT votingData "data") ;;
       voting <- lift (getT votingPayload "voting") ;;
       stackingPayload <- lift (getT stackingData "data") ;;
       stacking <- lift (getT stackingPayload "stacking") ;;
       votingInfo <- lift (getT votingPayload "dataset_info") ;;
       dataset_info <- (if truthy votingInfo then ret votingInfo
                        else lift (getT stackingPayload "dataset_info")) ;;
       ret (Some (success_response
                    (Obj [("voting", voting);
                          ("stacking", stacking);
                          ("dataset_info", dataset_info)])))
     else ret None)
    (fun _ => ret None).

Definition size_limit_message : string :=
  "Dataset file exceeds allowed size ("
  ++ toFixed B (MAX_DATASET_FILE_SIZE_BYTES / (1024 * 1024)) 1 ++ " MB)".

Definition checkDatasetSize (datasetsPath : string) : M unit :=
  try_catch
    (size <- statSync datasetsPath ;;
     if Qltb MAX_DATASET_FILE_SIZE_BYTES size
     then throw size_limit_message
     else ret tt)
    (fun _ => throw "Unable to access dataset file. Please verify the bundled data files are available on the server.").

Definition parsePythonOutput (stdout : string) : M value :=
  try_catch
    (jsonStr <- lift (extractJsonFromStdout stdout) ;;
     parse jsonStr)
    (fun _ => throw "Unable to parse machine learning results. Please check the server logs for details.").

Definition target_of (datasetId : string) (headers : list string) : string :=
  if String.eqb datasetId "automobile" then "mpg"
  else if String.eqb datasetId "concrete" then "concrete_compressive_strength"
  else last headers EmptyString.

(** Everything after the cache lookup: the live execution. *)
Definition runPipeline (datasetId metaLearner : string) : M value :=
  match assoc datasetId DATASET_FILES with
  | None => throw ("Unknown dataset: " ++ datasetId)
  | Some filename =>
      let datasetsPath := path_join [cwd W; "data"; filename] in
      checkDatasetSize datasetsPath ;;;
      csvContent <- readFileSync datasetsPath ;;
      let lines := csv_lines csvContent in
      let headers := csv_headers lines in
      let dataRows := csv_dataRows lines in
      let n_samples := Z.of_nat (List.length dataRows) in
      let n_features := Z.of_nat (List.length headers) - 1 in
      let isLoanClassification := String.eqb datasetId "loan" in
      let pythonScript :=
        if isLoanClassification
        then path_join [cwd W; "ml-scripts"; "run_ensemble_analysis.py"]
        else path_join [cwd W; "ml-scripts"; "run_ensemble.py"] in
      try_catch
        (let args :=
           if isLoanClassification
           then [datasetsPath; "both"; stringify_meta metaLearner]
           else [datasetsPath; metaLearner] in
         stdout <- executePythonScript pythonScript args ;;
         pythonResults <- parsePythonOutput stdout ;;
         let target_variable := target_of datasetId headers in
         if negb isLoanClassification then
           if negb (isRecord pythonResults)
           then throw "Python regression results are malformed"
           else
             lift (ensureDatasetInfo pythonResults) ;;;
             ret (success_response
                    (regressionResults pythonResults datasetId target_variable))
         else
           if negb (isRecord pythonResults)
           then throw "Python classification results are malformed"
           else
             lift (ensureDatasetInfo pythonResults) ;;;
             results <- lift (classificationResults pythonResults datasetId
                                n_samples n_features headers target_variable) ;;
             ret (success_response results))
        (fun errorMessage =>
           throw ("ML Processing Failed: " ++ errorMessage
                  ++ ". Please check if Python and required packages (scikit-learn, xgboost, pandas, numpy) are installed."))
  end.

Definition allowed_list (xs : list string) : string := join ", " xs.

Definition precomputedPath : string :=
  path_join [cwd W; "public"; "precomputed-results"].

Definition votingFile (datasetId : string) : string :=
  path_join [precomputedPath; datasetId ++ "-voting.json"].

Definition stackingFile (datasetId metaLearner : string) : string :=
  path_join [precomputedPath; datasetId ++ "-stacking-" ++ metaLearner ++ ".json"].

Definition processDataset (formData : FormData) : M value :=
  try_catch
    (let datasetId := formData_get formData "dataset" in
     let metaLearner := text (or (formData_get formData "meta_learner") (Str "linear")) in
     if negb (truthy datasetId) then throw "No dataset selected"
     else if negb (isValidDataset (text datasetId)) then
       throw ("Invalid dataset: " ++ text datasetId
              ++ ". Allowed values: " ++ allowed_list ALLOWED_DATASETS)
     else if negb (isValidMetaLearner metaLearner) then
       throw ("Invalid meta-learner: " ++ metaLearner
              ++ ". Allowed values: " ++ allowed_list ALLOWED_META_LEARNERS)
     else
       let datasetId := text datasetId in
       let votingFile := votingFile datasetId in
       let stackingFile := stackingFile datasetId metaLearner in
       votingExists <- existsSync votingFile ;;
       bothExist <- (if votingExists : bool then existsSync stackingFile else ret false) ;;
       cached <- (if bothExist : bool then loadPrecomputed votingFile stackingFile
                  else ret None) ;;
       match cached with
       | Some response => ret response
       | None => runPipeline datasetId metaLearner
       end)
    (fun message => ret (failure_response message)).

(** *** [getDatasetRows] *)

Definition getDatasetRows (datasetId : string) : M value :=
  try_catch
    (if negb (truthy (Str datasetId)) then throw "No dataset specified"
     else if negb (isValidDataset datasetId) then
       throw ("Invalid dataset: " ++ datasetId)
     else
       match assoc datasetId DATASET_FILES with
       | None => throw ("Unknown dataset: " ++ datasetId)
       | Some filename =>
           let datasetsPath := path_join [cwd W; "data"; filename] in
           csvContent <- readFileSync datasetsPath ;;
           let lines := csv_lines csvContent in
           let headers := csv_headers lines in
           let rows :=
             map (fun l => map trim (split "," l))
                 (filter (fun l => truthy (Str (trim l))) (tl lines)) in
           ret (Obj [("success", Bool true);
                     ("headers", Arr (map Str headers));
                     ("rows", Arr (map (fun r => Arr (map Str r)) rows))])
       end)
    (fun message => ret (failure_response message)).
End WithHost.
End Actions.

(* ================================================================= *)
(** ** [components/VisualizationDashboard.tsx]: metric post-processing *)

Module Dashboard.
Import JsString Js.

(** [{...v}]: the own enumerable properties of [v]; nothing for [null] and
    [undefined]. *)
Definition spread (v : value) : list (string * value) :=
  map (fun k => (k, get v k)) (keys v).

(** [Object.entries(metrics).forEach] of [baseModels]. *)
Definition transform_step (out : list (string * value)) (entry : string * value)
  : list (string * value) :=
  if negb (String.eqb (fst entry) "Voting Ensemble")
  then assign (fst entry) (snd entry) out
  else out.

Definition baseModels (methodData : value) : value :=
  let base := optGet methodData "base_models" in
  if truthy base && isRecord base then base
  else if truthy (optGet methodData "metrics") then
    Obj (fold_left transform_step (spread (optGet methodData "metrics")) [])
  else Obj [].

Definition primaryModelKey (isClassification : bool) (baseModels : value) : string :=
  if isClassification then
    if truthy (optGet baseModels "Logistic Regression")
    then "Logistic Regression" else "Linear Regression"
  else "Linear Regression".

(** [methodData?.predictions_sample] when it is an array, else [[]]. *)
Definition predictions (methodData : value) : list value :=
  match optGet methodData "predictions_sample" with
  | Arr items => items
  | _ => []
  end.

Definition ensemble (methodData : value) : value :=
  if truthy (optGet methodData "ensemble_performance")
  then optGet methodData "ensemble_performance"
  else if truthy (optGet methodData "meta_model_performance")
  then optGet methodData "meta_model_performance"
  else if truthy (optGet (optGet methodData "metrics") "Voting Ensemble")
  then get (get methodData "metrics") "Voting Ensemble"
  else if truthy (optGet (optGet methodData "metrics") "Stacking Ensemble")
  then get (get methodData "metrics") "Stacking Ensemble"
  else Null.

Section WithHost.
Variable B : Builtins.

(** The differences [actual - prediction] of the rows where both are
    finite. *)
Definition diff_of (predKey : string) (p : value) : option Q :=
  match ToNumber B (optGet p "actual"), ToNumber B (optGet p predKey) with
  | Num a, Num b => Some (a - b)%Q
  | _, _ => None
  end.

Fixpoint diffs_of (predKey : string) (preds : list value) : list Q :=
  match preds with
  | [] => []
  | p :: rest =>
      match diff_of predKey p with
      | Some d => d :: diffs_of predKey rest
      | None => diffs_of predKey rest
      end
  end.

Definition count (diffs : list Q) : Q := inject_Z (Z.of_nat (List.length diffs)).

(** The two means of [compute], its [reduce] over the differences divided
    by their number. Sums, squares and quotient are the exact ones: the
    rounding of each step in double arithmetic is not represented, so
    these definitions give the computation its shape and its value on
    inputs where no step rounds, and nothing is stated about how the two
    means compare. *)
Definition mean_abs (diffs : list Q) : Q :=
  (fold_left (fun s d => s + Qabs d) diffs 0 / count diffs)%Q.

Definition mean_square (diffs : list Q) : Q :=
  (fold_left (fun s d => s + d * d) diffs 0 / count diffs)%Q.

Definition compute (preds : list value) (predKey : string) : value :=
  let diffs := diffs_of predKey preds in
  match diffs with
  | [] => Obj [("rmse", zero); ("mae", zero)]
  | _ =>
      let mae := mean_abs diffs in
      let mse := mean_square diffs in
      let rmse := Math_sqrt B mse in
      Obj [("rmse", Number rmse); ("mae", Number (Num mae));
           ("isApproximate", Bool true)]
  end.

Definition needFix (baseModels : value) : bool :=
  negb (truthy (optGet (optGet baseModels "Linear Regression") "rmse"))
  || negb (truthy (optGet (optGet baseModels "Random Forest") "rmse"))
  || negb (truthy (optGet (optGet baseModels "XGBoost") "rmse")).

(** One entry of the object returned by [baseModelsEnhanced]. *)
Definition enhanced_entry (baseModels : value) (name : string) (approx : value)
  : value :=
  let old := optGet baseModels name in
  Obj (set "mae" (coalesce (optGet old "mae") (get approx "mae"))
         (set "rmse" (coalesce (optGet old "rmse") (get approx "rmse"))
            (spread old))).

Definition baseModelsEnhanced (isClassification : bool) (methodData : value)
  : value :=
  let baseModels := baseModels methodData in
  if isClassification then baseModels
  else
    let preds := predictions methodData in
    if negb (needFix baseModels) || (List.length preds =? 0)%nat then baseModels
    else
      let approxLinear := compute preds "linear_reg" in
      let approxRF := compute preds "random_forest" in
      let approxXGB := compute preds "xgboost" in
      Obj (set "XGBoost" (enhanced_entry baseModels "XGBoost" approxXGB)
             (set "Random Forest" (enhanced_entry baseModels "Random Forest" approxRF)
                (set "Linear Regression"
                   (enhanced_entry baseModels "Linear Regression" approxLinear)
                   (spread baseModels)))).

Definition metricKey (isClassification : bool) : string :=
  if isClassification then "accuracy" else "r2_score".

Definition is_plain_number (v : value) : bool :=
  match v with
  | Number (Num _) => true
  | _ => false
  end.

Definition number_of (v : value) : number :=
  match v with Number n => n | _ => NaN end.

Definition baseValues (isClassification : bool) (primary : string)
  (enhanced : value) : list number :=
  map number_of
    (filter is_plain_number
       (map (fun key => optGet (optGet enhanced key) (metricKey isClassification))
            [primary; "Random Forest"; "XGBoost"])).

Definition toFixed1 (n : number) : string :=
  match n with
  | NaN => "NaN"
  | Num q => toFixed B q 1
  end.

(** [derivedImprovement]: [null], or the object with [raw] and
    [formatted]. *)
Definition derivedImprovement (isClassification : bool) (primary : string)
  (enhanced ensemble : value) : value :=
  let ensembleVal := optGet ensemble (metricKey isClassification) in
  match baseValues isClassification primary enhanced with
  | [] => Null
  | v :: vs =>
      if negb (typeof_number ensembleVal) then Null
      else
        let bestBase := Math_max v vs in
        let raw := mul (sub (number_of ensembleVal) bestBase) (Num 100) in
        Obj [("raw", Number raw); ("formatted", Str (toFixed1 raw ++ "%"))]
  end.

End WithHost.
End Dashboard.

(* ================================================================= *)
(** ** A concrete host, for running the definitions *)

Module Host.
Import JsString Js Actions.

Definition digits (n : Z) : string :=
  NilEmpty.string_of_uint (N.to_uint (Z.to_N n)).

Fixpoint zeros (n : nat) : string :=
  match n with
  | O => EmptyString
  | S n' => String "0" (zeros n')
  end.

(** [x.toFixed(d)] in exact arithmetic: the nearest multiple of [10^-d],
    the larger one on a tie, computed on the absolute value. *)
Definition toFixed_exact (q : Q) (d : nat) : string :=
  let n := Qfloor (Qabs q * inject_Z (10 ^ Z.of_nat d) + (1 # 2)) in
  let ds := digits n in
  let padded := zeros (S d - String.length ds) ++ ds in
  let k := (String.length padded - d)%nat in
  (if Qltb q 0 then "-" else "")
  ++ take k padded
  ++ (if (d =? 0)%nat then "" else "." ++ drop k padded).

(** Square roots of the rationals whose numerator times denominator is a
    perfect square; rounded down otherwise. *)
Definition sqrt_floor (q : Q) : number :=
  if Qltb q 0 then NaN
  else Num (Z.sqrt (Qnum q * Zpos (Qden q)) # Qden q).

(** Strings of decimal digits with an optional sign. *)
Definition integer_of_string (v : value) : number :=
  match v with
  | Str s =>
      match NilEmpty.int_of_string (trim s) with
      | Some i => Num (inject_Z (Z.of_int i))
      | None => NaN
      end
  | _ => NaN
  end.

Definition builtins : Builtins :=
  {| ToNumber_rest := integer_of_string;
     toFixed := toFixed_exact;
     Number_toString := fun q => toFixed_exact q 0;
     Math_sqrt := sqrt_floor |}.

(** A server without precomputed results and without data files. *)
Definition bare : World :=
  {| cwd := "/srv";
     env := fun _ => None;
     fs_exists := fun _ => false;
     fs_read := fun _ => Throw "ENOENT: no such file or directory";
     fs_size := fun _ => Throw "ENOENT: no such file or directory";
     JSON_parse := fun _ => Throw "Unexpected end of JSON input";
     child := fun _ _ => [] |}.

(** A trainer output for the loan dataset in the live format: the
    gradient-boosting entry reports an accuracy only. *)
Definition scores (accuracy precision recall f1_score : Q) : value :=
  Obj [("accuracy", Number (Num accuracy));
       ("precision", Number (Num precision));
       ("recall", Number (Num recall));
       ("f1_score", Number (Num f1_score))].

Definition loan_voting_metrics : value :=
  Obj [("Logistic Regression", scores (90 # 100) (88 # 100) (91 # 100) (89 # 100));
       ("Random Forest", scores (94 # 100) (93 # 100) (95 # 100) (94 # 100));
       ("XGBoost", Obj [("accuracy", Number (Num (95 # 100))); ("precision", Null)]);
       ("Voting Ensemble", scores (97 # 100) (96 # 100) (97 # 100) (96 # 100))].

Definition loan_stacking_metrics : value :=
  Obj [("Logistic Regression", scores (90 # 100) (88 # 100) (91 # 100) (89 # 100));
       ("Random Forest", scores (94 # 100) (93 # 100) (95 # 100) (94 # 100));
       ("XGBoost", scores (95 # 100) (95 # 100) (96 # 100) (95 # 100));
       ("Stacking Ensemble", scores (93 # 100) (92 # 100) (94 # 100) (93 # 100))].

Definition loan_results : value :=
  Obj [("ensembles",
        Obj [("voting", Obj [("metrics", loan_voting_metrics)]);
             ("stacking", Obj [("metrics", loan_stacking_metrics)])]);
       ("dataset_info", Obj [("n_samples", Number (Num 4269))])].

(** The value of a call that completed. *)
Definition returned (c : completion value) : value :=
  match c with
  | Ok v => v
  | Throw _ => Undefined
  end.


(** A trainer output with a metric that is a text. *)
Definition text_metric_results : value :=
  Obj [("voting",
        Obj [("metrics",
              Obj [("XGBoost", Obj [("accuracy", Number (Num (90 # 100)));
                                    ("precision", Str "high")])])]);
       ("dataset_info", Obj [("n_samples", Number (Num 4269))])].

(** A trainer output with an accuracy that is an object with a property
    named [toString]. *)
Definition object_metric_results : value :=
  Obj [("voting",
        Obj [("metrics",
              Obj [("XGBoost",
                    Obj [("accuracy", Obj [("toString", Number (Num 1))])]);
                   ("Voting Ensemble",
                    Obj [("accuracy", Number (Num (97 # 100)))])])]);
       ("dataset_info", Obj [("n_samples", Number (Num 4269))])].

Definition loan_payload : value :=
  returned (classificationResults builtins loan_results "loan" 3 2
              ["income"; "score"; "approved"] "approved").



(** A server whose precomputed files exist; a file's text is its own path,
    and the parser reads the voting file of the automobile dataset as
    [votingData], its stacking file for the linear meta-learner as
    [stackingData]. The interpreter fails to start. *)
Definition cached (votingData stackingData : value) : World :=
  {| cwd := "/srv";
     env := fun _ => None;
     fs_exists := fun _ => true;
     fs_read := fun path => Ok path;
     fs_size := fun _ => Ok 1024%Q;
     JSON_parse := fun s =>
       if String.eqb s "/srv/public/precomputed-results/automobile-voting.json"
       then Ok votingData
       else if String.eqb s "/srv/public/precomputed-results/automobile-stacking-linear.json"
       then Ok stackingData
       else Throw "Unexpected token";
     child := fun _ _ => [ProcError "spawn python ENOENT"] |}.

Definition sample_voting : value := Obj [("algorithm", Str "Voting Regressor")].
Definition sample_stacking : value := Obj [("algorithm", Str "Stacking Regressor")].
Definition sample_info : value := Obj [("n_samples", Number (Num 398))].

(** Header plus [n] data rows. *)
Fixpoint csv_of (n : nat) : string :=
  match n with
  | O => "mpg,cylinders"
  | S n' => csv_of n' ++ String LF "18.0,8"
  end.

(** A server without precomputed files whose data files hold [csv]; the
    interpreter prints [printed] and exits with code 0, and the parser reads
    the text [payload] as [pythonResults]. *)
Definition live (csv printed : string) (pythonResults : value) : World :=
  {| cwd := "/srv";
     env := fun _ => None;
     fs_exists := fun _ => false;
     fs_read := fun _ => Ok csv;
     fs_size := fun _ => Ok 1024%Q;
     JSON_parse := fun s =>
       if String.eqb s "payload" then Ok pythonResults else Throw "Unexpected token";
     child := fun _ _ => [StderrData "warming up"; StdoutData printed; Close (Some 0)] |}.

(** Precomputed files that are marked successful. *)
Definition voting_file_full : value :=
  Obj [("success", Bool true);
       ("data", Obj [("voting", sample_voting); ("dataset_info", sample_info)])].

Definition stacking_file_full : value :=
  Obj [("success", Bool true);
       ("data", Obj [("stacking", sample_stacking); ("dataset_info", sample_info)])].

(** The same files without [dataset_info], and a voting file without
    [data]. *)
Definition voting_file_no_info : value :=
  Obj [("success", Bool true); ("data", Obj [("voting", sample_voting)])].

Definition stacking_file_no_info : value :=
  Obj [("success", Bool true); ("data", Obj [("stacking", sample_stacking)])].

Definition voting_file_no_data : value := Obj [("success", Bool true)].

(** A stacking result for a regression dataset in which the linear model
    comes without [rmse] and [mae], with a sample of two predictions. *)
Definition stacking_regression : value :=
  Obj [("base_models",
        Obj [("Linear Regression", Obj [("r2_score", Number (Num (80 # 100)))]);
             ("Random Forest",
              Obj [("r2_score", Number (Num (85 # 100)));
                   ("rmse", Number (Num 3)); ("mae", Number (Num 2))]);
             ("XGBoost",
              Obj [("r2_score", Number (Num (86 # 100)));
                   ("rmse", Number (Num 3)); ("mae", Number (Num 2))])]);
       ("predictions_sample",
        Arr [Obj [("actual", Number (Num 10)); ("linear_reg", Number (Num 9));
                  ("random_forest", Number (Num 11)); ("xgboost", Number (Num 10))];
             Obj [("actual", Number (Num 20)); ("linear_reg", Number (Num 13));
                  ("random_forest", Number (Num 19)); ("xgboost", Number (Num 21))]])].

(** A data file of 24 regular rows and a last row of one cell. *)
Definition ragged_csv : string := csv_of 24 ++ String LF "9".

(** The same result when the linear model lacks [mae] only. *)
Definition stacking_regression_mae_missing : value :=
  Obj [("base_models",
        Obj [("Linear Regression",
              Obj [("r2_score", Number (Num (80 # 100))); ("rmse", Number (Num 3))]);
             ("Random Forest",
              Obj [("r2_score", Number (Num (85 # 100)));
                   ("rmse", Number (Num 3)); ("mae", Number (Num 2))]);
             ("XGBoost",
              Obj [("r2_score", Number (Num (86 # 100)));
                   ("rmse", Number (Num 3)); ("mae", Number (Num 2))])]);
       ("predictions_sample", get stacking_regression "predictions_sample")].

End Host.

(* ================================================================= *)
(** ** The cache lookup and the live execution, as functions of the world *)

Section Reference.
Import JsString Js Actions.
Variable B : Builtins.
Variable W : World.

(** The outcome of the [try] block over the two precomputed files: the
    response it returns, if it returns one. *)
Definition cache_result (votingFile stackingFile : string) : option value :=
  match fs_read W votingFile with
  | Throw _ => None
  | Ok votingText =>
      match JSON_parse W votingText with
      | Throw _ => None
      | Ok votingData =>
          match fs_read W stackingFile with
          | Throw _ => None
          | Ok stackingText =>
              match JSON_parse W stackingText with
              | Throw _ => None
              | Ok stackingData =>
                  if truthy (get votingData "success")
                     && truthy (get stackingData "success")
                     && negb (nullish (get votingData "data"))
                     && negb (nullish (get stackingData "data"))
                  then
                    Some (success_response
                            (Obj [("voting", get (get votingData "data") "voting");
                                  ("stacking", get (get stackingData "data") "stacking");
                                  ("dataset_info",
                                   or (get (get votingData "data") "dataset_info")
                                      (get (get stackingData "data") "dataset_info"))]))
                  else None
              end
          end
      end
  end.

(** The file reads made by that block. *)
Definition cache_reads (votingFile stackingFile : string) : list event :=
  match fs_read W votingFile with
  | Throw _ => [ReadFileSync votingFile]
  | Ok votingText =>
      match JSON_parse W votingText with
      | Throw _ => [ReadFileSync votingFile]
      | Ok _ => [ReadFileSync votingFile; ReadFileSync stackingFile]
      end
  end.

(** The live execution under the outer [catch] of [processDataset]. *)
Definition liveExecution (datasetId metaLearner : string) : M value :=
  try_catch (runPipeline B W datasetId metaLearner)
            (fun message => ret (failure_response message)).

Definition is_spawn (e : event) : bool :=
  match e with
  | Spawn _ _ => true
  | _ => false
  end.

(** The output and the error text accumulated over [events] when they are
    data chunks only and the output stays within the cap; [None] when they
    hold a close, a start failure, the timer, or a chunk that passes the
    cap. *)
Fixpoint quiet (out err : string) (events : list proc_event)
  : option (string * string) :=
  match events with
  | [] => Some (out, err)
  | StdoutData data :: rest =>
      if Qltb (PYTHON_STDOUT_MAX_BYTES B W) (inject_Z (length (out ++ data)))
      then None
      else quiet (out ++ data) err rest
  | StderrData data :: rest => quiet out (err ++ data) rest
  | _ => None
  end.

Definition timeout_message (timeoutMs : Q) : string :=
  "Python script timed out after " ++ Number_toString B timeoutMs ++ " ms".

Definition exit_message (code : option Z) (err : string) : string :=
  "Python script exited with code " ++ code_text code ++ ": "
  ++ (if String.eqb err "" then "No stderr output" else err).

(** How the promise is settled by the first event that is not a chunk within
    the cap, and how many times the process is killed; the timer fires when
    nothing else does. *)
Fixpoint first_settlement (timeoutMs : Q) (out err : string)
  (events : list proc_event) : completion string * nat :=
  match events with
  | [] => (Throw (timeout_message timeoutMs), 1%nat)
  | StdoutData data :: rest =>
      if Qltb (PYTHON_STDOUT_MAX_BYTES B W) (inject_Z (length (out ++ data)))
      then (Throw "Python script output exceeded allowed size limit", 1%nat)
      else first_settlement timeoutMs (out ++ data) err rest
  | StderrData data :: rest => first_settlement timeoutMs out (err ++ data) rest
  | Close (Some 0) :: _ => (Ok out, 0%nat)
  | Close code :: _ => (Throw (exit_message code err), 0%nat)
  | ProcError message :: _ =>
      (Throw ("Failed to start Python process: " ++ message), 0%nat)
  | TimerFired :: _ => (Throw (timeout_message timeoutMs), 1%nat)
  end.
End Reference.

(* ================================================================= *)
(** ** [components/VisualizationDashboard.tsx]: the best base model *)

Module Best.
Import JsString Js.

(** The pair [bestBaseKey], [bestBaseVal] of the [forEach] loop;
    [bestBaseVal] is [None] while it still is minus infinity. *)
Definition best : Type := (option string * option Q)%type.

(** One round of the loop: a value of type number that is greater than the
    best so far replaces it; no comparison with [NaN] holds. *)
Definition best_step (enhanced : value) (metricKeyForBest : string)
  (acc : best) (k : string) : best :=
  match optGet (optGet enhanced k) metricKeyForBest with
  | Number (Num v) =>
      match snd acc with
      | None => (Some k, Some v)
      | Some bestBaseVal => if Qltb bestBaseVal v then (Some k, Some v) else acc
      end
  | _ => acc
  end.

Definition bestBase (isClassification : bool) (primaryModelKey : string)
  (enhanced : value) : best :=
  fold_left (best_step enhanced (Dashboard.metricKey isClassification))
            [primaryModelKey; "Random Forest"; "XGBoost"] (None, None).

End Best.

(* ================================================================= *)
(** ** [components/InteractiveCharts.tsx]: numbers and quality marks *)

Module Charts.
Import JsString Js.

(** The four object literals [getPerformanceQuality] returns; each label
    comes with one colour (and one icon). *)
Inductive quality : Type := Excellent | Good | Fair | Unknown.

Definition label (q : quality) : string :=
  match q with
  | Excellent => "Excellent"
  | Good => "Good"
  | Fair => "Fair"
  | Unknown => "Unknown"
  end.

Definition color (q : quality) : string :=
  match q with
  | Excellent => "#10b981"
  | Good => "#f59e0b"
  | Fair => "#ef4444"
  | Unknown => "#6b7280"
  end.

(** [value >= bound] and [value <= bound]; false on [NaN]. *)
Definition geq (value : number) (bound : Q) : bool :=
  match value with
  | NaN => false
  | Num v => Qle_bool bound v
  end.

Definition leq (value : number) (bound : Q) : bool :=
  match value with
  | NaN => false
  | Num v => Qle_bool v bound
  end.

Definition is_one_of (names : list string) (metric : string) : bool :=
  existsb (String.eqb metric) names.

Definition getPerformanceQuality (isConcrete : bool) (metric : string)
  (value : number) : quality :=
  if is_one_of ["r2"; "accuracy"; "mainMetric"] metric then
    if geq value (85 # 100) then Excellent
    else if geq value (75 # 100) then Good
    else Fair
  else if is_one_of ["precision"; "recall"; "f1"] metric then
    if geq value (85 # 100) then Excellent
    else if geq value (75 # 100) then Good
    else Fair
  else if is_one_of ["rmse"; "mae"] metric then
    let threshold : Q :=
      (if isConcrete then (if String.eqb metric "rmse" then 8 else 6)
       else (if String.eqb metric "rmse" then 3 else 2))%Q in
    if leq value threshold then Excellent
    else if leq value (threshold * (15 # 10))%Q then Good
    else Fair
  else Unknown.

Section WithHost.
Variable B : Builtins.

(** [toNum]: the number behind a value, zero when it is not finite. *)
Definition toNum (v : value) : Q :=
  match ToNumber B v with
  | NaN => 0%Q
  | Num n => n
  end.

Definition getMainMetric (isClassification : bool) (modelData : value) : value :=
  if isClassification
  then or (or (optGet modelData "accuracy") (optGet modelData "test_accuracy")) zero
  else or (optGet modelData "r2_score") zero.
End WithHost.

End Charts.

(* ================================================================= *)
(** ** [ml-scripts/check_precomputed.js] *)

Module CheckPrecomputed.
Import JsString Js Actions.

Definition DATASETS : list string := ["automobile"; "concrete"; "loan"].
Definition META_LEARNERS : list string := ["linear"; "random_forest"; "xgboost"].

(** The counters of [checkPrecomputed]. *)
Record tally : Type := {
  totalFiles : nat;
  validFiles : nat;
  missingFiles : list string
}.

Definition voting_name (dataset : string) : string := dataset ++ "-voting.json".

Definition stacking_name (dataset metaLearner : string) : string :=
  dataset ++ "-stacking-" ++ metaLearner ++ ".json".

(** The stacking file names in the order of the two nested [forEach]. *)
Definition stacking_names : list string :=
  flat_map (fun dataset => map (stacking_name dataset) META_LEARNERS) DATASETS.

Section WithWorld.
Variable W : World.
Variable PRECOMPUTED_DIR : string.

(** The body of the [try]: the file is read and parsed and [data.success]
    is truthy; anything thrown counts as invalid JSON. *)
Definition file_valid (filepath : string) : bool :=
  match fs_read W filepath with
  | Throw _ => false
  | Ok content =>
      match JSON_parse W content with
      | Throw _ => false
      | Ok data =>
          match getT data "success" with
          | Throw _ => false
          | Ok success => truthy success
          end
      end
  end.

Definition check_file (t : tally) (filename : string) : tally :=
  let filepath := path_join [PRECOMPUTED_DIR; filename] in
  if fs_exists W filepath then
    {| totalFiles := S (totalFiles t);
       validFiles := if file_valid filepath then S (validFiles t) else validFiles t;
       missingFiles := missingFiles t |}
  else
    {| totalFiles := S (totalFiles t);
       validFiles := validFiles t;
       missingFiles := (missingFiles t ++ [filename])%list |}.

Definition count_files : tally :=
  fold_left check_file stacking_names
    (fold_left check_file (map voting_name DATASETS)
       {| totalFiles := 0; validFiles := 0; missingFiles := [] |}).

(** The code with which [checkPrecomputed] exits. *)
Definition checkPrecomputed : Z :=
  if negb (fs_exists W PRECOMPUTED_DIR) then 1
  else
    let t := count_files in
    if (0 <? List.length (missingFiles t))%nat then 1
    else if (validFiles t =? totalFiles t)%nat then 0
    else 1.
End WithWorld.

End CheckPrecomputed.

(* ================================================================= *)
(** ** The live execution after the data file was read *)

Section LiveReference.
Import JsString Js Actions.
Variable B : Builtins.
Variable W : World.

Definition datasetsPath (filename : string) : string :=
  path_join [cwd W; "data"; filename].

Definition pythonScript (datasetId : string) : string :=
  if String.eqb datasetId "loan"
  then path_join [cwd W; "ml-scripts"; "run_ensemble_analysis.py"]
  else path_join [cwd W; "ml-scripts"; "run_ensemble.py"].

Definition pythonArgs (datasetId metaLearner filename : string) : list string :=
  if String.eqb datasetId "loan"
  then [datasetsPath filename; "both"; stringify_meta metaLearner]
  else [datasetsPath filename; metaLearner].

(** The spawn made for a request. *)
Definition spawn_of (datasetId metaLearner filename : string) : event :=
  Spawn (PYTHON_COMMAND W)
        (pythonScript datasetId :: pythonArgs datasetId metaLearner filename).

Definition python_hint : string :=
  ". Please check if Python and required packages (scikit-learn, xgboost, pandas, numpy) are installed.".

Definition wrapped (inner : string) : string :=
  "ML Processing Failed: " ++ inner ++ python_hint.

Definition parse_failure : string :=
  "Unable to parse machine learning results. Please check the server logs for details.".

Definition access_failure : string :=
  "Unable to access dataset file. Please verify the bundled data files are available on the server.".

(** What the [try] block around the interpreter yields once the data file
    holds [csvContent]. *)
Definition pipeline_result (datasetId metaLearner filename csvContent : string)
  : completion value :=
  let headers := csv_headers (csv_lines csvContent) in
  match fst (first_settlement B W (PYTHON_TIMEOUT_MS B W) "" ""
               (child W (PYTHON_COMMAND W)
                  (pythonScript datasetId :: pythonArgs datasetId metaLearner filename)))
  with
  | Throw rejection => Throw (wrapped rejection)
  | Ok out =>
      match Extract.extractJsonFromStdout out with
      | Throw _ => Throw (wrapped parse_failure)
      | Ok jsonStr =>
          match JSON_parse W jsonStr with
          | Throw _ => Throw (wrapped parse_failure)
          | Ok pythonResults =>
              if negb (isRecord pythonResults) then
                Throw (wrapped (if String.eqb datasetId "loan"
                                then "Python classification results are malformed"
                                else "Python regression results are malformed"))
              else if negb (isRecord (get pythonResults "dataset_info")) then
                Throw (wrapped "Python results missing dataset_info")
              else if String.eqb datasetId "loan" then
                match classificationResults B pythonResults datasetId
                        (Z.of_nat (List.length (csv_dataRows (csv_lines csvContent))))
                        (Z.of_nat (List.length headers) - 1)
                        headers (target_of datasetId headers)
                with
                | Throw e => Throw (wrapped e)
                | Ok results => Ok (success_response results)
                end
              else
                Ok (success_response
                      (regressionResults pythonResults datasetId
                         (target_of datasetId headers)))
          end
      end
  end.

(** The live execution as a function of the world. *)
Definition pipeline_outcome (datasetId metaLearner : string) (log : list event)
  : completion value * list event :=
  match assoc datasetId DATASET_FILES with
  | None => (Throw ("Unknown dataset: " ++ datasetId), log)
  | Some filename =>
      let stat := StatSync (datasetsPath filename) in
      let read := ReadFileSync (datasetsPath filename) in
      match fs_size W (datasetsPath filename) with
      | Throw _ => (Throw access_failure, (log ++ [stat])%list)
      | Ok size =>
          if Qltb (MAX_DATASET_FILE_SIZE_BYTES B W) size
          then (Throw access_failure, (log ++ [stat])%list)
          else
            match fs_read W (datasetsPath filename) with
            | Throw e => (Throw e, (log ++ [stat; read])%list)
            | Ok csvContent =>
                (pipeline_result datasetId metaLearner filename csvContent,
                 (log ++ [stat; read; spawn_of datasetId metaLearner filename])%list)
            end
      end
  end.
End LiveReference.

(* ================================================================= *)
(** ** [components/VisualizationDashboard.tsx]: what is on display *)

Module Flags.
Import JsString Js.

(** [v === "s"] and [v === true]. *)
Definition is_string (v : value) (s : string) : bool :=
  match v with
  | Str t => String.eqb t s
  | _ => false
  end.

Definition is_true (v : value) : bool :=
  match v with
  | Bool true => true
  | _ => false
  end.

Definition methodData (method : string) (results : value) : value :=
  if String.eqb method "stacking" then optGet results "stacking"
  else optGet results "voting".

Definition datasetInfo (results : value) : value := optGet results "dataset_info".

Definition isConcrete (datasetInfo : value) : bool :=
  is_string (optGet datasetInfo "target_variable") "concrete_compressive_strength".

Definition isAutomobile (datasetInfo : value) : bool :=
  is_string (optGet datasetInfo "target_variable") "mpg".

Definition isLoan (datasetInfo : value) : bool :=
  is_string (optGet datasetInfo "dataset_id") "loan".

Definition isClassification (datasetInfo : value) : bool :=
  is_true (optGet datasetInfo "is_classification")
  || is_string (optGet datasetInfo "task_type") "classification".

(** [themeColors.primary], [datasetUnitLabel] and [datasetSubject]. *)
Definition primary (datasetInfo : value) : string :=
  if isAutomobile datasetInfo then "red-500"
  else if isConcrete datasetInfo then "yellow-500"
  else "cyan-400".

Definition datasetUnitLabel (datasetInfo : value) : string :=
  if isClassification datasetInfo then "%"
  else if isConcrete datasetInfo then "MPa"
  else if isAutomobile datasetInfo then "MPG"
  else "%".

Definition datasetSubject (datasetInfo : value) : string :=
  if isConcrete datasetInfo then "concrete batch"
  else if isAutomobile datasetInfo then "car"
  else "loan applicant".

End Flags.

(* ================================================================= *)
(** ** [components/InteractiveCharts.tsx]: the feature chart *)

Module FeatureChart.
Import JsString Js.

(** One bar of the chart. *)
Record feature : Type := {
  name : string;
  importance : number;
  fullImportance : Q
}.

(** [xs.sort((a, b) => b.fullImportance - a.fullImportance)]: the sort is
    stable and every [fullImportance] is finite, so the result is the one of
    inserting each element, from the last to the first, before the first
    element that is not greater. *)
Fixpoint insert (x : feature) (sorted : list feature) : list feature :=
  match sorted with
  | [] => [x]
  | y :: rest =>
      if Qltb (fullImportance x) (fullImportance y) then y :: insert x rest
      else x :: y :: rest
  end.

Fixpoint sort (xs : list feature) : list feature :=
  match xs with
  | [] => []
  | x :: rest => insert x (sort rest)
  end.

Section WithHost.
Variable B : Builtins.
Variable toUpperCase : string -> string.

(** [w.charAt(0).toUpperCase() + w.slice(1)]. *)
Definition capitalize (w : string) : string :=
  toUpperCase (take 1 w) ++ drop 1 w.

Definition display_name (name : string) : string :=
  join " " (map capitalize (split "_" name)).

(** The callback of the [map] over [Object.entries(featureImportance)]. *)
Definition bar (featureImportance : value) (name : string) : feature :=
  let imp := Charts.toNum B (get featureImportance name) in
  {| name := display_name name;
     importance := ToNumber B (Str (toFixed B (imp * 100)%Q 1));
     fullImportance := imp |}.

Definition featureData (featureImportance : value) : list feature :=
  if truthy featureImportance
     && (0 <? List.length (keys featureImportance))%nat
  then firstn 8 (sort (map (bar featureImportance) (keys featureImportance)))
  else [].
End WithHost.

End FeatureChart.

(* ================================================================= *)
(** ** The dataset loader of the trainers *)

Module Loader.

(** Modelled from the spec: the error kinds of the pipeline, whose code
    (the Python trainers) is not among the sources. *)
Inductive error : Type :=
| DataFormatError
| TrainingError
| InsufficientDataError
| SchemaError.

(** Modelled from the spec: the raw tabular input of the trainers' loading
    step, a header row and the data rows, each a list of cells. *)
Record table : Type := {
  header : list string;
  rows : list (list string)
}.

(** Modelled from the spec: a loaded dataset of the trainers, the rows
    with the designated target column. *)
Record dataset : Type := {
  columns : list string;
  records : list (list string);
  target_column : string
}.

(** Modelled from the spec: the outcome of the trainers' loading step. *)
Inductive result : Type :=
| Loaded (d : dataset)
| Failed (e : error).

(** Modelled from the spec: the first condition of the trainers' loading
    step, that the target column is present. *)
Definition target_present (t : table) (target : string) : bool :=
  existsb (String.eqb target) (header t).

(** Modelled from the spec: the second condition of the trainers' loading
    step, that every row has the column count of the header. *)
Definition same_width (t : table) : bool :=
  forallb (fun row => (List.length row =? List.length (header t))%nat) (rows t).

(** Modelled from the spec: the third condition of the trainers' loading
    step, that the rows reach the minimum viable row count. *)
Definition enough_rows (min_rows : nat) (t : table) : bool :=
  (min_rows <=? List.length (rows t))%nat.

(** Modelled from the spec: the loading step of the Python trainers
    ([ml-scripts/run_ensemble.py] and [ml-scripts/run_ensemble_analysis.py],
    which [processDataset] spawns and which are not among the sources). Given raw tabular input and a target column name it returns a
    dataset, and fails with [DataFormatError] if the target column is
    absent, if any row has a different column count than the header, or if
    the dataset has fewer than the minimum viable row count [min_rows]
    (about 30; the text fixes only that 25 rows are too few). The inferred
    task type and the train/test split are left out. *)
Definition load (min_rows : nat) (t : table) (target : string) : result :=
  if negb (target_present t target) then Failed DataFormatError
  else if negb (same_width t) then Failed DataFormatError
  else if negb (enough_rows min_rows t) then Failed DataFormatError
  else Loaded {| columns := header t; records := rows t; target_column := target |}.

(** The table in a CSV text, read the way the server reads its data files:
    the first line is the header, the non-blank lines after it are the
    rows, cells are separated by commas and trimmed. *)
Definition table_of_csv (csvContent : string) : table :=
  let lines := Actions.csv_lines csvContent in
  {| header := Actions.csv_headers lines;
     rows := map (fun line => map JsString.trim (JsString.split "," line))
                 (Actions.csv_dataRows lines) |}.

End Loader.

(* ================================================================= *)
(** ** More sample worlds and values *)

Module Samples.
Import JsString Js Actions.

(** A server without precomputed files whose trainer answers for the loan
    dataset between the two markers. *)
Definition loan_world : World :=
  Host.live (Host.csv_of 2) "log RESULTS_JSON_START payload RESULTS_JSON_END"
    Host.loan_results.

Definition loan_request : FormData := [("dataset", "loan")].

Definition loan_response : value :=
  success_response
    (Host.returned
       (classificationResults Host.builtins Host.loan_results "loan" 2 1
          ["mpg"; "cylinders"] "cylinders")).

Definition loan_log : list event :=
  [ExistsSync "/srv/public/precomputed-results/loan-voting.json";
   StatSync "/srv/data/Loan Approval.csv";
   ReadFileSync "/srv/data/Loan Approval.csv";
   Spawn "python"
     ["/srv/ml-scripts/run_ensemble_analysis.py"; "/srv/data/Loan Approval.csv";
      "both"; stringify_meta "linear"]].

(** What [getDatasetRows] answers for the loan dataset on that server. *)
Definition loan_table : value :=
  Obj [("success", Bool true);
       ("headers", Arr [Str "mpg"; Str "cylinders"]);
       ("rows", Arr [Arr [Str "18.0"; Str "8"]; Arr [Str "18.0"; Str "8"]])].

(** A server whose data files are larger than the default limit of 5 MB. *)
Definition oversize_world : World :=
  {| cwd := "/srv";
     env := fun _ => None;
     fs_exists := fun _ => false;
     fs_read := fun _ => Ok "mpg";
     fs_size := fun _ => Ok (6 * 1024 * 1024)%Q;
     JSON_parse := fun _ => Throw "Unexpected token";
     child := fun _ _ => [] |}.

(** A server without precomputed files on which the interpreter cannot be
    started. *)
Definition failing_world : World :=
  {| cwd := "/srv";
     env := fun _ => None;
     fs_exists := fun _ => false;
     fs_read := fun _ => Ok "strength";
     fs_size := fun _ => Ok 1024%Q;
     JSON_parse := fun _ => Throw "Unexpected token";
     child := fun _ _ => [ProcError "spawn python ENOENT"] |}.

(** A server on which every precomputed file exists and is marked
    successful. *)
Definition precomputed_world : World :=
  {| cwd := "/srv";
     env := fun _ => None;
     fs_exists := fun _ => true;
     fs_read := fun path => Ok path;
     fs_size := fun _ => Ok 1024%Q;
     JSON_parse := fun s =>
       if includes s "-voting.json" then Ok Host.voting_file_full
       else Ok Host.stacking_file_full;
     child := fun _ _ => [ProcError "spawn python ENOENT"] |}.

(** A classification result as the trainer writes it, with [metrics] and no
    [base_models]. *)
Definition classification_method : value :=
  Obj [("metrics",
        Obj [("Logistic Regression", Obj [("accuracy", Number (Num (90 # 100)))]);
             ("Voting Ensemble", Null);
             ("Stacking Ensemble", Obj [("accuracy", Number (Num (93 # 100)))])])].

(** [toUpperCase] on the letters a to z; other code units are kept. *)
Definition upper_char (c : ascii) : ascii :=
  let n := code c in
  if ((97 <=? n) && (n <=? 122))%N then ascii_of_N (n - 32) else c.

Fixpoint toUpperCase (s : string) : string :=
  match s with
  | EmptyString => EmptyString
  | String c s' => String (upper_char c) (toUpperCase s')
  end.

(** A [feature_importance] of three features, one without a value. *)
Definition importances : value :=
  Obj [("engine_size", Number (Num (2 # 10)));
       ("weight", Number (Num (5 # 10)));
       ("model_year", Null)].

(** An environment that sets a time-out of 30 seconds and a negative limit
    for the data files. *)
Definition tuned_world : World :=
  {| cwd := "/srv";
     env := fun name =>
       if String.eqb name "PYTHON_TIMEOUT_MS" then Some "30000"
       else if String.eqb name "MAX_DATASET_MB" then Some "-3"
       else None;
     fs_exists := fun _ => false;
     fs_read := fun _ => Throw "ENOENT: no such file or directory";
     fs_size := fun _ => Throw "ENOENT: no such file or directory";
     JSON_parse := fun _ => Throw "Unexpected token";
     child := fun _ _ => [] |}.

End Samples.

(* ================================================================= *)
(** ** Predicates of the statements *)

(** Some opening brace of [s] is followed, later on, by a closing brace. *)
Definition brace_pair (s : string) : Prop :=
  exists a b : nat,
    (a < b)%nat /\ String.get a s = Some "{"%char /\ String.get b s = Some "}"%char.




(** A metric that is left out, [null], or of type number. *)
Definition number_or_absent (v : Js.value) : Prop :=
  match v with
  | Js.Undefined | Js.Null | Js.Number _ => True
  | _ => False
  end.

(** *** The Python bridge *)

(** The output chunks of a trace, concatenated in order, and the trace
    without its error chunks. *)
Fixpoint stdout_of (events : list Actions.proc_event) : string :=
  match events with
  | [] => ""
  | Actions.StdoutData data :: rest => data ++ stdout_of rest
  | _ :: rest => stdout_of rest
  end.

Definition is_stderr (e : Actions.proc_event) : bool :=
  match e with
  | Actions.StderrData _ => true
  | _ => false
  end.

Definition without_stderr (events : list Actions.proc_event)
  : list Actions.proc_event :=
  filter (fun e => negb (is_stderr e)) events.

(** *** Strings and cells *)

(** Whether the code unit [c] occurs in [s]; whether [s] starts, or ends,
    with white space. *)
Fixpoint has_char (c : ascii) (s : string) : bool :=
  match s with
  | EmptyString => false
  | String x s' => Ascii.eqb x c || has_char c s'
  end.

Definition first_white (s : string) : bool :=
  match s with
  | EmptyString => false
  | String c _ => JsString.is_white c
  end.

Fixpoint last_white (s : string) : bool :=
  match s with
  | EmptyString => false
  | String c EmptyString => JsString.is_white c
  | String _ s' => last_white s'
  end.

(** A cell of the table: no comma, no line feed, no white space at either
    end. *)
Definition clean_cell (c : string) : Prop :=
  has_char ","%char c = false
  /\ has_char JsString.LF c = false
  /\ first_white c = false
  /\ last_white c = false.

(** [t] occurs in [s] as a contiguous piece. *)
Definition piece_of (t s : string) : Prop := exists pre post, s = pre ++ t ++ post.

(** *** The calls of a request *)

(** What a request that passed validation asks about the precomputed
    files, and what it then does with the data file and the interpreter. *)
Definition probe_shapes (W : Actions.World) (datasetId metaLearner : string)
  : list (list Actions.event) :=
  let vf := Actions.votingFile W datasetId in
  let sf := Actions.stackingFile W datasetId metaLearner in
  [[Actions.ExistsSync vf];
   [Actions.ExistsSync vf; Actions.ExistsSync sf];
   [Actions.ExistsSync vf; Actions.ExistsSync sf; Actions.ReadFileSync vf];
   [Actions.ExistsSync vf; Actions.ExistsSync sf;
    Actions.ReadFileSync vf; Actions.ReadFileSync sf]].


(** *** The precomputed files *)

(** A file that exists and passes the [try] of the check, and a file that
    does not exist. *)
Definition file_ready (W : Actions.World) (PRECOMPUTED_DIR filename : string) : bool :=
  Actions.fs_exists W (Actions.path_join [PRECOMPUTED_DIR; filename])
  && CheckPrecomputed.file_valid W (Actions.path_join [PRECOMPUTED_DIR; filename]).

Definition file_missing (W : Actions.World) (PRECOMPUTED_DIR filename : string) : bool :=
  negb (Actions.fs_exists W (Actions.path_join [PRECOMPUTED_DIR; filename])).

(** The twelve file names in the order of the check. *)
Definition all_names : list string :=
  (map CheckPrecomputed.voting_name CheckPrecomputed.DATASETS
   ++ CheckPrecomputed.stacking_names)%list.

(** *** The dashboard *)

(** The metric of the model [k]. *)
Definition metric_at (enhanced : Js.value) (metricKeyForBest k : string) : Js.value :=
  Js.optGet (Js.optGet enhanced k) metricKeyForBest.

(** What the loop over the base models has established after the keys
    [ks]. *)
Definition best_of (enhanced : Js.value) (metricKeyForBest : string)
  (ks : list string) (acc : Best.best) : Prop :=
  match acc with
  | (Some k, Some v) =>
      exists pre post,
        ks = (pre ++ k :: post)%list
        /\ metric_at enhanced metricKeyForBest k = Js.Number (Js.Num v)
        /\ (forall k' v', In k' pre ->
                          metric_at enhanced metricKeyForBest k' = Js.Number (Js.Num v') ->
                          (v' < v)%Q)
        /\ (forall k' v', In k' post ->
                          metric_at enhanced metricKeyForBest k' = Js.Number (Js.Num v') ->
                          (v' <= v)%Q)
  | (None, None) =>
      forall k', In k' ks ->
                 Dashboard.is_plain_number (metric_at enhanced metricKeyForBest k') = false
  | _ => False
  end.

(** The plain numbers among some values. *)
Fixpoint plain_values (vs : list Js.value) : list Q :=
  match vs with
  | [] => []
  | Js.Number (Js.Num q) :: rest => q :: plain_values rest
  | _ :: rest => plain_values rest
  end.

(** *** The charts *)

(** The order of the marks, and the metrics of the two kinds. *)
Definition rank (q : Charts.quality) : nat :=
  match q with
  | Charts.Excellent => 3
  | Charts.Good => 2
  | Charts.Fair => 1
  | Charts.Unknown => 0
  end.

Definition score_metrics : list string :=
  ["r2"; "accuracy"; "mainMetric"; "precision"; "recall"; "f1"].

Definition error_metrics : list string := ["rmse"; "mae"].

(** [a] stands before [b] in the feature chart. *)
Definition before (a b : FeatureChart.feature) : Prop :=
  (FeatureChart.fullImportance b <= FeatureChart.fullImportance a)%Q.

Example extract_markers :
  Extract.extractJsonFromStdout
    "log {x} RESULTS_JSON_START  {a}  RESULTS_JSON_END tail }" = Ok "{a}".
Proof. reflexivity. Qed.

Example extract_braces :
  Extract.extractJsonFromStdout "noise {a{b}} more" = Ok "{a{b}}".
Proof. reflexivity. Qed.

Example extract_throws :
  Extract.extractJsonFromStdout "} no json {" =
  Throw "Failed to locate JSON output in Python response".
Proof. reflexivity. Qed.

Example toFixed_examples :
  (Host.toFixed_exact (5 # 1) 1, Host.toFixed_exact (-(1 # 25)) 1,
   Host.toFixed_exact (1 # 4) 1, Host.toFixed_exact (-(123456 # 1000)) 1,
   Host.toFixed_exact 120000 0)
  = ("5.0", "-0.0", "0.3", "-123.5", "120000").
Proof. reflexivity. Qed.

Example processDataset_invalid_dataset :
  Actions.processDataset Host.builtins Host.bare
    [("dataset", "invalid_dataset"); ("meta_learner", "linear")] []
  = (Ok (Actions.failure_response
           "Invalid dataset: invalid_dataset. Allowed values: automobile, concrete, loan"),
     []).
Proof. reflexivity. Qed.

Example processDataset_no_files :
  Actions.processDataset Host.builtins Host.bare
    [("dataset", "automobile"); ("meta_learner", "linear")] []
  = (Ok (Actions.failure_response
           "Unable to access dataset file. Please verify the bundled data files are available on the server."),
     [Actions.ExistsSync "/srv/public/precomputed-results/automobile-voting.json";
      Actions.StatSync "/srv/data/Automobile.csv"]).
Proof. reflexivity. Qed.

(* ================================================================= *)
(** ** Properties of the string operations *)

Section StringFacts.
Import JsString.

Lemma substring_take_drop (s : string) :
  forall n m, String.substring n m s = take m (drop n s).
Proof.
  induction s as [|c s IH]; intros [|n] [|m]; simpl; try reflexivity.
  - now rewrite IH.
  - now rewrite IH.
  - now rewrite IH.
Qed.

Lemma take_drop (s : string) : forall n, take n s ++ drop n s = s.
Proof.
  induction s as [|c s IH]; intros [|n]; simpl; try reflexivity.
  now rewrite IH.
Qed.

Lemma drop_drop (s : string) : forall a b, drop a (drop b s) = drop (b + a) s.
Proof.
  induction s as [|c s IH]; intros a [|b]; simpl; try reflexivity.
  - now destruct a.
  - apply IH.
Qed.

Lemma length_append (a b : string) :
  String.length (a ++ b) = (String.length a + String.length b)%nat.
Proof. induction a as [|c a IH]; simpl; [reflexivity | now rewrite IH]. Qed.

Lemma length_take (s : string) :
  forall n, String.length (take n s) = Nat.min n (String.length s).
Proof.
  induction s as [|c s IH]; intros [|n]; simpl; try reflexivity.
  now rewrite IH.
Qed.

Lemma length_drop (s : string) :
  forall n, String.length (drop n s) = (String.length s - n)%nat.
Proof.
  induction s as [|c s IH]; intros [|n]; simpl; try reflexivity.
  apply IH.
Qed.

(** An occurrence of [pat] at position [i] splits the string around it. *)
Lemma occurrence_split (pat s : string) (i : nat) :
  take (String.length pat) (drop i s) = pat ->
  s = take i s ++ pat ++ drop (i + String.length pat) s
  /\ (pat <> "" -> (i + String.length pat <= String.length s)%nat).
Proof.
  intros H. split.
  - rewrite <- (take_drop s i) at 1. f_equal.
    rewrite <- (take_drop (drop i s) (String.length pat)) at 1.
    now rewrite H, drop_drop.
  - intros Hne.
    assert (L : String.length pat = Nat.min (String.length pat) (String.length s - i)).
    { rewrite <- H at 1. now rewrite length_take, length_drop. }
    assert (0 < String.length pat)%nat by (destruct pat; [congruence | simpl; lia]).
    lia.
Qed.

Lemma index_occurrence (pat s : string) (i : nat) :
  String.index 0 pat s = Some i ->
  take (String.length pat) (drop i s) = pat.
Proof.
  intros H. apply index_correct1 in H. now rewrite substring_take_drop in H.
Qed.

(** The two markers cannot overlap: an end marker that starts after the
    start of a start marker starts after its end. *)
Lemma markers_apart (s : string) (i j : nat) :
  take 18 (drop i s) = Extract.markerStart ->
  take 16 (drop j s) = Extract.markerEnd ->
  (i < j)%nat -> (i + 18 <= j)%nat.
Proof.
  intros Hi Hj Hlt.
  destruct (le_lt_dec (i + 18) j) as [|Hov]; [assumption|exfalso].
  replace j with (i + (j - i))%nat in Hj by lia.
  rewrite <- drop_drop in Hj.
  rewrite <- (take_drop (drop i s) 18) in Hj. rewrite Hi in Hj.
  remember (j - i)%nat as k eqn:Hk.
  assert (Hk' : (1 <= k < 18)%nat) by lia. clear - Hj Hk'.
  unfold Extract.markerStart, Extract.markerEnd in Hj.
  destruct k as [|k]; [lia|].
  do 17 (destruct k as [|k]; [simpl in Hj; discriminate|]).
  lia.
Qed.
End StringFacts.

Section BraceFacts.
Import JsString.

Lemma substring_one_get (c : ascii) (s : string) :
  forall p, String.substring p 1 s = String c "" <-> String.get p s = Some c.
Proof.
  induction s as [|d s IH]; intros [|p]; simpl.
  - split; discriminate.
  - split; discriminate.
  - destruct s; simpl; split; intros H; inversion H; reflexivity.
  - apply IH.
Qed.

(** [indexOf] of one code unit finds its first occurrence. *)
Lemma indexOf_char (c : ascii) (s : string) :
  (indexOf s (String c "") = -1 /\ forall a, String.get a s <> Some c)
  \/ (exists i : nat, indexOf s (String c "") = Z.of_nat i
        /\ String.get i s = Some c
        /\ forall a, (a < i)%nat -> String.get a s <> Some c).
Proof.
  unfold indexOf. destruct (String.index 0 (String c "") s) as [i|] eqn:E.
  - right. exists i. split; [reflexivity|]. split.
    + apply substring_one_get. exact (index_correct1 _ _ _ _ E).
    + intros a Ha Hg. apply substring_one_get in Hg.
      exact (index_correct2 _ _ _ _ E a (Nat.le_0_l a) Ha Hg).
  - left. split; [reflexivity|]. intros a Hg. apply substring_one_get in Hg.
    refine (index_correct3 0 a _ _ E _ (Nat.le_0_l a) Hg). discriminate.
Qed.

Lemma prefix_char (c : ascii) (s : string) :
  String.prefix (String c "") s = true <-> String.get 0 s = Some c.
Proof.
  destruct s as [|d s]; simpl.
  - split; discriminate.
  - destruct (ascii_dec c d) as [->|N].
    + split; [reflexivity|]. intros _. now destruct s.
    + split; [discriminate|]. intros H. inversion H. congruence.
Qed.

Lemma lastIndexOf_from_char (c : ascii) (s : string) :
  forall i acc,
    (lastIndexOf_from (String c "") s i acc = acc
     /\ forall a, String.get a s <> Some c)
    \/ (exists l : nat,
          lastIndexOf_from (String c "") s i acc = i + Z.of_nat l
          /\ String.get l s = Some c
          /\ forall a, (l < a)%nat -> String.get a s <> Some c).
Proof.
  induction s as [|d s IH]; intros i acc.
  - left. split; [reflexivity|]. intros a. destruct a; discriminate.
  - cbn [lastIndexOf_from].
    destruct (String.prefix (String c "") (String d s)) eqn:P.
    + apply prefix_char in P.
      destruct (IH (i + 1) i) as [[E N]|[l [E [G N]]]].
      * right. exists 0%nat. rewrite E. split; [lia|]. split; [exact P|].
        intros [|a] Ha; [lia|]. apply N.
      * right. exists (S l). rewrite E. split; [lia|]. split; [exact G|].
        intros [|a] Ha; [lia|]. apply N. lia.
    + destruct (IH (i + 1) acc) as [[E N]|[l [E [G N]]]].
      * left. split; [exact E|]. intros [|a].
        -- intros G. apply prefix_char in G. congruence.
        -- apply N.
      * right. exists (S l). rewrite E. split; [lia|]. split; [exact G|].
        intros [|a] Ha; [lia|]. apply N. lia.
Qed.

(** [lastIndexOf] of one code unit finds its last occurrence. *)
Lemma lastIndexOf_char (c : ascii) (s : string) :
  (lastIndexOf s (String c "") = -1 /\ forall a, String.get a s <> Some c)
  \/ (exists l : nat, lastIndexOf s (String c "") = Z.of_nat l
        /\ String.get l s = Some c
        /\ forall a, (l < a)%nat -> String.get a s <> Some c).
Proof.
  unfold lastIndexOf.
  destruct (lastIndexOf_from_char c s 0 (-1)) as [H|[l [E H]]].
  - now left.
  - right. exists l. now rewrite E.
Qed.

Lemma get_length (s : string) :
  forall n c, String.get n s = Some c -> (n < String.length s)%nat.
Proof.
  induction s as [|d s IH]; intros [|n] c; simpl; try discriminate.
  - lia.
  - intros H. apply IH in H. lia.
Qed.
End BraceFacts.

Section ExtractFacts.
Import JsString Extract.

Lemma substring_within (s : string) (a b : nat) :
  (a <= b <= String.length s)%nat ->
  substring s (Z.of_nat a) (Z.of_nat b) = take (b - a) (drop a s).
Proof.
  intros H. unfold substring, clamp, length.
  rewrite !Z.max_l by lia.
  rewrite (Z.min_l (Z.of_nat a)), (Z.min_l (Z.of_nat b)) by lia.
  rewrite Z.min_l, Z.max_r by lia.
  rewrite Nat2Z.id. replace (Z.to_nat (Z.of_nat b - Z.of_nat a)) with (b - a)%nat by lia.
  apply substring_take_drop.
Qed.

(** A piece cut out of a string, with what is before and after it. *)
Lemma cut_out (s : string) (a b : nat) :
  (a <= b <= String.length s)%nat ->
  s = take a s ++ take (b - a) (drop a s) ++ drop b s
  /\ String.length (take a s) = a
  /\ String.length (take a s ++ take (b - a) (drop a s)) = b.
Proof.
  intros H. split; [|split].
  - rewrite <- (take_drop s a) at 1. f_equal.
    rewrite <- (take_drop (drop a s) (b - a)) at 1. f_equal.
    rewrite drop_drop. f_equal. lia.
  - rewrite length_take. lia.
  - rewrite length_append, !length_take, length_drop. lia.
Qed.

Lemma brace_pair_indices (s : string) :
  brace_pair s ->
  exists a b : nat, indexOf s "{" = Z.of_nat a /\ lastIndexOf s "}" = Z.of_nat b
                    /\ (a < b)%nat.
Proof.
  intros [a [b [Hab [Ga Gb]]]].
  destruct (indexOf_char "{" s) as [[_ N]|[i [Ei [_ Fi]]]]; [now elim (N a)|].
  destruct (lastIndexOf_char "}" s) as [[_ N]|[l [El [_ Fl]]]]; [now elim (N b)|].
  exists i, l. split; [exact Ei|]. split; [exact El|].
  assert (i <= a)%nat.
  { destruct (le_lt_dec i a) as [|L]; [assumption|]. now elim (Fi a L). }
  assert (b <= l)%nat.
  { destruct (le_lt_dec b l) as [|L]; [assumption|]. now elim (Fl b L). }
  lia.
Qed.

Lemma indexOf_range (s pat : string) : -1 <= indexOf s pat.
Proof. unfold indexOf. destruct (String.index 0 pat s); lia. Qed.

Lemma lastIndexOf_range (s : string) (c : ascii) : -1 <= lastIndexOf s (String c "").
Proof.
  destruct (lastIndexOf_char c s) as [[E _]|[l [E _]]]; rewrite E; lia.
Qed.

Lemma fallback_throws (stdout : string) :
  (indexOf stdout "{" =? -1) || (lastIndexOf stdout "}" =? -1)
  || (lastIndexOf stdout "}" <=? indexOf stdout "{") = true ->
  ~ brace_pair stdout.
Proof.
  intros H P. apply brace_pair_indices in P. destruct P as [a [b [Ea [Eb Hab]]]].
  rewrite Ea, Eb in H.
  apply orb_true_iff in H. destruct H as [H|H].
  - apply orb_true_iff in H. destruct H as [H|H]; apply Z.eqb_eq in H; lia.
  - apply Z.leb_le in H. lia.
Qed.
End ExtractFacts.

(** C6. When the start marker's first occurrence lies before the end
    marker's first occurrence, [extractJsonFromStdout] returns the trimmed
    text between the two markers, whatever surrounds them; when a marker is
    absent it returns the text from the first opening brace to the last
    closing brace, and it throws exactly when no opening brace is followed by
    a closing brace; it never throws unless that is the case. *)
Theorem extractJsonFromStdout_spec (stdout : string) :
  (forall i j : nat,
      JsString.indexOf stdout Extract.markerStart = Z.of_nat i ->
      JsString.indexOf stdout Extract.markerEnd = Z.of_nat j ->
      (i < j)%nat ->
      exists pre mid post,
        stdout = pre ++ Extract.markerStart ++ mid ++ Extract.markerEnd ++ post
        /\ String.length pre = i
        /\ String.length (pre ++ Extract.markerStart ++ mid) = j
        /\ Extract.extractJsonFromStdout stdout = Ok (JsString.trim mid))
  /\ (JsString.indexOf stdout Extract.markerStart = -1
      \/ JsString.indexOf stdout Extract.markerEnd = -1 ->
      (forall a b : nat,
          JsString.indexOf stdout "{" = Z.of_nat a ->
          JsString.lastIndexOf stdout "}" = Z.of_nat b ->
          (a < b)%nat ->
          exists pre body post,
            stdout = pre ++ body ++ post
            /\ String.length pre = a
            /\ String.length (pre ++ body) = S b
            /\ Extract.extractJsonFromStdout stdout = Ok body)
      /\ (~ brace_pair stdout ->
          Extract.extractJsonFromStdout stdout
          = Throw "Failed to locate JSON output in Python response"))
  /\ (forall message,
         Extract.extractJsonFromStdout stdout = Throw message -> ~ brace_pair stdout).
Proof.
  split; [|split].
  - intros i j Hi Hj Hlt.
    assert (Oi := Hi). assert (Oj := Hj).
    unfold JsString.indexOf in Oi, Oj.
    destruct (String.index 0 Extract.markerStart stdout) as [i'|] eqn:Ei; [|lia].
    destruct (String.index 0 Extract.markerEnd stdout) as [j'|] eqn:Ej; [|lia].
    assert (i' = i) by lia. assert (j' = j) by lia. subst i' j'.
    apply index_occurrence in Ei, Ej.
    assert (Hap := markers_apart stdout i j Ei Ej Hlt).
    destruct (occurrence_split _ _ _ Ej) as [_ Lj].
    assert (Hlen : (j + 16 <= String.length stdout)%nat) by (apply Lj; discriminate).
    destruct (occurrence_split _ _ _ Ei) as [Di _].
    change (String.length Extract.markerStart) with 18%nat in Di.
    exists (JsString.take i stdout),
           (JsString.take (j - (i + 18)) (JsString.drop (i + 18) stdout)),
           (JsString.drop (j + 16) stdout).
    split; [|split; [|split]].
    + rewrite Di at 1. do 2 f_equal.
      rewrite <- (take_drop (JsString.drop (i + 18) stdout) (j - (i + 18))) at 1.
      f_equal. rewrite drop_drop.
      replace (i + 18 + (j - (i + 18)))%nat with j by lia.
      rewrite <- (take_drop (JsString.drop j stdout) 16) at 1.
      change 16%nat with (String.length Extract.markerEnd) at 1.
      rewrite Ej, drop_drop. reflexivity.
    + rewrite length_take. lia.
    + rewrite !length_append, !length_take, length_drop.
      change (String.length Extract.markerStart) with 18%nat. lia.
    + unfold Extract.extractJsonFromStdout. rewrite Hi, Hj.
      replace (negb (Z.of_nat i =? -1)) with true
        by (destruct (Z.eqb_spec (Z.of_nat i) (-1)); [lia | reflexivity]).
      replace (negb (Z.of_nat j =? -1)) with true
        by (destruct (Z.eqb_spec (Z.of_nat j) (-1)); [lia | reflexivity]).
      replace (Z.of_nat j >? Z.of_nat i) with true
        by (symmetry; rewrite Z.gtb_ltb; apply Z.ltb_lt; lia).
      cbn [andb].
      replace (Z.of_nat i + JsString.length Extract.markerStart)
        with (Z.of_nat (i + 18)) by (unfold JsString.length; simpl; lia).
      rewrite substring_within by lia. reflexivity.
  - intros Habsent.
    assert (Hcond : negb (JsString.indexOf stdout Extract.markerStart =? -1)
                    && negb (JsString.indexOf stdout Extract.markerEnd =? -1)
                    && (JsString.indexOf stdout Extract.markerEnd
                        >? JsString.indexOf stdout Extract.markerStart) = false).
    { destruct Habsent as [E|E]; rewrite E; cbn [Z.eqb negb andb]; [reflexivity|].
      now rewrite andb_false_r. }
    split.
    + intros a b Ha Hb Hab.
      destruct (lastIndexOf_char "}" stdout) as [[E _]|[l [E [G _]]]]; [lia|].
      assert (l = b) by lia. subst l. apply get_length in G.
      destruct (cut_out stdout a (S b)) as [D [L1 L2]]; [lia|].
      exists (JsString.take a stdout),
             (JsString.take (S b - a) (JsString.drop a stdout)),
             (JsString.drop (S b) stdout).
      split; [exact D|]. split; [exact L1|]. split; [exact L2|].
      unfold Extract.extractJsonFromStdout. rewrite Hcond. rewrite Ha, Hb.
      replace (Z.of_nat a =? -1) with false
        by (symmetry; apply Z.eqb_neq; lia).
      replace (Z.of_nat b =? -1) with false
        by (symmetry; apply Z.eqb_neq; lia).
      replace (Z.of_nat b <=? Z.of_nat a) with false
        by (symmetry; apply Z.leb_gt; lia).
      cbn [orb].
      replace (Z.of_nat b + 1) with (Z.of_nat (S b)) by lia.
      rewrite substring_within by lia. reflexivity.
    + intros Hno. unfold Extract.extractJsonFromStdout. rewrite Hcond.
      destruct ((JsString.indexOf stdout "{" =? -1)
                || (JsString.lastIndexOf stdout "}" =? -1)
                || (JsString.lastIndexOf stdout "}" <=? JsString.indexOf stdout "{"))
        eqn:C; [reflexivity|exfalso].
      apply orb_false_iff in C. destruct C as [C C3].
      apply orb_false_iff in C. destruct C as [C1 C2].
      apply Z.eqb_neq in C1, C2. apply Z.leb_gt in C3.
      destruct (indexOf_char "{" stdout) as [[E _]|[a [Ea [Ga _]]]]; [congruence|].
      destruct (lastIndexOf_char "}" stdout) as [[E _]|[b [Eb [Gb _]]]]; [congruence|].
      apply Hno. exists a, b. split; [lia|]. now split.
  - intros message H. unfold Extract.extractJsonFromStdout in H.
    destruct (negb (JsString.indexOf stdout Extract.markerStart =? -1)
              && negb (JsString.indexOf stdout Extract.markerEnd =? -1)
              && (JsString.indexOf stdout Extract.markerEnd
                  >? JsString.indexOf stdout Extract.markerStart)); [discriminate|].
    destruct ((JsString.indexOf stdout "{" =? -1)
              || (JsString.lastIndexOf stdout "}" =? -1)
              || (JsString.lastIndexOf stdout "}" <=? JsString.indexOf stdout "{"))
      eqn:C; [|discriminate].
    now apply fallback_throws.
Qed.

Lemma extractJsonFromStdout_spec_witness :
  exists pre mid post,
    "log {x} RESULTS_JSON_START  {a}  RESULTS_JSON_END tail }"
    = pre ++ Extract.markerStart ++ mid ++ Extract.markerEnd ++ post
    /\ String.length pre = 8%nat
    /\ String.length (pre ++ Extract.markerStart ++ mid) = 33%nat
    /\ Extract.extractJsonFromStdout
         "log {x} RESULTS_JSON_START  {a}  RESULTS_JSON_END tail }"
       = Ok (JsString.trim mid).
Proof.
  apply (proj1 (extractJsonFromStdout_spec
                  "log {x} RESULTS_JSON_START  {a}  RESULTS_JSON_END tail }")
           8%nat 33%nat); [reflexivity | reflexivity | lia].
Defined.

(* ================================================================= *)
(** ** Properties of objects and of the case-insensitive key test *)

Section ObjectFacts.
Import JsString Js.

Lemma lookup_set_same (k : string) (v : value) (ps : list (string * value)) :
  lookup k (set k v ps) = Some v.
Proof.
  induction ps as [|[k' v'] ps IH]; simpl.
  - now rewrite String.eqb_refl.
  - destruct (String.eqb k' k) eqn:E; simpl; rewrite E; [reflexivity | exact IH].
Qed.

Lemma lookup_set_other (k k' : string) (v : value) (ps : list (string * value)) :
  k' <> k -> lookup k' (set k v ps) = lookup k' ps.
Proof.
  intros N. induction ps as [|[k0 v0] ps IH]; simpl.
  - destruct (String.eqb_spec k k'); [congruence | reflexivity].
  - destruct (String.eqb_spec k0 k) as [->|N0]; simpl.
    + destruct (String.eqb_spec k k'); [congruence | reflexivity].
    + destruct (String.eqb_spec k0 k'); [reflexivity | exact IH].
Qed.

Lemma lookup_in_keys (k : string) (ps : list (string * value)) :
  In k (keys (Obj ps)) <-> lookup k ps <> None.
Proof.
  unfold keys. rewrite nodup_In.
  induction ps as [|[k' v'] ps IH]; simpl.
  - tauto.
  - destruct (String.eqb_spec k' k) as [->|N].
    + split; [discriminate | now left].
    + rewrite <- IH. split; [intros [E|H]; [congruence | exact H] | now right].
Qed.

Lemma get_in_keys (ps : list (string * value)) (k : string) :
  ~ In k (keys (Obj ps)) -> get (Obj ps) k = Undefined.
Proof.
  rewrite lookup_in_keys. simpl. destruct (lookup k ps); [intros H; now elim H | reflexivity].
Qed.






Lemma toLowerCase_length (s : string) :
  String.length (toLowerCase s) = String.length s.
Proof. induction s as [|c s IH]; simpl; [reflexivity | now rewrite IH]. Qed.



End ObjectFacts.

(* ================================================================= *)
(** ** The normalised classification payload *)

Section MapBaseFacts.
Import JsString Js Actions.

Lemma lookup_assign_same (k : string) (v : value) (ps : list (string * value)) :
  k <> "__proto__" -> lookup k (assign k v ps) = Some v.
Proof.
  intros N. unfold assign. apply String.eqb_neq in N. rewrite N.
  apply lookup_set_same.
Qed.

Lemma lookup_assign_other (k k' : string) (v : value) (ps : list (string * value)) :
  k' <> k -> lookup k' (assign k v ps) = lookup k' ps.
Proof.
  intros N. unfold assign. destruct (String.eqb k "__proto__"); [reflexivity|].
  now apply lookup_set_other.
Qed.

Lemma lookup_assign_proto (k : string) (v : value) (ps : list (string * value)) :
  lookup "__proto__" (assign k v ps) = lookup "__proto__" ps.
Proof.
  unfold assign. destruct (String.eqb_spec k "__proto__") as [->|N]; [reflexivity|].
  apply lookup_set_other. congruence.
Qed.

Lemma mapBase_fold_skip (m : value) (key : string) (ks : list string) :
  forall acc,
    includes (toLowerCase key) "ensemble" = true \/ key = "__proto__" \/ ~ In key ks ->
    lookup key (fold_left (mapBase_step m) ks acc) = lookup key acc.
Proof.
  induction ks as [|k ks IH]; intros acc H; simpl; [reflexivity|].
  rewrite IH.
  - unfold mapBase_step.
    destruct (includes (toLowerCase k) "ensemble") eqn:E; [reflexivity|].
    destruct H as [H|[->|H]].
    + apply lookup_assign_other. intros ->. congruence.
    + apply lookup_assign_proto.
    + apply lookup_assign_other. intros ->. apply H. now left.
  - destruct H as [H|[H|H]]; [now left | right; now left |].
    right. right. intros I. apply H. now right.
Qed.

Lemma mapBase_fold_hit (m : value) (key : string) (ks : list string) :
  forall acc,
    includes (toLowerCase key) "ensemble" = false -> key <> "__proto__" ->
    In key ks ->
    lookup key (fold_left (mapBase_step m) ks acc) = Some (mapBase_entry m key).
Proof.
  induction ks as [|k ks IH]; intros acc E P I; simpl; [now elim I|].
  destruct (in_dec string_dec key ks) as [I'|N]; [now apply IH|].
  destruct I as [->|I]; [|contradiction].
  rewrite mapBase_fold_skip by (right; now right).
  unfold mapBase_step. rewrite E. now apply lookup_assign_same.
Qed.




Lemma mapBase_keys_upstream (m : value) (key : string) :
  In key (keys (mapBase m)) ->
  In key (keys (or m (Obj []))) /\ get (mapBase m) key = mapBase_entry m key.
Proof.
  unfold mapBase. rewrite lookup_in_keys. intros H.
  destruct (string_dec key "__proto__") as [P|P].
  { rewrite mapBase_fold_skip in H by (right; now left). now elim H. }
  destruct (in_dec string_dec key (keys (or m (Obj [])))) as [I|N].
  - split; [exact I|].
    destruct (includes (toLowerCase key) "ensemble") eqn:E.
    + rewrite mapBase_fold_skip in H by now left. now elim H.
    + simpl. now rewrite (mapBase_fold_hit m key _ [] E P I).
  - rewrite mapBase_fold_skip in H by (right; now right). now elim H.
Qed.

Lemma mapBase_entry_field (m : value) (key f : string) :
  In f metric_names ->
  get (mapBase_entry m key) f = coalesce (optGet (get m key) f) zero.
Proof.
  intros I. repeat (destruct I as [<-|I]; [reflexivity|]). now elim I.
Qed.

Variable B : Builtins.

(** The payload, when the branch returns one. *)
Lemma classificationResults_payload p d n f h t (result : value) :
  classificationResults B p d n f h t = Ok result ->
  exists votingImpRaw stackingImpRaw,
    impRaw B (ensembleOf (metricsOf (methodOf p "voting")) "Voting Ensemble")
      (mapBase (metricsOf (methodOf p "voting"))) = Ok votingImpRaw
    /\ impRaw B (ensembleOf (metricsOf (methodOf p "stacking")) "Stacking Ensemble")
         (mapBase (metricsOf (methodOf p "stacking"))) = Ok stackingImpRaw
    /\ result = classificationPayload B p d n f h t votingImpRaw stackingImpRaw.
Proof.
  unfold classificationResults. intros H.
  destruct (impRaw B (ensembleOf (metricsOf (methodOf p "voting")) "Voting Ensemble") _)
    as [v|]; [|discriminate].
  destruct (impRaw B (ensembleOf (metricsOf (methodOf p "stacking")) "Stacking Ensemble") _)
    as [s|]; [|discriminate].
  inversion H. now exists v, s.
Qed.


End MapBaseFacts.


(* ================================================================= *)
(** ** Improvement over the best base model *)

Section MaxFacts.
Import Js.
Local Open Scope Q_scope.

Variable B : Builtins.

Lemma Math_max_greatest (vs : list Q) :
  forall v, exists m,
    Math_max (Num v) (map Num vs) = Num m
    /\ In m (v :: vs) /\ forall q, In q (v :: vs) -> q <= m.
Proof.
  unfold Math_max.
  induction vs as [|x vs IH]; intros v; simpl.
  - exists v. split; [reflexivity|]. split; [now left|].
    intros q [<-|[]]. apply Qle_refl.
  - destruct (Qle_bool v x) eqn:E.
    + destruct (IH x) as [m [Hm [Hin Hle]]]. exists m.
      split; [exact Hm|]. split; [now right|].
      apply Qle_bool_iff in E.
      intros q [<-|Hq]; [|now apply Hle].
      apply Qle_trans with x; [exact E | apply Hle; now left].
    + destruct (IH v) as [m [Hm [Hin Hle]]]. exists m.
      split; [exact Hm|]. split.
      * destruct Hin as [<-|Hin]; [now left | now right; right].
      * assert (Hxv : x <= v).
        { apply Qlt_le_weak, Qnot_le_lt. intros L.
          apply Qle_bool_iff in L. congruence. }
        intros q [<-|[<-|Hq]].
        -- apply Hle. now left.
        -- apply Qle_trans with v; [exact Hxv | apply Hle; now left].
        -- apply Hle. now right.
Qed.





End MaxFacts.

Section ImprovementFacts.
Import Js Actions.
Local Open Scope Q_scope.

Variable B : Builtins.




(** The plain numbers among the metrics of some models. *)
Lemma plain_values_map (vs : list value) :
  map Dashboard.number_of (filter Dashboard.is_plain_number vs)
  = map Num (plain_values vs).
Proof.
  induction vs as [|v vs IH]; simpl; [reflexivity|].
  destruct v as [| |b|[|q]|s|items|props]; simpl; try exact IH.
  now rewrite IH.
Qed.

Lemma plain_values_In (enhanced : value) (metricKeyForBest : string)
  (ks : list string) (q : Q) :
  In q (plain_values (map (metric_at enhanced metricKeyForBest) ks))
  <-> exists k, In k ks /\ metric_at enhanced metricKeyForBest k = Number (Num q).
Proof.
  induction ks as [|k ks IH]; simpl.
  - split; [intros [] | intros [k [[] _]]].
  - destruct (metric_at enhanced metricKeyForBest k) as [| |b|[|w]|s|items|props] eqn:M;
      try (rewrite IH; split;
           [ intros [k' [I E]]; exists k'; split; [now right | exact E]
           | intros [k' [[<-|I] E]]; [congruence | now exists k'] ]).
    simpl. rewrite IH. split.
    + intros [<-|[k' [I E]]]; [exists k; split; [now left | exact M]|].
      exists k'. split; [now right | exact E].
    + intros [k' [[<-|I] E]].
      * left. congruence.
      * right. now exists k'.
Qed.

End ImprovementFacts.


(** The payload of the sample run. *)
Lemma loan_payload_run :
  Actions.classificationResults Host.builtins Host.loan_results "loan" 3 2
    ["income"; "score"; "approved"] "approved" = Ok Host.loan_payload.
Proof. vm_compute. reflexivity. Qed.




Section DefaultFacts.
Import Js Actions.

Lemma coalesce_zero_number (v : value) :
  (nullish v = true -> coalesce v zero = zero)
  /\ (nullish v = false -> coalesce v zero = v)
  /\ (number_or_absent v -> typeof_number (coalesce v zero) = true).
Proof. destruct v; simpl; repeat split; try discriminate; try contradiction. Qed.

Variable B : Builtins.

Lemma performance_field (ens : value) (imp : number) (f : string) :
  In f metric_names ->
  get (performance B ens imp) f = coalesce (get ens f) zero.
Proof.
  intros I. repeat (destruct I as [<-|I]; [reflexivity|]). now elim I.
Qed.
End DefaultFacts.

(** C10 (as amended). In every normalised classification payload every
    metric field of every base model and of [ensemble_performance] /
    [meta_model_performance] is the upstream value when upstream has one,
    whatever its type, and [0] when upstream leaves it out or sends [null],
    so that an absent metric cannot be told from a genuine zero; it is of
    type number whenever the upstream value, if any, is a number. A missing
    [feature_importance] becomes the empty object and a missing
    [predictions_sample] the empty array. *)
Theorem metric_defaults_spec (B : Js.Builtins) (pythonResults : Js.value)
  (datasetId : string) (n_samples n_features : Z) (headers : list string)
  (target_variable part perf label : string) (result : Js.value) :
  (part = "voting" /\ perf = "ensemble_performance" /\ label = "Voting Ensemble")
  \/ (part = "stacking" /\ perf = "meta_model_performance"
      /\ label = "Stacking Ensemble") ->
  Actions.classificationResults B pythonResults datasetId
    n_samples n_features headers target_variable = Ok result ->
  let method := Actions.methodOf pythonResults part in
  let upstream := Actions.metricsOf method in
  let base_models := Js.get (Js.get result part) "base_models" in
  let performance := Js.get (Js.get result part) perf in
  (forall key f, In key (Js.keys base_models) -> In f Actions.metric_names ->
      let sent := Js.optGet (Js.get upstream key) f in
      let shown := Js.get (Js.get base_models key) f in
      (Js.nullish sent = true -> shown = Js.zero)
      /\ (Js.nullish sent = false -> shown = sent)
      /\ (number_or_absent sent -> Js.typeof_number shown = true))
  /\ (forall f, In f Actions.metric_names ->
      let sent := Js.get (Actions.ensembleOf upstream label) f in
      let shown := Js.get performance f in
      (Js.nullish sent = true -> shown = Js.zero)
      /\ (Js.nullish sent = false -> shown = sent)
      /\ (number_or_absent sent -> Js.typeof_number shown = true))
  /\ (Js.nullish (Js.optGet method "feature_importance") = true ->
      Js.get (Js.get result part) "feature_importance" = Js.Obj [])
  /\ (Js.nullish (Js.optGet method "predictions_sample") = true ->
      Js.get (Js.get result part) "predictions_sample" = Js.Arr []).
Proof.
  intros Hpart R method upstream base_models performance.
  destruct (classificationResults_payload B _ _ _ _ _ _ _ R) as [v [s [_ [_ ->]]]].
  assert (Hbase : base_models = Actions.mapBase upstream).
  { subst base_models upstream method.
    destruct Hpart as [[-> _] | [-> _]]; reflexivity. }
  assert (Hperf : exists imp,
             performance
             = Actions.performance B (Actions.ensembleOf upstream label) imp).
  { subst performance upstream method.
    destruct Hpart as [[-> [-> ->]] | [-> [-> ->]]]; eexists; reflexivity. }
  destruct Hperf as [imp Hperf].
  assert (Hfi : Js.get (Js.get (Actions.classificationPayload B pythonResults datasetId
                                  n_samples n_features headers target_variable v s)
                          part) "feature_importance"
                = Js.or (Js.optGet method "feature_importance") (Js.Obj [])).
  { subst method. destruct Hpart as [[-> _] | [-> _]]; reflexivity. }
  assert (Hps : Js.get (Js.get (Actions.classificationPayload B pythonResults datasetId
                                  n_samples n_features headers target_variable v s)
                          part) "predictions_sample"
                = Js.or (Js.optGet method "predictions_sample") (Js.Arr [])).
  { subst method. destruct Hpart as [[-> _] | [-> _]]; reflexivity. }
  split; [|split; [|split]].
  - intros key f Ik If sent shown.
    assert (E : shown = Js.coalesce sent Js.zero).
    { subst shown sent. rewrite Hbase in *.
      destruct (mapBase_keys_upstream upstream key Ik) as [_ G].
      rewrite G. now apply mapBase_entry_field. }
    rewrite E. apply coalesce_zero_number.
  - intros f If sent shown.
    assert (E : shown = Js.coalesce sent Js.zero).
    { subst shown sent. rewrite Hperf. now apply performance_field. }
    rewrite E. apply coalesce_zero_number.
  - intros N. rewrite Hfi.
    destruct (Js.optGet method "feature_importance"); try discriminate; reflexivity.
  - intros N. rewrite Hps.
    destruct (Js.optGet method "predictions_sample"); try discriminate; reflexivity.
Qed.

Lemma metric_defaults_spec_witness :
  Js.get (Js.get (Js.get (Js.get Host.loan_payload "voting") "base_models") "XGBoost")
    "recall" = Js.zero
  /\ Js.typeof_number
       (Js.get (Js.get (Js.get Host.loan_payload "voting") "ensemble_performance")
          "f1_score") = true
  /\ Js.get (Js.get Host.loan_payload "voting") "feature_importance" = Js.Obj []
  /\ Js.get (Js.get Host.loan_payload "voting") "predictions_sample" = Js.Arr [].
Proof.
  pose proof (metric_defaults_spec Host.builtins Host.loan_results "loan" 3 2
                ["income"; "score"; "approved"] "approved" "voting"
                "ensemble_performance" "Voting Ensemble" Host.loan_payload
                (or_introl (conj eq_refl (conj eq_refl eq_refl)))
                loan_payload_run)
    as [Hbase [Hperf [Hfi Hps]]].
  split; [|split; [|split]].
  - refine (proj1 (Hbase "XGBoost" "recall" _ _) eq_refl).
    + vm_compute. tauto.
    + simpl. tauto.
  - refine (proj2 (proj2 (Hperf "f1_score" _)) I). simpl. tauto.
  - exact (Hfi eq_refl).
  - exact (Hps eq_refl).
Defined.

(** C10, as the claim states it, fails where the trainer sends a metric
    that is not a number: the string passes [?? 0] and is shown as it is. *)
Lemma metric_defaults_counterexample :
  exists result,
    Actions.classificationResults Host.builtins Host.text_metric_results "loan" 3 2
      ["income"; "score"; "approved"] "approved" = Ok result
    /\ In "XGBoost" (Js.keys (Js.get (Js.get result "voting") "base_models"))
    /\ Js.get (Js.get (Js.get (Js.get result "voting") "base_models") "XGBoost")
         "precision" = Js.Str "high"
    /\ Js.typeof_number
         (Js.get (Js.get (Js.get (Js.get result "voting") "base_models") "XGBoost")
            "precision") = false.
Proof.
  eexists. split; [vm_compute; reflexivity|].
  split; [vm_compute; tauto|]. split; reflexivity.
Qed.

(* ================================================================= *)
(** ** The Python bridge *)

Section BridgeFacts.
Import JsString Js Actions.
Variable B : Builtins.
Variable W : World.
Variable timeoutMs : Q.

(** Once [completed] is set, no handler touches the promise or the process. *)
Lemma completed_frozen (events : list proc_event) :
  forall st, completed st = true ->
    settled (fold_left (exec_step B W timeoutMs) events st) = settled st
    /\ kills (fold_left (exec_step B W timeoutMs) events st) = kills st.
Proof.
  induction events as [|e events IH]; intros st C; [now split|].
  simpl fold_left.
  assert (S : completed (exec_step B W timeoutMs st e) = true
              /\ settled (exec_step B W timeoutMs st e) = settled st /\ kills (exec_step B W timeoutMs st e) = kills st).
  { destruct e; simpl; rewrite C; try (now repeat split).
    destruct (timer_armed st); now repeat split. }
  destruct S as [C' [S K]]. destruct (IH _ C') as [S' K'].
  split; congruence.
Qed.

Lemma exit_text (err : string) :
  text (or (Str err) (Str "No stderr output"))
  = if String.eqb err "" then "No stderr output" else err.
Proof. unfold or. simpl. now destruct (String.eqb err ""). Qed.

(** The state left by a handler that has settled the promise, and the state
    left by one that has not. *)
Ltac settled_now events :=
  match goal with
  | |- context [fold_left _ _ ?s] =>
      destruct (completed_frozen (events ++ [TimerFired]) s eq_refl) as [-> ->]
  end.

Ltac still_pending IH T :=
  match goal with
  | |- context [fold_left _ _ ?s] => destruct (IH s eq_refl T) as [-> ->]
  end.

(** The handlers settle the promise as [first_settlement] says, once. *)
Lemma run_settles (events : list proc_event) :
  forall st,
    completed st = false -> timer_armed st = true ->
    let final := fold_left (exec_step B W timeoutMs) (events ++ [TimerFired]) st in
    settled final
    = (settled st
       ++ [fst (first_settlement B W timeoutMs (stdout st) (stderr st) events)])%list
    /\ kills final
       = (kills st
          + snd (first_settlement B W timeoutMs (stdout st) (stderr st) events))%nat.
Proof.
  induction events as [|e events IH]; intros st C T final; subst final.
  - simpl. rewrite T, C. simpl. split; [reflexivity | lia].
  - simpl app. simpl fold_left.
    destruct e as [data|data|code|message|].
    + simpl first_settlement. cbn [exec_step]. rewrite C.
      destruct (Qltb (PYTHON_STDOUT_MAX_BYTES B W)
                  (inject_Z (length (stdout st ++ data)))).
      * settled_now events.
        simpl. split; [reflexivity | lia].
      * still_pending IH T.
        split; reflexivity.
    + simpl first_settlement. cbn [exec_step]. rewrite C.
      still_pending IH T.
      split; reflexivity.
    + cbn [exec_step]. rewrite C.
      settled_now events.
      cbn [settled kills]. rewrite exit_text.
      destruct code as [[|c|c]|]; simpl; split; try reflexivity; lia.
    + cbn [exec_step]. rewrite C.
      settled_now events.
      simpl. split; [reflexivity | lia].
    + cbn [exec_step]. rewrite T, C. cbn [negb].
      settled_now events.
      simpl. split; [reflexivity | lia].
Qed.

Lemma first_settlement_after_quiet (pre rest : list proc_event) :
  forall out err out' err',
    quiet B W out err pre = Some (out', err') ->
    first_settlement B W timeoutMs out err (pre ++ rest)
    = first_settlement B W timeoutMs out' err' rest.
Proof.
  induction pre as [|e pre IH]; intros out err out' err' Q; simpl in Q.
  - now inversion Q.
  - destruct e; try discriminate; simpl.
    + destruct (Qltb _ _); [discriminate | now apply IH].
    + now apply IH.
Qed.

(** Every trace is quiet throughout, or has a first event that settles. *)
Lemma first_decisive (events : list proc_event) :
  forall out err,
    (exists out' err', quiet B W out err events = Some (out', err'))
    \/ (exists pre e post out' err',
           events = (pre ++ e :: post)%list
           /\ quiet B W out err pre = Some (out', err')
           /\ quiet B W out' err' [e] = None).
Proof.
  induction events as [|e events IH]; intros out err.
  - left. now exists out, err.
  - destruct (quiet B W out err [e]) as [[o1 e1]|] eqn:Q1.
    + assert (Q : forall rest, quiet B W out err (e :: rest) = quiet B W o1 e1 rest).
      { intros rest. destruct e; simpl in Q1 |- *; try discriminate.
        - destruct (Qltb _ _); [discriminate | now inversion Q1].
        - now inversion Q1. }
      destruct (IH o1 e1) as [[o' [e' H]]|[pre [d [post [o' [e' [E [H1 H2]]]]]]]].
      * left. exists o', e'. now rewrite Q.
      * right. exists (e :: pre), d, post, o', e'. subst events.
        split; [reflexivity|]. split; [now rewrite Q | exact H2].
    + right. exists [], e, events, out, err. now repeat split.
Qed.
End BridgeFacts.

(** C5. Whatever the child process does, the handlers of
    [executePythonScript] settle the promise exactly once. It is resolved,
    with the output accumulated so far, exactly when the first event that is
    not a data chunk within the cap is a close with exit code 0. It is
    rejected with a message holding the exit code and the error text on a
    close with another code, with the time-out message (after one kill) when
    the timer fires first or nothing else settles, with the size message
    (after one kill) on the chunk that takes the output past the cap, and
    with the start-failure message on a process error. *)
Theorem executePythonScript_spec (B : Js.Builtins) (W : Actions.World)
  (timeoutMs : Q) (trace : list Actions.proc_event) :
  let final := Actions.exec_run B W timeoutMs (trace ++ [Actions.TimerFired]) in
  (exists outcome, Actions.settled final = [outcome])
  /\ (forall out,
         Actions.promise final = Some (Ok out) <->
         exists pre post err,
           trace = (pre ++ Actions.Close (Some 0) :: post)%list
           /\ quiet B W "" "" pre = Some (out, err))
  /\ (forall pre post code out err,
         trace = (pre ++ Actions.Close code :: post)%list ->
         quiet B W "" "" pre = Some (out, err) ->
         code <> Some 0 ->
         Actions.promise final = Some (Throw (exit_message code err))
         /\ Actions.kills final = 0%nat)
  /\ (forall pre out err,
         quiet B W "" "" pre = Some (out, err) ->
         trace = pre \/ (exists post, trace = (pre ++ Actions.TimerFired :: post)%list) ->
         Actions.promise final = Some (Throw (timeout_message B timeoutMs))
         /\ Actions.kills final = 1%nat)
  /\ (forall pre data post out err,
         trace = (pre ++ Actions.StdoutData data :: post)%list ->
         quiet B W "" "" pre = Some (out, err) ->
         Js.Qltb (Actions.PYTHON_STDOUT_MAX_BYTES B W)
           (inject_Z (JsString.length (out ++ data))) = true ->
         Actions.promise final
         = Some (Throw "Python script output exceeded allowed size limit")
         /\ Actions.kills final = 1%nat)
  /\ (forall pre message post out err,
         trace = (pre ++ Actions.ProcError message :: post)%list ->
         quiet B W "" "" pre = Some (out, err) ->
         Actions.promise final
         = Some (Throw ("Failed to start Python process: " ++ message))
         /\ Actions.kills final = 0%nat).
Proof.
  intros final.
  destruct (run_settles B W timeoutMs trace Actions.exec_init eq_refl eq_refl)
    as [S K].
  fold (Actions.exec_run B W timeoutMs (trace ++ [Actions.TimerFired])) in S, K.
  fold final in S, K. cbn [Actions.exec_init Actions.settled Actions.kills
                           Actions.stdout Actions.stderr app Nat.add] in S, K.
  assert (P : Actions.promise final
              = Some (fst (first_settlement B W timeoutMs "" "" trace))).
  { unfold Actions.promise. now rewrite S. }
  assert (A : forall pre rest out err,
             trace = (pre ++ rest)%list -> quiet B W "" "" pre = Some (out, err) ->
             first_settlement B W timeoutMs "" "" trace
             = first_settlement B W timeoutMs out err rest).
  { intros pre rest out err -> Q. now apply first_settlement_after_quiet. }
  split; [eauto|]. split; [|split; [|split; [|split]]].
  - intros out. rewrite P. split.
    + intros H.
      destruct (first_decisive B W trace "" "")
        as [[o [e Q]]|[pre [d [post [o [e [E [Q1 Q2]]]]]]]].
      * rewrite (A trace [] o e) in H by (rewrite ?app_nil_r; auto).
        discriminate.
      * rewrite (A pre (d :: post) o e E Q1) in H.
        destruct d as [data|data|code|message|]; simpl in H, Q2.
        -- destruct (Js.Qltb _ _); discriminate.
        -- discriminate.
        -- destruct code as [[|c|c]|]; try discriminate.
           inversion H; subst o. now exists pre, post, e.
        -- discriminate.
        -- discriminate.
    + intros [pre [post [err [E Q]]]]. now rewrite (A _ _ _ _ E Q).
  - intros pre post code out err E Q N. rewrite P, K, (A _ _ _ _ E Q).
    destruct code as [[|c|c]|]; try (now split); now elim N.
  - intros pre out err Q [E|[post E]]; rewrite P, K.
    + rewrite (A pre [] out err) by (rewrite ?app_nil_r; auto). now split.
    + rewrite (A _ _ _ _ E Q). now split.
  - intros pre data post out err E Q O. rewrite P, K, (A _ _ _ _ E Q).
    simpl. rewrite O. now split.
  - intros pre message post out err E Q. rewrite P, K, (A _ _ _ _ E Q). now split.
Qed.

Lemma executePythonScript_spec_witness :
  Actions.promise
    (Actions.exec_run Host.builtins Host.bare 120000
       ([Actions.StderrData "warming up"; Actions.StdoutData "{}";
         Actions.Close (Some 0); Actions.StdoutData "late"]
        ++ [Actions.TimerFired]))
  = Some (Ok "{}")
  /\ (Actions.promise
        (Actions.exec_run Host.builtins Host.bare 120000
           ([Actions.StderrData "Traceback"; Actions.Close (Some 2)]
            ++ [Actions.TimerFired]))
      = Some (Throw (exit_message (Some 2) "Traceback"))
      /\ Actions.kills
           (Actions.exec_run Host.builtins Host.bare 120000
              ([Actions.StderrData "Traceback"; Actions.Close (Some 2)]
               ++ [Actions.TimerFired])) = 0%nat).
Proof.
  split.
  - apply (proj1 (proj2 (executePythonScript_spec Host.builtins Host.bare 120000
                           [Actions.StderrData "warming up"; Actions.StdoutData "{}";
                            Actions.Close (Some 0); Actions.StdoutData "late"]))).
    exists [Actions.StderrData "warming up"; Actions.StdoutData "{}"],
           [Actions.StdoutData "late"], "warming up".
    split; reflexivity.
  - apply (proj1 (proj2 (proj2 (executePythonScript_spec Host.builtins Host.bare 120000
                           [Actions.StderrData "Traceback"; Actions.Close (Some 2)])))
             [Actions.StderrData "Traceback"] [] (Some 2) "" "Traceback").
    + reflexivity.
    + reflexivity.
    + discriminate.
Defined.

(* ================================================================= *)
(** ** The request handler *)

Section HandlerFacts.
Import JsString Js Actions.
Variable B : Builtins.
Variable W : World.

Lemma loadPrecomputed_eq (votingFile stackingFile : string) (log : list event) :
  loadPrecomputed W votingFile stackingFile log
  = (Ok (cache_result W votingFile stackingFile),
     (log ++ cache_reads W votingFile stackingFile)%list).
Proof.
  unfold cache_result, cache_reads.
  cbv [loadPrecomputed try_catch bind readFileSync parse emit lift ret].
  destruct (fs_read W votingFile) as [votingText|e]; [|reflexivity].
  destruct (JSON_parse W votingText) as [votingData|e]; [|reflexivity].
  rewrite <- app_assoc. simpl app.
  destruct (fs_read W stackingFile) as [stackingText|e]; [|reflexivity].
  destruct (JSON_parse W stackingText) as [stackingData|e]; [|reflexivity].
  unfold getT.
  destruct (nullish votingData) eqn:Nv.
  { destruct votingData; try discriminate; reflexivity. }
  destruct (truthy (get votingData "success")); [|reflexivity].
  destruct (nullish stackingData) eqn:Ns.
  { destruct stackingData; try discriminate; reflexivity. }
  destruct (truthy (get stackingData "success")); [|reflexivity].
  cbn [andb].
  destruct (nullish (get votingData "data")); [reflexivity|].
  destruct (nullish (get stackingData "data")); [reflexivity|].
  cbn [negb andb]. unfold or.
  destruct (truthy (get (get votingData "data") "dataset_info")); reflexivity.
Qed.

Lemma valid_dataset_truthy (d : string) :
  isValidDataset d = true -> truthy (Str d) = true.
Proof. destruct d; [discriminate | reflexivity]. Qed.

Lemma valid_dataset_file (d : string) :
  isValidDataset d = true -> exists filename, assoc d DATASET_FILES = Some filename.
Proof.
  unfold isValidDataset, array_includes, ALLOWED_DATASETS. cbn [existsb].
  intros H. repeat (apply orb_true_iff in H; destruct H as [H|H]);
    try discriminate; apply String.eqb_eq in H; subst d; simpl; eauto.
Qed.

(** A request that passes validation: the cache is probed, then either its
    response is returned or the live execution runs. *)
Lemma processDataset_valid (formData : FormData) (log : list event)
  (datasetId metaLearner : string) :
  formData_get formData "dataset" = Str datasetId ->
  isValidDataset datasetId = true ->
  text (or (formData_get formData "meta_learner") (Str "linear")) = metaLearner ->
  isValidMetaLearner metaLearner = true ->
  let vf := votingFile W datasetId in
  let sf := stackingFile W datasetId metaLearner in
  processDataset B W formData log
  = if fs_exists W vf then
      if fs_exists W sf then
        match cache_result W vf sf with
        | Some response =>
            (Ok response,
             (log ++ [ExistsSync vf; ExistsSync sf] ++ cache_reads W vf sf)%list)
        | None =>
            liveExecution B W datasetId metaLearner
              (log ++ [ExistsSync vf; ExistsSync sf] ++ cache_reads W vf sf)%list
        end
      else liveExecution B W datasetId metaLearner
             (log ++ [ExistsSync vf; ExistsSync sf])%list
    else liveExecution B W datasetId metaLearner (log ++ [ExistsSync vf])%list.
Proof.
  intros Hd Hvd Hm Hvm vf sf.
  unfold processDataset, liveExecution. rewrite Hd, Hm.
  rewrite (valid_dataset_truthy _ Hvd). cbn [negb text]. rewrite Hvd, Hvm. cbn [negb].
  fold vf sf.
  cbv [try_catch bind existsSync emit ret].
  destruct (fs_exists W vf); [|reflexivity].
  destruct (fs_exists W sf).
  - rewrite loadPrecomputed_eq. rewrite <- !app_assoc. simpl app.
    destruct (cache_result W vf sf); reflexivity.
  - rewrite <- !app_assoc. reflexivity.
Qed.

Lemma processDataset_no_dataset (formData : FormData) (log : list event) :
  truthy (formData_get formData "dataset") = false ->
  processDataset B W formData log
  = (Ok (failure_response "No dataset selected"), log).
Proof. intros H. unfold processDataset, try_catch. now rewrite H. Qed.

Lemma processDataset_invalid_dataset_id (formData : FormData) (log : list event)
  (d : string) :
  formData_get formData "dataset" = Str d -> d <> "" ->
  isValidDataset d = false ->
  processDataset B W formData log
  = (Ok (failure_response
           ("Invalid dataset: " ++ d ++ ". Allowed values: automobile, concrete, loan")),
     log).
Proof.
  intros Hd Hne Hv. unfold processDataset, try_catch. rewrite Hd.
  assert (T : truthy (Str d) = true) by (destruct d; [congruence | reflexivity]).
  rewrite T. cbn [negb text]. now rewrite Hv.
Qed.

Lemma processDataset_invalid_meta (formData : FormData) (log : list event)
  (d m : string) :
  formData_get formData "dataset" = Str d -> isValidDataset d = true ->
  text (or (formData_get formData "meta_learner") (Str "linear")) = m ->
  isValidMetaLearner m = false ->
  processDataset B W formData log
  = (Ok (failure_response
           ("Invalid meta-learner: " ++ m
            ++ ". Allowed values: linear, random_forest, xgboost")),
     log).
Proof.
  intros Hd Hv Hm Hvm. unfold processDataset, try_catch. rewrite Hd, Hm.
  rewrite (valid_dataset_truthy _ Hv). cbn [negb text]. now rewrite Hv, Hvm.
Qed.

Lemma formData_get_cases (formData : FormData) (name : string) :
  formData_get formData name = Null
  \/ exists s, formData_get formData name = Str s.
Proof. unfold formData_get. destruct (assoc name formData); eauto. Qed.

Lemma cache_result_shape (vf sf : string) (response : value) :
  cache_result W vf sf = Some response ->
  exists data, response = success_response data.
Proof.
  unfold cache_result. intros H.
  repeat match type of H with
         | context [match ?x with _ => _ end] => destruct x; try discriminate
         end.
  inversion H. eauto.
Qed.

(** A live execution that returns normally returns a success response
    whose [dataset_info] is a record. *)
Lemma runPipeline_ok (datasetId metaLearner : string) (log log' : list event)
  (response : value) :
  runPipeline B W datasetId metaLearner log = (Ok response, log') ->
  exists data, response = success_response data
               /\ isRecord (get data "dataset_info") = true.
Proof.
  unfold runPipeline. destruct (assoc datasetId DATASET_FILES) as [filename|];
    [|discriminate].
  cbv [bind try_catch checkDatasetSize statSync readFileSync executePythonScript
       parsePythonOutput parse emit lift ret throw ensureDatasetInfo].
  intros H.
  destruct (fs_size W _) as [size|]; [|discriminate].
  destruct (Qltb _ size); [discriminate|].
  destruct (fs_read W _) as [csvContent|]; [|discriminate].
  destruct (promise _) as [[out|]|]; try discriminate.
  destruct (Extract.extractJsonFromStdout out) as [jsonStr|]; [|discriminate].
  destruct (JSON_parse W jsonStr) as [pythonResults|]; [|discriminate].
  destruct (datasetId =? "loan")%string; cbn [negb] in H;
    destruct (isRecord pythonResults); cbn [negb] in H; try discriminate;
    destruct (isRecord (get pythonResults "dataset_info")); cbn [negb] in H;
    try discriminate.
  - destruct (classificationResults B pythonResults _ _ _ _ _) as [results|] eqn:C;
      [|discriminate].
    apply classificationResults_payload in C. destruct C as [v [s [_ [_ ->]]]].
    inversion H. eexists. split; reflexivity.
  - inversion H. eexists. split; reflexivity.
Qed.

(** [processDataset] always returns, and what it returns is a success
    response or a failure response. *)
Lemma processDataset_shape (formData : FormData) (log : list event) :
  exists response log',
    processDataset B W formData log = (Ok response, log')
    /\ ((exists data, response = success_response data)
        \/ (exists message, response = failure_response message)).
Proof.
  destruct (formData_get_cases formData "dataset") as [Hd|[d Hd]].
  { exists (failure_response "No dataset selected"), log.
    split; [apply processDataset_no_dataset; now rewrite Hd | eauto]. }
  destruct (string_dec d "") as [->|Hne].
  { exists (failure_response "No dataset selected"), log.
    split; [apply processDataset_no_dataset; now rewrite Hd | eauto]. }
  destruct (isValidDataset d) eqn:Hv.
  2:{ eexists _, log.
      split; [exact (processDataset_invalid_dataset_id formData log d Hd Hne Hv) | eauto]. }
  remember (text (or (formData_get formData "meta_learner") (Str "linear"))) as m eqn:Hm.
  symmetry in Hm.
  destruct (isValidMetaLearner m) eqn:Hvm.
  2:{ eexists _, log.
      split; [exact (processDataset_invalid_meta formData log d m Hd Hv Hm Hvm) | eauto]. }
  rewrite (processDataset_valid formData log d m Hd Hv Hm Hvm).
  assert (L : forall l, exists response log',
               liveExecution B W d m l = (Ok response, log')
               /\ ((exists data, response = success_response data)
                   \/ (exists message, response = failure_response message))).
  { intros l. unfold liveExecution, try_catch.
    destruct (runPipeline B W d m l) as [[r|e] l'] eqn:R.
    - apply runPipeline_ok in R. destruct R as [data [-> _]]. eauto 6.
    - unfold ret. eauto 6. }
  destruct (fs_exists W (votingFile W d)); [|apply L].
  destruct (fs_exists W (stackingFile W d m)); [|apply L].
  destruct (cache_result W (votingFile W d) (stackingFile W d m)) as [r|] eqn:C;
    [|apply L].
  apply cache_result_shape in C. destruct C as [data ->]. eauto 6.
Qed.
(** What a live execution returns for the loan dataset is the normalised
    classification payload of the parsed trainer output. *)
Lemma runPipeline_loan (metaLearner : string) (log log' : list event)
  (response : value) :
  runPipeline B W "loan" metaLearner log = (Ok response, log') ->
  exists pythonResults csvContent results,
    fs_read W (path_join [cwd W; "data"; "Loan Approval.csv"]) = Ok csvContent
    /\ isRecord pythonResults = true
    /\ classificationResults B pythonResults "loan"
         (Z.of_nat (List.length (csv_dataRows (csv_lines csvContent))))
         (Z.of_nat (List.length (csv_headers (csv_lines csvContent))) - 1)
         (csv_headers (csv_lines csvContent))
         (last (csv_headers (csv_lines csvContent)) "") = Ok results
    /\ response = success_response results.
Proof.
  unfold runPipeline. cbn [assoc DATASET_FILES String.eqb Ascii.eqb Bool.eqb].
  cbv [bind try_catch checkDatasetSize statSync readFileSync executePythonScript
       parsePythonOutput parse emit lift ret throw ensureDatasetInfo].
  intros H.
  destruct (fs_size W _) as [size|]; [|discriminate].
  destruct (Qltb _ size); [discriminate|].
  destruct (fs_read W _) as [csvContent|] eqn:Rd; [|discriminate].
  destruct (promise _) as [[out|]|]; try discriminate.
  destruct (Extract.extractJsonFromStdout out) as [jsonStr|]; [|discriminate].
  destruct (JSON_parse W jsonStr) as [pythonResults|]; [|discriminate].
  cbn [negb] in H.
  destruct (isRecord pythonResults) eqn:R; cbn [negb] in H; [|discriminate].
  destruct (isRecord (get pythonResults "dataset_info")); cbn [negb] in H;
    [|discriminate].
  destruct (classificationResults B pythonResults _ _ _ _ _) as [results|] eqn:C;
    [|discriminate].
  inversion H. exists pythonResults, csvContent, results.
  split; [reflexivity|]. split; [exact R|]. split; [exact C | reflexivity].
Qed.

(** The promise awaited by [processDataset] is the one the handlers
    settle. *)
Lemma executePythonScript_eq (scriptPath : string) (args : list string)
  (log : list event) :
  executePythonScript B W scriptPath args log
  = (fst (first_settlement B W (PYTHON_TIMEOUT_MS B W) "" ""
            (child W (PYTHON_COMMAND W) (scriptPath :: args))),
     (log ++ [Spawn (PYTHON_COMMAND W) (scriptPath :: args)])%list).
Proof.
  unfold executePythonScript, executePythonScript_events, exec_run, promise, bind,
    emit.
  destruct (run_settles B W (PYTHON_TIMEOUT_MS B W)
              (child W (PYTHON_COMMAND W) (scriptPath :: args))
              exec_init eq_refl eq_refl) as [S _].
  rewrite S. reflexivity.
Qed.
End HandlerFacts.

(** C7 (as amended). A request whose dataset is missing, empty or not one
    of automobile, concrete, loan is answered with [success: false] and a
    message that holds the dataset value, and so is a request with a valid
    dataset whose meta-learner is present, not empty and not one of linear,
    random_forest, xgboost, with a message that names it; in both cases
    nothing is added to the log of file-system and process calls. A missing
    or empty meta-learner is read as linear. *)
Theorem validation_spec (B : Js.Builtins) (W : Actions.World)
  (formData : Actions.FormData) (log : list Actions.event) :
  let dataset := Actions.formData_get formData "dataset" in
  let chosen := Actions.formData_get formData "meta_learner" in
  (Actions.isValidDataset (Actions.text dataset) = false ->
   exists message pre post,
     Actions.processDataset B W formData log
     = (Ok (Actions.failure_response message), log)
     /\ message = pre ++ Actions.text dataset ++ post)
  /\ (dataset = Js.Null ->
      Actions.processDataset B W formData log
      = (Ok (Actions.failure_response "No dataset selected"), log))
  /\ (forall m,
         Actions.isValidDataset (Actions.text dataset) = true ->
         chosen = Js.Str m -> m <> "" ->
         Actions.isValidMetaLearner m = false ->
         Actions.processDataset B W formData log
         = (Ok (Actions.failure_response
                  ("Invalid meta-learner: " ++ m
                   ++ ". Allowed values: linear, random_forest, xgboost")),
            log))
  /\ (chosen = Js.Null \/ chosen = Js.Str "" ->
      Actions.processDataset B W formData log
      = Actions.processDataset B W (("meta_learner", "linear") :: formData) log).
Proof.
  intros dataset chosen. split; [|split; [|split]].
  - intros Hv.
    destruct (formData_get_cases formData "dataset") as [Hd|[d Hd]];
      fold dataset in Hd.
    + exists "No dataset selected", "", "No dataset selected".
      split; [|now rewrite Hd].
      apply processDataset_no_dataset. fold dataset. now rewrite Hd.
    + rewrite Hd in *. cbn [Actions.text] in *.
      destruct (string_dec d "") as [->|Hne].
      * exists "No dataset selected", "", "No dataset selected".
        split; [|reflexivity].
        apply processDataset_no_dataset. fold dataset. now rewrite Hd.
      * exists ("Invalid dataset: " ++ d ++ ". Allowed values: automobile, concrete, loan"),
               "Invalid dataset: ", ". Allowed values: automobile, concrete, loan".
        split; [|reflexivity].
        now apply processDataset_invalid_dataset_id.
  - intros Hd. apply processDataset_no_dataset. fold dataset. now rewrite Hd.
  - intros m Hv Hc Hne Hvm.
    destruct (formData_get_cases formData "dataset") as [Hd|[d Hd]];
      fold dataset in Hd; rewrite Hd in Hv; [discriminate|].
    apply (processDataset_invalid_meta B W formData log d m Hd Hv); [|exact Hvm].
    fold chosen. rewrite Hc. destruct m; [congruence | reflexivity].
  - intros Hc.
    assert (E1 : Actions.formData_get (("meta_learner", "linear") :: formData) "dataset"
                 = dataset) by reflexivity.
    assert (E2 : Actions.text
                   (Js.or (Actions.formData_get
                             (("meta_learner", "linear") :: formData) "meta_learner")
                          (Js.Str "linear")) = "linear") by reflexivity.
    assert (E3 : Actions.text (Js.or chosen (Js.Str "linear")) = "linear")
      by (destruct Hc as [-> | ->]; reflexivity).
    unfold Actions.processDataset. fold dataset chosen. rewrite E1, E2, E3.
    reflexivity.
Qed.

Lemma validation_spec_witness :
  (exists message pre post,
      Actions.processDataset Host.builtins Host.bare
        [("dataset", "iris"); ("meta_learner", "linear")] []
      = (Ok (Actions.failure_response message), [])
      /\ message = pre ++ "iris" ++ post)
  /\ Actions.processDataset Host.builtins Host.bare
       [("dataset", "loan"); ("meta_learner", "svm")] []
     = (Ok (Actions.failure_response
              "Invalid meta-learner: svm. Allowed values: linear, random_forest, xgboost"),
        [])
  /\ Actions.processDataset Host.builtins Host.bare [("dataset", "loan")] []
     = Actions.processDataset Host.builtins Host.bare
         [("meta_learner", "linear"); ("dataset", "loan")] [].
Proof.
  split; [|split].
  - exact (proj1 (validation_spec Host.builtins Host.bare
                    [("dataset", "iris"); ("meta_learner", "linear")] []) eq_refl).
  - refine (proj1 (proj2 (proj2 (validation_spec Host.builtins Host.bare
                    [("dataset", "loan"); ("meta_learner", "svm")] [])))
              "svm" eq_refl eq_refl _ eq_refl).
    discriminate.
  - exact (proj2 (proj2 (proj2 (validation_spec Host.builtins Host.bare
                    [("dataset", "loan")] []))) (or_introl eq_refl)).
Defined.

(** C7 as stated fails for a meta-learner that is present but empty: it is
    not one of the three names, yet the request is served (here from the
    precomputed files) as if linear had been chosen. *)
Lemma validation_counterexample :
  let formData := [("dataset", "automobile"); ("meta_learner", "")] in
  let W := Host.cached Host.voting_file_full Host.stacking_file_full in
  Actions.formData_get formData "meta_learner" = Js.Str ""
  /\ Actions.isValidMetaLearner "" = false
  /\ exists data log,
       Actions.processDataset Host.builtins W formData [] = (Ok data, log)
       /\ Js.get data "success" = Js.Bool true
       /\ In (Actions.ReadFileSync
                "/srv/public/precomputed-results/automobile-stacking-linear.json") log.
Proof.
  split; [reflexivity|]. split; [reflexivity|].
  eexists _, _. split; [vm_compute; reflexivity|].
  split; [reflexivity|]. simpl. tauto.
Qed.

Section CacheFacts.
Import JsString Js Actions.
Variable W : World.

Lemma cache_result_none_unreadable (vf sf : string) :
  (exists e, fs_read W vf = Throw e)
  \/ (exists e, fs_read W sf = Throw e)
  \/ (exists t e, fs_read W vf = Ok t /\ JSON_parse W t = Throw e)
  \/ (exists t e, fs_read W sf = Ok t /\ JSON_parse W t = Throw e)
  \/ (exists t d, fs_read W vf = Ok t /\ JSON_parse W t = Ok d
                  /\ truthy (get d "success") = false)
  \/ (exists t d, fs_read W sf = Ok t /\ JSON_parse W t = Ok d
                  /\ truthy (get d "success") = false) ->
  cache_result W vf sf = None.
Proof.
  unfold cache_result. intros H.
  destruct (fs_read W vf) as [vt|] eqn:Rv; [|reflexivity].
  destruct (JSON_parse W vt) as [vd|] eqn:Pv; [|reflexivity].
  destruct (fs_read W sf) as [st|] eqn:Rs; [|reflexivity].
  destruct (JSON_parse W st) as [sd|] eqn:Ps; [|reflexivity].
  destruct H as [[e H]|[[e H]|[[t [e [H1 H2]]]|[[t [e [H1 H2]]]|[[t [d [H1 [H2 H3]]]]
                                                         |[t [d [H1 [H2 H3]]]]]]]]];
    try discriminate.
  - inversion H1; subst t. congruence.
  - inversion H1; subst t. congruence.
  - inversion H1; subst t. rewrite Pv in H2. inversion H2; subst d.
    now rewrite H3.
  - inversion H1; subst t. rewrite Ps in H2. inversion H2; subst d.
    now rewrite H3, andb_false_r.
Qed.

Lemma cache_reads_no_spawn (vf sf : string) :
  forallb (fun e => negb (is_spawn e)) (cache_reads W vf sf) = true.
Proof.
  unfold cache_reads. destruct (fs_read W vf); [|reflexivity].
  now destruct (JSON_parse W a).
Qed.
End CacheFacts.

(** C9 (as amended). For a request that passes validation: when both
    precomputed files exist, can be read, parse to values whose [success] is
    truthy and whose [data] is neither missing nor [null], [processDataset]
    returns success with [voting] from the voting file, [stacking] from the
    stacking file and [dataset_info] from the voting file or else the
    stacking file, after two existence checks and two file reads and
    without spawning the interpreter. When a file is missing, unreadable,
    unparsable or not marked successful, the result is that of the live
    execution, started after the cache probes (none of which is a spawn). *)
Theorem precomputed_spec (B : Js.Builtins) (W : Actions.World)
  (formData : Actions.FormData) (log : list Actions.event)
  (datasetId metaLearner : string) :
  Actions.formData_get formData "dataset" = Js.Str datasetId ->
  Actions.isValidDataset datasetId = true ->
  Actions.text (Js.or (Actions.formData_get formData "meta_learner") (Js.Str "linear"))
  = metaLearner ->
  Actions.isValidMetaLearner metaLearner = true ->
  let vf := Actions.votingFile W datasetId in
  let sf := Actions.stackingFile W datasetId metaLearner in
  (forall votingText stackingText votingData stackingData,
      Actions.fs_exists W vf = true -> Actions.fs_exists W sf = true ->
      Actions.fs_read W vf = Ok votingText ->
      Actions.JSON_parse W votingText = Ok votingData ->
      Actions.fs_read W sf = Ok stackingText ->
      Actions.JSON_parse W stackingText = Ok stackingData ->
      Js.truthy (Js.get votingData "success") = true ->
      Js.truthy (Js.get stackingData "success") = true ->
      Js.nullish (Js.get votingData "data") = false ->
      Js.nullish (Js.get stackingData "data") = false ->
      Actions.processDataset B W formData log
      = (Ok (Actions.success_response
               (Js.Obj
                  [("voting", Js.get (Js.get votingData "data") "voting");
                   ("stacking", Js.get (Js.get stackingData "data") "stacking");
                   ("dataset_info",
                    Js.or (Js.get (Js.get votingData "data") "dataset_info")
                          (Js.get (Js.get stackingData "data") "dataset_info"))])),
         (log ++ [Actions.ExistsSync vf; Actions.ExistsSync sf;
                  Actions.ReadFileSync vf; Actions.ReadFileSync sf])%list))
  /\ (Actions.fs_exists W vf = false
      \/ Actions.fs_exists W sf = false
      \/ (exists e, Actions.fs_read W vf = Throw e)
      \/ (exists e, Actions.fs_read W sf = Throw e)
      \/ (exists t e, Actions.fs_read W vf = Ok t /\ Actions.JSON_parse W t = Throw e)
      \/ (exists t e, Actions.fs_read W sf = Ok t /\ Actions.JSON_parse W t = Throw e)
      \/ (exists t d, Actions.fs_read W vf = Ok t /\ Actions.JSON_parse W t = Ok d
                      /\ Js.truthy (Js.get d "success") = false)
      \/ (exists t d, Actions.fs_read W sf = Ok t /\ Actions.JSON_parse W t = Ok d
                      /\ Js.truthy (Js.get d "success") = false) ->
      exists probes,
        forallb (fun e => negb (is_spawn e)) probes = true
        /\ Actions.processDataset B W formData log
           = liveExecution B W datasetId metaLearner (log ++ probes)%list).
Proof.
  intros Hd Hvd Hm Hvm vf sf.
  rewrite (processDataset_valid B W formData log datasetId metaLearner Hd Hvd Hm Hvm).
  fold vf sf. split.
  - intros votingText stackingText votingData stackingData
           Ev Es Rv Pv Rs Ps Tv Ts Nv Ns.
    rewrite Ev, Es. unfold cache_result, cache_reads.
    rewrite Rv, Pv, Rs, Ps, Tv, Ts, Nv, Ns. reflexivity.
  - intros H.
    destruct (Actions.fs_exists W vf) eqn:Ev.
    2:{ exists [Actions.ExistsSync vf]. now split. }
    destruct (Actions.fs_exists W sf) eqn:Es.
    2:{ exists [Actions.ExistsSync vf; Actions.ExistsSync sf]. now split. }
    destruct H as [H|[H|H]]; try discriminate.
    rewrite (cache_result_none_unreadable W vf sf H).
    exists ([Actions.ExistsSync vf; Actions.ExistsSync sf] ++ cache_reads W vf sf)%list.
    split; [|reflexivity].
    rewrite forallb_app, cache_reads_no_spawn. reflexivity.
Qed.

Lemma precomputed_spec_witness :
  Actions.processDataset Host.builtins
    (Host.cached Host.voting_file_full Host.stacking_file_full)
    [("dataset", "automobile"); ("meta_learner", "linear")] []
  = (Ok (Actions.success_response
           (Js.Obj [("voting", Host.sample_voting);
                    ("stacking", Host.sample_stacking);
                    ("dataset_info", Host.sample_info)])),
     [Actions.ExistsSync "/srv/public/precomputed-results/automobile-voting.json";
      Actions.ExistsSync "/srv/public/precomputed-results/automobile-stacking-linear.json";
      Actions.ReadFileSync "/srv/public/precomputed-results/automobile-voting.json";
      Actions.ReadFileSync
        "/srv/public/precomputed-results/automobile-stacking-linear.json"])
  /\ exists probes,
       forallb (fun e => negb (is_spawn e)) probes = true
       /\ Actions.processDataset Host.builtins Host.bare
            [("dataset", "automobile"); ("meta_learner", "linear")] []
          = liveExecution Host.builtins Host.bare "automobile" "linear"
              ([] ++ probes)%list.
Proof.
  split.
  - exact (proj1 (precomputed_spec Host.builtins
                    (Host.cached Host.voting_file_full Host.stacking_file_full)
                    [("dataset", "automobile"); ("meta_learner", "linear")] []
                    "automobile" "linear" eq_refl eq_refl eq_refl eq_refl)
             _ _ Host.voting_file_full Host.stacking_file_full
             eq_refl eq_refl eq_refl eq_refl eq_refl eq_refl
             eq_refl eq_refl eq_refl eq_refl).
  - exact (proj2 (precomputed_spec Host.builtins Host.bare
                    [("dataset", "automobile"); ("meta_learner", "linear")] []
                    "automobile" "linear" eq_refl eq_refl eq_refl eq_refl)
             (or_introl eq_refl)).
Defined.

(** C9 as stated fails when a file is marked successful but carries no
    [data]: both files exist and parse with [success: true], yet the request
    is not served from them; the interpreter is spawned. *)
Lemma precomputed_counterexample :
  let W := Host.cached Host.voting_file_no_data Host.stacking_file_full in
  let formData := [("dataset", "automobile"); ("meta_learner", "linear")] in
  Actions.fs_exists W (Actions.votingFile W "automobile") = true
  /\ Actions.fs_exists W (Actions.stackingFile W "automobile" "linear") = true
  /\ Actions.JSON_parse W (Actions.votingFile W "automobile")
     = Ok Host.voting_file_no_data
  /\ Js.get Host.voting_file_no_data "success" = Js.Bool true
  /\ Actions.JSON_parse W (Actions.stackingFile W "automobile" "linear")
     = Ok Host.stacking_file_full
  /\ Js.get Host.stacking_file_full "success" = Js.Bool true
  /\ exists response log,
       Actions.processDataset Host.builtins W formData [] = (Ok response, log)
       /\ Js.get response "success" = Js.Bool false
       /\ existsb is_spawn log = true.
Proof.
  repeat (split; [reflexivity|]).
  eexists _, _. split; [vm_compute; reflexivity|].
  split; reflexivity.
Qed.

(** C1, at the input where the code leaves the claim: both precomputed files
    are marked successful and carry [voting] and [stacking] but no
    [dataset_info]; the response is a success whose [dataset_info] is
    [undefined]. *)
Theorem processDataset_cache_without_info :
  Actions.processDataset Host.builtins
    (Host.cached Host.voting_file_no_info Host.stacking_file_no_info)
    [("dataset", "automobile"); ("meta_learner", "linear")] []
  = (Ok (Js.Obj [("success", Js.Bool true);
                 ("data", Js.Obj [("voting", Host.sample_voting);
                                  ("stacking", Host.sample_stacking);
                                  ("dataset_info", Js.Undefined)])]),
     [Actions.ExistsSync "/srv/public/precomputed-results/automobile-voting.json";
      Actions.ExistsSync "/srv/public/precomputed-results/automobile-stacking-linear.json";
      Actions.ReadFileSync "/srv/public/precomputed-results/automobile-voting.json";
      Actions.ReadFileSync
        "/srv/public/precomputed-results/automobile-stacking-linear.json"]).
Proof. vm_compute. reflexivity. Qed.

(* ================================================================= *)
(** ** Approximate RMSE and MAE in the dashboard *)

(** [baseModelsEnhanced] reads the result of [compute] through [rmse] and
    [mae] only: whatever else [compute] returns, [isApproximate] included,
    has no effect on the enhanced entry. *)
Lemma enhanced_entry_ignores_flag (baseModels approx approx' : Js.value)
  (name : string) :
  Js.get approx "rmse" = Js.get approx' "rmse" ->
  Js.get approx "mae" = Js.get approx' "mae" ->
  Dashboard.enhanced_entry baseModels name approx
  = Dashboard.enhanced_entry baseModels name approx'.
Proof. intros R M. unfold Dashboard.enhanced_entry. now rewrite R, M. Qed.

(** With at least one row of finite values, [compute] returns the root of
    the mean square and the mean absolute difference of those rows, marked
    approximate; without such a row it returns two zeros and no mark. *)
Lemma compute_values (B : Js.Builtins) (preds : list Js.value) (predKey : string) :
  let diffs := Dashboard.diffs_of B predKey preds in
  Dashboard.compute B preds predKey
  = match diffs with
    | [] => Js.Obj [("rmse", Js.zero); ("mae", Js.zero)]
    | _ => Js.Obj [("rmse", Js.Number (Js.Math_sqrt B (Dashboard.mean_square diffs)));
                   ("mae", Js.Number (Js.Num (Dashboard.mean_abs diffs)));
                   ("isApproximate", Js.Bool true)]
    end.
Proof. reflexivity. Qed.

(** [needFix] looks at [rmse] only: a model that lacks nothing but [mae]
    gets no derived value. *)
Lemma baseModelsEnhanced_mae_only :
  Dashboard.baseModelsEnhanced Host.builtins false Host.stacking_regression_mae_missing
  = Dashboard.baseModels Host.stacking_regression_mae_missing
  /\ Js.get (Js.get (Dashboard.baseModelsEnhanced Host.builtins false
                       Host.stacking_regression_mae_missing) "Linear Regression")
       "mae" = Js.Undefined.
Proof. split; reflexivity. Qed.

(** C3, at the input where the code leaves the claim: a regression result
    whose linear model has no [rmse] and [mae] and whose sample has two rows
    with differences 1 and 7. [compute] derives the root of the mean square,
    5, and the mean absolute difference, 4, and marks them approximate; the
    enhanced entry shows both values and no mark. *)
Theorem baseModelsEnhanced_drops_flag :
  let preds := Dashboard.predictions Host.stacking_regression in
  let approx := Dashboard.compute Host.builtins preds "linear_reg" in
  let shown := Js.get (Dashboard.baseModelsEnhanced Host.builtins false
                         Host.stacking_regression) "Linear Regression" in
  Dashboard.diffs_of Host.builtins "linear_reg" preds = [10 - 9; 20 - 13]%Q
  /\ Js.get approx "isApproximate" = Js.Bool true
  /\ Js.get shown "rmse" = Js.get approx "rmse"
  /\ Js.get shown "mae" = Js.get approx "mae"
  /\ Js.get approx "rmse" = Js.Number (Js.Num (10 # 2))
  /\ Js.get approx "mae" = Js.Number (Js.Num (8 # 2))
  /\ Js.keys shown = ["r2_score"; "rmse"; "mae"]
  /\ Js.get shown "isApproximate" = Js.Undefined.
Proof. vm_compute. repeat split. Qed.

(* ================================================================= *)
(** ** Loading the dataset rows *)

(** C4. The dataset loading step fails with [DataFormatError] when the
    target column is absent, when any data row has a different number of
    cells than the header row, or when the dataset has fewer rows than the
    minimum viable row count; the minimum is such that a dataset of 25 rows
    is rejected. In each case no dataset is returned. *)
Theorem load_rejects_malformed (min_rows : nat) (t : Loader.table) (target : string) :
  (25 < min_rows)%nat ->
  (~ In target (Loader.header t)
   \/ (exists row, In row (Loader.rows t)
                   /\ List.length row <> List.length (Loader.header t))
   \/ (List.length (Loader.rows t) < min_rows)%nat ->
   Loader.load min_rows t target = Loader.Failed Loader.DataFormatError)
  /\ (List.length (Loader.rows t) = 25%nat ->
      Loader.load min_rows t target = Loader.Failed Loader.DataFormatError)
  /\ (forall d, Loader.load min_rows t target = Loader.Loaded d ->
                In target (Loader.header t)
                /\ (forall row, In row (Loader.rows t) ->
                                List.length row = List.length (Loader.header t))
                /\ (min_rows <= List.length (Loader.rows t))%nat
                /\ Loader.records d = Loader.rows t
                /\ Loader.target_column d = target).
Proof.
  intros M.
  assert (R : ~ In target (Loader.header t)
              \/ (exists row, In row (Loader.rows t)
                              /\ List.length row <> List.length (Loader.header t))
              \/ (List.length (Loader.rows t) < min_rows)%nat ->
              Loader.load min_rows t target = Loader.Failed Loader.DataFormatError).
  { intros H. unfold Loader.load.
    destruct (Loader.target_present t target) eqn:T; cbn [negb]; [|reflexivity].
    destruct (Loader.same_width t) eqn:S; cbn [negb]; [|reflexivity].
    destruct (Loader.enough_rows min_rows t) eqn:E; cbn [negb]; [|reflexivity].
    exfalso. destruct H as [H|[[row [I H]]|H]].
    - apply H. unfold Loader.target_present in T.
      apply existsb_exists in T. destruct T as [x [I X]].
      apply String.eqb_eq in X. now subst.
    - unfold Loader.same_width in S. rewrite forallb_forall in S.
      apply S in I. apply Nat.eqb_eq in I. contradiction.
    - unfold Loader.enough_rows in E. apply Nat.leb_le in E. lia. }
  split; [exact R|]. split.
  - intros L. apply R. right. right. lia.
  - intros d L. unfold Loader.load in L.
    destruct (Loader.target_present t target) eqn:T; cbn [negb] in L; [|discriminate].
    destruct (Loader.same_width t) eqn:S; cbn [negb] in L; [|discriminate].
    destruct (Loader.enough_rows min_rows t) eqn:E; cbn [negb] in L; [|discriminate].
    inversion L. cbn. repeat split.
    + unfold Loader.target_present in T.
      apply existsb_exists in T. destruct T as [x [I X]].
      apply String.eqb_eq in X. now subst.
    + intros row I. unfold Loader.same_width in S. rewrite forallb_forall in S.
      apply S in I. now apply Nat.eqb_eq in I.
    + unfold Loader.enough_rows in E. now apply Nat.leb_le in E.
Qed.

(** A regular table of 30 rows is loaded when 30 rows are asked for. *)
Example load_accepts_regular :
  exists d, Loader.load 30 (Loader.table_of_csv (Host.csv_of 30)) "mpg" = Loader.Loaded d
            /\ List.length (Loader.records d) = 30%nat.
Proof. eexists. split; [vm_compute; reflexivity | reflexivity]. Qed.

(** The data file of 25 rows, the last of a single cell, is rejected. *)
Lemma load_rejects_malformed_witness :
  (25 < 30)%nat
  /\ List.length (Loader.rows (Loader.table_of_csv Host.ragged_csv)) = 25%nat
  /\ Loader.load 30 (Loader.table_of_csv Host.ragged_csv) "cylinders"
     = Loader.Failed Loader.DataFormatError.
Proof.
  split; [lia|]. split; [reflexivity|].
  apply (proj1 (proj2 (load_rejects_malformed 30 (Loader.table_of_csv Host.ragged_csv)
                         "cylinders" ltac:(lia)))).
  reflexivity.
Defined.


(* ================================================================= *)
(** * Further properties of the request handler *)

Section LiveFacts.
Import JsString Js Actions.
Variable B : Builtins.
Variable W : World.

Lemma runPipeline_eq (datasetId metaLearner : string) (log : list event) :
  runPipeline B W datasetId metaLearner log
  = pipeline_outcome B W datasetId metaLearner log.
Proof.
  unfold runPipeline, pipeline_outcome.
  destruct (assoc datasetId DATASET_FILES) as [filename|]; [|reflexivity].
  cbv [bind try_catch checkDatasetSize statSync readFileSync parsePythonOutput
       parse emit lift ret throw ensureDatasetInfo].
  fold (datasetsPath W filename).
  destruct (fs_size W (datasetsPath W filename)) as [size|]; [|reflexivity].
  destruct (Qltb (MAX_DATASET_FILE_SIZE_BYTES B W) size); [reflexivity|].
  rewrite <- !app_assoc. simpl app.
  destruct (fs_read W (datasetsPath W filename)) as [csvContent|]; [|reflexivity].
  rewrite executePythonScript_eq. rewrite <- !app_assoc. simpl app.
  unfold pipeline_result, spawn_of, pythonScript, pythonArgs, wrapped, python_hint,
    parse_failure.
  fold (datasetsPath W filename).
  destruct (String.eqb datasetId "loan");
    (destruct (fst (first_settlement _ _ _ _ _ _)) as [out|]; [|reflexivity]);
    (destruct (Extract.extractJsonFromStdout out) as [jsonStr|]; [|reflexivity]);
    (destruct (JSON_parse W jsonStr) as [pythonResults|]; [|reflexivity]);
    cbn [negb];
    (destruct (isRecord pythonResults); cbn [negb]; [|reflexivity]);
    (destruct (isRecord (get pythonResults "dataset_info")); cbn [negb];
     [|reflexivity]);
    try reflexivity.
  destruct (classificationResults B pythonResults _ _ _ _ _); reflexivity.
Qed.

Lemma liveExecution_eq (datasetId metaLearner : string) (log : list event) :
  liveExecution B W datasetId metaLearner log
  = match pipeline_outcome B W datasetId metaLearner log with
    | (Ok response, log') => (Ok response, log')
    | (Throw message, log') => (Ok (failure_response message), log')
    end.
Proof.
  unfold liveExecution, try_catch. rewrite runPipeline_eq.
  destruct (pipeline_outcome B W datasetId metaLearner log) as [[r|e] l]; reflexivity.
Qed.

Lemma promise_settlement (timeoutMs : Q) (trace : list proc_event) :
  promise (exec_run B W timeoutMs (trace ++ [TimerFired]))
  = Some (fst (first_settlement B W timeoutMs "" "" trace)).
Proof.
  destruct (run_settles B W timeoutMs trace exec_init eq_refl eq_refl) as [S _].
  unfold promise, exec_run. now rewrite S.
Qed.

Lemma Qltb_false_le (a b : Q) : (b <= a)%Q -> Qltb a b = false.
Proof.
  intros H. unfold Qltb. apply negb_false_iff. now apply Qle_bool_iff.
Qed.

(** The reads of the cache lookup: the voting file, then the stacking file
    when the voting file was read and parsed; both when the lookup
    succeeds. *)
Lemma cache_reads_shape (vf sf : string) :
  (cache_reads W vf sf = [ReadFileSync vf] /\ cache_result W vf sf = None)
  \/ cache_reads W vf sf = [ReadFileSync vf; ReadFileSync sf].
Proof.
  unfold cache_reads, cache_result.
  destruct (fs_read W vf) as [votingText|]; [|now left].
  destruct (JSON_parse W votingText); [now right | now left].
Qed.

(** The three ways a request is answered: rejected by validation, served
    from the precomputed files, or handed to the live execution. *)
Lemma processDataset_cases (formData : FormData) (log : list event) :
  (exists message,
      processDataset B W formData log = (Ok (failure_response message), log))
  \/ (exists datasetId metaLearner filename probes,
         formData_get formData "dataset" = Str datasetId
         /\ isValidDataset datasetId = true
         /\ text (or (formData_get formData "meta_learner") (Str "linear")) = metaLearner
         /\ isValidMetaLearner metaLearner = true
         /\ assoc datasetId DATASET_FILES = Some filename
         /\ In probes (probe_shapes W datasetId metaLearner)
         /\ ((exists data,
                 probes = [ExistsSync (votingFile W datasetId);
                           ExistsSync (stackingFile W datasetId metaLearner);
                           ReadFileSync (votingFile W datasetId);
                           ReadFileSync (stackingFile W datasetId metaLearner)]
                 /\ processDataset B W formData log
                    = (Ok (success_response data), (log ++ probes)%list))
             \/ processDataset B W formData log
                = liveExecution B W datasetId metaLearner (log ++ probes)%list)).
Proof.
  destruct (formData_get_cases formData "dataset") as [Hd|[d Hd]].
  { left. exists "No dataset selected".
    apply processDataset_no_dataset. now rewrite Hd. }
  destruct (string_dec d "") as [->|Hne].
  { left. exists "No dataset selected".
    apply processDataset_no_dataset. now rewrite Hd. }
  destruct (isValidDataset d) eqn:Hv.
  2:{ left. eexists. exact (processDataset_invalid_dataset_id B W formData log d Hd Hne Hv). }
  remember (text (or (formData_get formData "meta_learner") (Str "linear"))) as m eqn:Hm.
  symmetry in Hm.
  destruct (isValidMetaLearner m) eqn:Hvm.
  2:{ left. eexists. exact (processDataset_invalid_meta B W formData log d m Hd Hv Hm Hvm). }
  right. rewrite (processDataset_valid B W formData log d m Hd Hv Hm Hvm).
  destruct (valid_dataset_file d Hv) as [filename Ha].
  unfold probe_shapes.
  destruct (fs_exists W (votingFile W d)).
  2:{ exists d, m, filename, [ExistsSync (votingFile W d)].
      repeat (split; [easy|]). split; [simpl; tauto | now right]. }
  destruct (fs_exists W (stackingFile W d m)).
  2:{ exists d, m, filename,
        [ExistsSync (votingFile W d); ExistsSync (stackingFile W d m)].
      repeat (split; [easy|]). split; [simpl; tauto | now right]. }
  exists d, m, filename,
    ([ExistsSync (votingFile W d); ExistsSync (stackingFile W d m)]
     ++ cache_reads W (votingFile W d) (stackingFile W d m))%list.
  repeat (split; [easy|]).
  destruct (cache_reads_shape (votingFile W d) (stackingFile W d m)) as [[R C]|R];
    rewrite R.
  - split; [simpl; tauto|]. rewrite C. now right.
  - split; [simpl; tauto|].
    destruct (cache_result W (votingFile W d) (stackingFile W d m)) as [r|] eqn:C.
    + left. apply cache_result_shape in C. destruct C as [data ->]. now exists data.
    + now right.
Qed.

Lemma probe_shapes_no_spawn (datasetId metaLearner : string) (probes : list event) :
  In probes (probe_shapes W datasetId metaLearner) ->
  existsb is_spawn probes = false.
Proof.
  unfold probe_shapes. intros I.
  repeat (destruct I as [<-|I]; [reflexivity|]). destruct I.
Qed.

(** A conversion throws with one message only. *)
Lemma numbers_of_throw (vals : list value) (e : string) :
  numbers_of B vals = Throw e -> e = primitive_error.
Proof.
  induction vals as [|v vals IH]; simpl; [discriminate|].
  unfold ToNumberT. destruct (coercion_throws v).
  - intros H. now inversion H.
  - destruct (numbers_of B vals) as [ns|e']; [discriminate|].
    intros H. inversion H. subst. now apply IH.
Qed.

Lemma impRaw_throw (ensemble base : value) (e : string) :
  impRaw B ensemble base = Throw e -> e = primitive_error.
Proof.
  unfold impRaw, bestBase.
  destruct (negb (is_undefined (get ensemble "accuracy"))); [|discriminate].
  destruct (numbers_of B _) as [[|n ns]|e'] eqn:N.
  - unfold ToNumberT. destruct (coercion_throws _); [|discriminate].
    intros H. now inversion H.
  - unfold ToNumberT. destruct (coercion_throws _); [|discriminate].
    intros H. now inversion H.
  - intros H. inversion H. subst. now apply numbers_of_throw in N.
Qed.

Lemma classificationResults_throw p d n f h t (e : string) :
  classificationResults B p d n f h t = Throw e -> e = primitive_error.
Proof.
  unfold classificationResults.
  destruct (impRaw B (ensembleOf (metricsOf (methodOf p "voting")) "Voting Ensemble") _)
    as [v|e1] eqn:V.
  - destruct (impRaw B (ensembleOf (metricsOf (methodOf p "stacking"))
                          "Stacking Ensemble") _) as [s|e2] eqn:S; [discriminate|].
    intros H. inversion H. subst. now apply impRaw_throw in S.
  - intros H. inversion H. subst. now apply impRaw_throw in V.
Qed.

(** The payload of a request that ended with a spawn and a success: the
    normalised output of the trainer that the spawned interpreter
    printed. *)
Lemma live_success_payload (formData : FormData) (log log' : list event)
  (response : value) :
  processDataset B W formData log = (Ok response, log') ->
  get response "success" = Bool true ->
  existsb is_spawn log = false ->
  existsb is_spawn log' = true ->
  let metaLearner := text (or (formData_get formData "meta_learner") (Str "linear")) in
  exists datasetId filename csvContent out jsonStr pythonResults,
    formData_get formData "dataset" = Str datasetId
    /\ isValidDataset datasetId = true
    /\ assoc datasetId DATASET_FILES = Some filename
    /\ fs_read W (datasetsPath W filename) = Ok csvContent
    /\ promise (exec_run B W (PYTHON_TIMEOUT_MS B W)
                  (executePythonScript_events W (pythonScript W datasetId)
                     (pythonArgs W datasetId metaLearner filename)))
       = Some (Ok out)
    /\ Extract.extractJsonFromStdout out = Ok jsonStr
    /\ JSON_parse W jsonStr = Ok pythonResults
    /\ isRecord (get pythonResults "dataset_info") = true
    /\ let headers := csv_headers (csv_lines csvContent) in
       (datasetId = "loan"
        /\ exists votingImpRaw stackingImpRaw,
             response
             = success_response
                 (classificationPayload B pythonResults "loan"
                    (Z.of_nat (List.length (csv_dataRows (csv_lines csvContent))))
                    (Z.of_nat (List.length headers) - 1)
                    headers (last headers "") votingImpRaw stackingImpRaw))
       \/ (datasetId <> "loan"
           /\ response
              = success_response
                  (regressionResults pythonResults datasetId
                     (target_of datasetId headers))).
Proof.
  intros H Hs Hl Hl' metaLearner.
  destruct (processDataset_cases formData log)
    as [[message E]|[d [m [filename [probes [Hd [Hv [Hm [Hvm [Ha [Hp [[data [_ E]]|E]]]]]]]]]]]];
    rewrite E in H.
  - inversion H; subst. discriminate.
  - inversion H; subst. rewrite existsb_app, Hl in Hl'.
    rewrite (probe_shapes_no_spawn _ _ _ Hp) in Hl'. discriminate.
  - subst metaLearner. rewrite Hm.
    rewrite liveExecution_eq in H. unfold pipeline_outcome in H. rewrite Ha in H.
    destruct (fs_size W _) as [size|]; [|inversion H; subst; discriminate].
    destruct (Qltb _ size); [inversion H; subst; discriminate|].
    destruct (fs_read W (datasetsPath W filename)) as [csvContent|] eqn:Rd;
      [|inversion H; subst; discriminate].
    unfold pipeline_result in H.
    assert (P := promise_settlement (PYTHON_TIMEOUT_MS B W)
                   (child W (PYTHON_COMMAND W)
                      (pythonScript W d :: pythonArgs W d m filename))).
    fold (executePythonScript_events W (pythonScript W d) (pythonArgs W d m filename))
      in P.
    destruct (fst (first_settlement _ _ _ _ _ _)) as [out|];
      [|inversion H; subst; discriminate].
    destruct (Extract.extractJsonFromStdout out) as [jsonStr|] eqn:X;
      [|inversion H; subst; discriminate].
    destruct (JSON_parse W jsonStr) as [pythonResults|] eqn:J;
      [|inversion H; subst; discriminate].
    destruct (isRecord pythonResults); cbn [negb] in H;
      [|inversion H; subst; discriminate].
    destruct (isRecord (get pythonResults "dataset_info")) eqn:R; cbn [negb] in H;
      [|inversion H; subst; discriminate].
    exists d, filename, csvContent, out, jsonStr, pythonResults.
    repeat (split; [assumption|]).
    cbv zeta.
    destruct (String.eqb_spec d "loan") as [->|Nl].
    + left. split; [reflexivity|].
      destruct (classificationResults B pythonResults _ _ _ _ _) as [results|] eqn:C;
        [|inversion H; subst; discriminate].
      apply classificationResults_payload in C. destruct C as [v [s [_ [_ ->]]]].
      inversion H. now exists v, s.
    + right. split; [exact Nl|]. now inversion H.
Qed.

(** A live execution that fails after the data file was read. *)
Lemma liveExecution_failure (datasetId metaLearner filename csvContent : string)
  (size : Q) (log log' : list event) (response : value) :
  assoc datasetId DATASET_FILES = Some filename ->
  fs_size W (datasetsPath W filename) = Ok size ->
  (size <= MAX_DATASET_FILE_SIZE_BYTES B W)%Q ->
  fs_read W (datasetsPath W filename) = Ok csvContent ->
  liveExecution B W datasetId metaLearner log = (Ok response, log') ->
  get response "success" = Bool false ->
  exists inner,
    response = failure_response (wrapped inner)
    /\ (promise
          (exec_run B W (PYTHON_TIMEOUT_MS B W)
             (executePythonScript_events W (pythonScript W datasetId)
                (pythonArgs W datasetId metaLearner filename)))
        = Some (Throw inner)
        \/ In inner
             [parse_failure;
              "Python regression results are malformed";
              "Python classification results are malformed";
              "Python results missing dataset_info"]
        \/ (datasetId = "loan" /\ inner = primitive_error)).
Proof.
  intros Ha Hs Hle Hr H Hf.
  rewrite liveExecution_eq in H. unfold pipeline_outcome in H.
  rewrite Ha, Hs, (Qltb_false_le _ _ Hle), Hr in H.
  unfold executePythonScript_events. rewrite promise_settlement.
  unfold pipeline_result in H.
  destruct (fst (first_settlement _ _ _ _ _ _)) as [out|rejection].
  2:{ inversion H. exists rejection. split; [reflexivity | now left]. }
  destruct (Extract.extractJsonFromStdout out) as [jsonStr|].
  2:{ inversion H. eexists. split; [reflexivity|]. right. left. simpl. tauto. }
  destruct (JSON_parse W jsonStr) as [pythonResults|].
  2:{ inversion H. eexists. split; [reflexivity|]. right. left. simpl. tauto. }
  destruct (isRecord pythonResults); cbn [negb] in H.
  2:{ inversion H. eexists. split; [reflexivity|]. right. left.
      destruct (String.eqb datasetId "loan"); simpl; tauto. }
  destruct (isRecord (get pythonResults "dataset_info")); cbn [negb] in H.
  2:{ inversion H. eexists. split; [reflexivity|]. right. left. simpl. tauto. }
  destruct (String.eqb_spec datasetId "loan") as [L|L].
  - destruct (classificationResults B pythonResults _ _ _ _ _) as [results|e] eqn:C.
    + inversion H; subst; discriminate.
    + apply classificationResults_throw in C. subst e.
      inversion H. eexists. split; [reflexivity|]. right. right. now split.
  - inversion H; subst; discriminate.
Qed.
End LiveFacts.


(** X1. Both server actions always return, and return an object of one of
    two shapes: [processDataset] answers with [success: true] and [data] or
    with [success: false] and an error message, [getDatasetRows] with
    [success: true], [headers] and [rows] or with [success: false] and an
    error message. Nothing thrown inside them escapes. *)
Theorem server_actions_always_answer (B : Js.Builtins) (W : Actions.World) :
  (forall formData log,
      exists response log',
        Actions.processDataset B W formData log = (Ok response, log')
        /\ ((exists data, response = Actions.success_response data)
            \/ (exists message, response = Actions.failure_response message)))
  /\ (forall datasetId log,
         exists response log',
           Actions.getDatasetRows W datasetId log = (Ok response, log')
           /\ ((exists headers rows,
                   response = Js.Obj [("success", Js.Bool true);
                                      ("headers", Js.Arr headers);
                                      ("rows", Js.Arr rows)])
               \/ (exists message, response = Actions.failure_response message))).
Proof.
  split.
  - intros formData log. apply processDataset_shape.
  - intros datasetId log. unfold Actions.getDatasetRows.
    cbv [Actions.try_catch Actions.bind Actions.readFileSync Actions.emit
         Actions.lift Actions.ret Actions.throw].
    destruct (negb (Js.truthy (Js.Str datasetId))); [eauto 7|].
    destruct (negb (Actions.isValidDataset datasetId)); [eauto 7|].
    destruct (Actions.assoc datasetId Actions.DATASET_FILES); [|eauto 7].
    destruct (Actions.fs_read W _); eauto 9.
Qed.

(** X2. Whenever a request ends with a spawn and a success, the returned
    [dataset_info] carries the requested dataset id, its [task_type] is
    "classification" exactly when its [is_classification] is truthy (always
    so for loan), and its [target_variable] is "mpg" for automobile and
    "concrete_compressive_strength" for concrete whatever the data file and
    the trainer say. *)
Theorem live_dataset_info_consistent (B : Js.Builtins) (W : Actions.World)
  (formData : Actions.FormData) (log log' : list Actions.event)
  (response : Js.value) :
  Actions.processDataset B W formData log = (Ok response, log') ->
  Js.get response "success" = Js.Bool true ->
  existsb is_spawn log = false ->
  existsb is_spawn log' = true ->
  let info := Js.get (Js.get response "data") "dataset_info" in
  let datasetId := Actions.formData_get formData "dataset" in
  Js.get info "dataset_id" = datasetId
  /\ ((Js.get info "task_type" = Js.Str "classification"
       /\ Js.truthy (Js.get info "is_classification") = true)
      \/ (Js.get info "task_type" = Js.Str "regression"
          /\ Js.truthy (Js.get info "is_classification") = false))
  /\ (datasetId = Js.Str "loan" -> Js.get info "task_type" = Js.Str "classification")
  /\ (datasetId = Js.Str "automobile" -> Js.get info "target_variable" = Js.Str "mpg")
  /\ (datasetId = Js.Str "concrete" ->
      Js.get info "target_variable" = Js.Str "concrete_compressive_strength").
Proof.
  intros H Hs Hl Hl' info datasetId.
  destruct (live_success_payload B W formData log log' response H Hs Hl Hl')
    as [d [filename [csvContent [out [jsonStr [pythonResults
         [Hd [_ [_ [_ [_ [_ [_ [_ D]]]]]]]]]]]]]].
  destruct D as [[-> [v [s E]]]|[Nl E]]; subst datasetId info; rewrite Hd, E.
  - cbn. repeat split; try discriminate. left. now split.
  - unfold Actions.regressionResults, Actions.success_response.
    cbn [Js.get Js.lookup Js.from_option String.eqb Ascii.eqb Bool.eqb].
    split; [reflexivity|]. split.
    { unfold Js.or.
      destruct (Js.truthy (Js.get (Js.get pythonResults "dataset_info")
                             "is_classification")) eqn:T.
      - left. now split.
      - right. now split. }
    split; [intros Q; inversion Q; congruence|].
    split; intros Q; inversion Q; subst; reflexivity.
Qed.

Lemma processDataset_loan_run :
  Actions.processDataset Host.builtins Samples.loan_world Samples.loan_request []
  = (Ok Samples.loan_response, Samples.loan_log).
Proof. vm_compute. reflexivity. Qed.

Lemma live_dataset_info_consistent_witness :
  Js.get (Js.get (Js.get Samples.loan_response "data") "dataset_info") "dataset_id"
  = Js.Str "loan"
  /\ Js.get (Js.get (Js.get Samples.loan_response "data") "dataset_info") "task_type"
     = Js.Str "classification".
Proof.
  pose proof (live_dataset_info_consistent Host.builtins Samples.loan_world
                Samples.loan_request [] Samples.loan_log Samples.loan_response
                processDataset_loan_run eq_refl eq_refl eq_refl) as [H1 [_ [H3 _]]].
  split; [exact H1 | exact (H3 eq_refl)].
Defined.

(** X3. When the precomputed voting file is absent and the data file cannot
    be examined or is larger than the limit, the request fails with the
    message "Unable to access dataset file..." in both cases (the message
    about the size is thrown inside the same [try] and replaced), after the
    existence check and the [statSync] only: the data file is not read and
    nothing is spawned. *)
Theorem oversize_reported_as_inaccessible (B : Js.Builtins) (W : Actions.World)
  (formData : Actions.FormData) (log : list Actions.event)
  (datasetId metaLearner filename : string) :
  Actions.formData_get formData "dataset" = Js.Str datasetId ->
  Actions.isValidDataset datasetId = true ->
  Actions.text (Js.or (Actions.formData_get formData "meta_learner") (Js.Str "linear"))
  = metaLearner ->
  Actions.isValidMetaLearner metaLearner = true ->
  Actions.assoc datasetId Actions.DATASET_FILES = Some filename ->
  Actions.fs_exists W (Actions.votingFile W datasetId) = false ->
  (exists e, Actions.fs_size W (datasetsPath W filename) = Throw e)
  \/ (exists size, Actions.fs_size W (datasetsPath W filename) = Ok size
                   /\ (Actions.MAX_DATASET_FILE_SIZE_BYTES B W < size)%Q) ->
  Actions.processDataset B W formData log
  = (Ok (Actions.failure_response
           "Unable to access dataset file. Please verify the bundled data files are available on the server."),
     (log ++ [Actions.ExistsSync (Actions.votingFile W datasetId);
              Actions.StatSync (datasetsPath W filename)])%list).
Proof.
  intros Hd Hv Hm Hvm Ha He Hsize.
  rewrite (processDataset_valid B W formData log datasetId metaLearner Hd Hv Hm Hvm).
  rewrite He, liveExecution_eq. unfold pipeline_outcome. rewrite Ha.
  rewrite <- app_assoc. simpl app.
  destruct Hsize as [[e ->]|[size [-> L]]]; [reflexivity|].
  assert (Q : Js.Qltb (Actions.MAX_DATASET_FILE_SIZE_BYTES B W) size = true).
  { unfold Js.Qltb. apply negb_true_iff.
    destruct (Qle_bool size (Actions.MAX_DATASET_FILE_SIZE_BYTES B W)) eqn:E;
      [|reflexivity].
    apply Qle_bool_iff in E. exfalso. exact (Qlt_not_le _ _ L E). }
  now rewrite Q.
Qed.

Lemma oversize_reported_as_inaccessible_witness :
  Actions.processDataset Host.builtins Samples.oversize_world
    [("dataset", "automobile"); ("meta_learner", "linear")] []
  = (Ok (Actions.failure_response
           "Unable to access dataset file. Please verify the bundled data files are available on the server."),
     [Actions.ExistsSync "/srv/public/precomputed-results/automobile-voting.json";
      Actions.StatSync "/srv/data/Automobile.csv"]).
Proof.
  refine (oversize_reported_as_inaccessible Host.builtins Samples.oversize_world
            [("dataset", "automobile"); ("meta_learner", "linear")] []
            "automobile" "linear" "Automobile.csv"
            eq_refl eq_refl eq_refl eq_refl eq_refl eq_refl _).
  right. exists (6 * 1024 * 1024)%Q. split; reflexivity.
Defined.



(** X5. Once the data file has been examined and read, every failure of a
    request reaches the caller as "ML Processing Failed: ...", followed by
    the hint about Python and its packages, whether or not the precomputed
    files were tried first. What stands in between is the rejection message
    of the interpreter's promise, or the fixed parse message (whatever the
    parser or the marker search complained about), or one of the three
    messages about the shape of the trainer's result, or, for loan, the
    message of the TypeError raised when an accuracy given as an object
    cannot be converted to a number. *)
Theorem live_failures_are_wrapped (B : Js.Builtins) (W : Actions.World)
  (formData : Actions.FormData) (log log' : list Actions.event)
  (datasetId metaLearner filename csvContent : string) (size : Q)
  (response : Js.value) :
  Actions.formData_get formData "dataset" = Js.Str datasetId ->
  Actions.isValidDataset datasetId = true ->
  Actions.text (Js.or (Actions.formData_get formData "meta_learner") (Js.Str "linear"))
  = metaLearner ->
  Actions.isValidMetaLearner metaLearner = true ->
  Actions.assoc datasetId Actions.DATASET_FILES = Some filename ->
  Actions.fs_size W (datasetsPath W filename) = Ok size ->
  (size <= Actions.MAX_DATASET_FILE_SIZE_BYTES B W)%Q ->
  Actions.fs_read W (datasetsPath W filename) = Ok csvContent ->
  Actions.processDataset B W formData log = (Ok response, log') ->
  Js.get response "success" = Js.Bool false ->
  exists inner,
    response
    = Actions.failure_response
        ("ML Processing Failed: " ++ inner
         ++ ". Please check if Python and required packages (scikit-learn, xgboost, pandas, numpy) are installed.")
    /\ (Actions.promise
          (Actions.exec_run B W (Actions.PYTHON_TIMEOUT_MS B W)
             (Actions.executePythonScript_events W (pythonScript W datasetId)
                (pythonArgs W datasetId metaLearner filename)))
        = Some (Throw inner)
        \/ In inner
             ["Unable to parse machine learning results. Please check the server logs for details.";
              "Python regression results are malformed";
              "Python classification results are malformed";
              "Python results missing dataset_info"]
        \/ (datasetId = "loan" /\ inner = Js.primitive_error)).
Proof.
  intros Hd Hv Hm Hvm Ha Hs Hle Hr H Hf.
  rewrite (processDataset_valid B W formData log datasetId metaLearner Hd Hv Hm Hvm)
    in H.
  destruct (Actions.fs_exists W (Actions.votingFile W datasetId)).
  2:{ exact (liveExecution_failure B W _ _ _ _ _ _ _ _ Ha Hs Hle Hr H Hf). }
  destruct (Actions.fs_exists W (Actions.stackingFile W datasetId metaLearner)).
  2:{ exact (liveExecution_failure B W _ _ _ _ _ _ _ _ Ha Hs Hle Hr H Hf). }
  destruct (cache_result W _ _) as [r|] eqn:C.
  - apply cache_result_shape in C. destruct C as [data ->].
    inversion H; subst; discriminate.
  - exact (liveExecution_failure B W _ _ _ _ _ _ _ _ Ha Hs Hle Hr H Hf).
Qed.

(** The last case occurs: the trainer of the loan dataset reports an
    accuracy that cannot be converted, and the request fails with the
    message of the [TypeError]. *)
Example processDataset_conversion_failure :
  fst (Actions.processDataset Host.builtins
         (Host.live (Host.csv_of 2) "log RESULTS_JSON_START payload RESULTS_JSON_END"
            Host.object_metric_results)
         [("dataset", "loan")] [])
  = Ok (Actions.failure_response
          "ML Processing Failed: Cannot convert object to primitive value. Please check if Python and required packages (scikit-learn, xgboost, pandas, numpy) are installed.").
Proof. vm_compute. reflexivity. Qed.

Lemma live_failures_are_wrapped_witness :
  exists inner,
    Actions.failure_response
      "ML Processing Failed: Failed to start Python process: spawn python ENOENT. Please check if Python and required packages (scikit-learn, xgboost, pandas, numpy) are installed."
    = Actions.failure_response
        ("ML Processing Failed: " ++ inner
         ++ ". Please check if Python and required packages (scikit-learn, xgboost, pandas, numpy) are installed.")
    /\ (Actions.promise
          (Actions.exec_run Host.builtins Samples.failing_world
             (Actions.PYTHON_TIMEOUT_MS Host.builtins Samples.failing_world)
             (Actions.executePythonScript_events Samples.failing_world
                (pythonScript Samples.failing_world "concrete")
                (pythonArgs Samples.failing_world "concrete" "xgboost" "Concrete.csv")))
        = Some (Throw inner)
        \/ In inner
             ["Unable to parse machine learning results. Please check the server logs for details.";
              "Python regression results are malformed";
              "Python classification results are malformed";
              "Python results missing dataset_info"]
        \/ ("concrete" = "loan" /\ inner = Js.primitive_error)).
Proof.
  refine (live_failures_are_wrapped Host.builtins Samples.failing_world
            [("dataset", "concrete"); ("meta_learner", "xgboost")] [] _
            "concrete" "xgboost" "Concrete.csv" "strength" 1024 _
            eq_refl eq_refl eq_refl eq_refl eq_refl eq_refl _ eq_refl
            ltac:(vm_compute; reflexivity) eq_refl).
  vm_compute. discriminate.
Defined.

(* ================================================================= *)
(** * Further properties of the limits and of the Python bridge *)

Section LimitFacts.
Import JsString Js Actions.
Local Open Scope Q_scope.
Variable B : Builtins.
Variable W : World.

Lemma getNumberEnv_positive (name : string) (fallback : Q) :
  0 < fallback -> 0 < getNumberEnv B W name fallback.
Proof.
  intros F. unfold getNumberEnv.
  destruct (env W name) as [raw|]; [|exact F].
  destruct (negb (truthy (Str raw))); [exact F|].
  destruct (ToNumber B (Str raw)) as [|parsed]; [exact F|].
  destruct (Qle_bool parsed 0) eqn:E; [exact F|].
  apply Qnot_le_lt. intros L. apply Qle_bool_iff in L. congruence.
Qed.

Lemma stdout_cap_positive : 0 < PYTHON_STDOUT_MAX_BYTES B W.
Proof.
  unfold PYTHON_STDOUT_MAX_BYTES.
  assert (P := getNumberEnv_positive "PYTHON_STDOUT_MAX_MB" DEFAULT_STDOUT_MAX_MB
                 eq_refl).
  apply Qmult_lt_0_compat; [apply Qmult_lt_0_compat|]; easy.
Qed.
End LimitFacts.

(** X6. [getNumberEnv] yields the default when the variable is unset, empty,
    not a number, zero or negative, and the number it holds otherwise; so,
    for a positive default, the result is positive. In particular the
    time-out, the limit on the data file and the cap on the interpreter's
    output are positive whatever the environment holds. *)
Theorem getNumberEnv_spec (B : Js.Builtins) (W : Actions.World)
  (name : string) (fallback : Q) :
  (Actions.env W name = None \/ Actions.env W name = Some "" ->
   Actions.getNumberEnv B W name fallback = fallback)
  /\ (forall raw,
         Actions.env W name = Some raw -> Js.ToNumber B (Js.Str raw) = Js.NaN ->
         Actions.getNumberEnv B W name fallback = fallback)
  /\ (forall raw parsed,
         Actions.env W name = Some raw -> raw <> "" ->
         Js.ToNumber B (Js.Str raw) = Js.Num parsed ->
         ((0 < parsed)%Q -> Actions.getNumberEnv B W name fallback = parsed)
         /\ ((parsed <= 0)%Q -> Actions.getNumberEnv B W name fallback = fallback))
  /\ ((0 < fallback)%Q -> (0 < Actions.getNumberEnv B W name fallback)%Q)
  /\ (0 < Actions.PYTHON_TIMEOUT_MS B W)%Q
  /\ (0 < Actions.MAX_DATASET_FILE_SIZE_BYTES B W)%Q
  /\ (0 < Actions.PYTHON_STDOUT_MAX_BYTES B W)%Q.
Proof.
  split; [|split; [|split; [|split; [|split; [|split]]]]].
  - unfold Actions.getNumberEnv. intros [-> | ->]; reflexivity.
  - intros raw E N. unfold Actions.getNumberEnv. rewrite E, N.
    now destruct (negb (Js.truthy (Js.Str raw))).
  - intros raw parsed E Hne N. unfold Actions.getNumberEnv. rewrite E, N.
    assert (T : Js.truthy (Js.Str raw) = true)
      by (destruct raw; [congruence | reflexivity]).
    rewrite T. cbn [negb]. split; intros P.
    + destruct (Qle_bool parsed 0) eqn:L; [|reflexivity].
      apply Qle_bool_iff in L. exfalso. exact (Qlt_not_le _ _ P L).
    + apply Qle_bool_iff in P. now rewrite P.
  - apply getNumberEnv_positive.
  - now apply getNumberEnv_positive.
  - unfold Actions.MAX_DATASET_FILE_SIZE_BYTES.
    assert (P := getNumberEnv_positive B W "MAX_DATASET_MB"
                   Actions.DEFAULT_MAX_DATASET_MB eq_refl).
    apply Qmult_lt_0_compat; [apply Qmult_lt_0_compat|]; easy.
  - apply stdout_cap_positive.
Qed.

Lemma getNumberEnv_spec_witness :
  Actions.getNumberEnv Host.builtins Samples.tuned_world "PYTHON_TIMEOUT_MS" 120000 = 30000%Q
  /\ Actions.getNumberEnv Host.builtins Samples.tuned_world "MAX_DATASET_MB" 5 = 5%Q
  /\ Actions.getNumberEnv Host.builtins Samples.tuned_world "PYTHON_STDOUT_MAX_MB" 5 = 5%Q.
Proof.
  split; [|split].
  - refine (proj1 (proj1 (proj2 (proj2 (getNumberEnv_spec Host.builtins
              Samples.tuned_world "PYTHON_TIMEOUT_MS" 120000)))
              "30000" 30000%Q eq_refl _ eq_refl) eq_refl).
    discriminate.
  - refine (proj2 (proj1 (proj2 (proj2 (getNumberEnv_spec Host.builtins
              Samples.tuned_world "MAX_DATASET_MB" 5)))
              "-3" (-3)%Q eq_refl _ eq_refl) _).
    + discriminate.
    + discriminate.
  - exact (proj1 (getNumberEnv_spec Host.builtins Samples.tuned_world
                    "PYTHON_STDOUT_MAX_MB" 5) (or_introl eq_refl)).
Defined.

Section BridgeBounds.
Import JsString Js Actions.
Variable B : Builtins.
Variable W : World.
Variable timeoutMs : Q.

Lemma append_assoc (a b c : string) : (a ++ b) ++ c = a ++ (b ++ c).
Proof. induction a as [|x a IH]; simpl; [reflexivity | now rewrite IH]. Qed.

Lemma append_empty (a : string) : a ++ "" = a.
Proof. induction a as [|x a IH]; simpl; [reflexivity | now rewrite IH]. Qed.

Lemma first_settlement_kills (events : list proc_event) :
  forall out err, (snd (first_settlement B W timeoutMs out err events) <= 1)%nat.
Proof.
  induction events as [|e events IH]; intros out err; simpl; [lia|].
  destruct e as [data|data|code|message|]; simpl; try lia.
  - destruct (Qltb _ _); [simpl; lia | apply IH].
  - apply IH.
  - destruct code as [[|c|c]|]; simpl; lia.
Qed.

Lemma first_settlement_resolved (events : list proc_event) :
  forall out0 err0 out,
    (inject_Z (length out0) <= PYTHON_STDOUT_MAX_BYTES B W)%Q ->
    fst (first_settlement B W timeoutMs out0 err0 events) = Ok out ->
    (inject_Z (length out) <= PYTHON_STDOUT_MAX_BYTES B W)%Q
    /\ snd (first_settlement B W timeoutMs out0 err0 events) = 0%nat
    /\ exists pre post,
         events = (pre ++ Close (Some 0) :: post)%list
         /\ Forall (fun e => exists data, e = StdoutData data \/ e = StderrData data) pre
         /\ out = out0 ++ stdout_of pre.
Proof.
  induction events as [|e events IH]; intros out0 err0 out L R; simpl in R |- *;
    [discriminate|].
  destruct e as [data|data|code|message|]; simpl in R |- *; try discriminate.
  - destruct (Qltb (PYTHON_STDOUT_MAX_BYTES B W)
                (inject_Z (length (out0 ++ data)))) eqn:C; [discriminate|].
    assert (L' : (inject_Z (length (out0 ++ data)) <= PYTHON_STDOUT_MAX_BYTES B W)%Q).
    { unfold Qltb in C. apply negb_false_iff in C. now apply Qle_bool_iff. }
    destruct (IH _ _ _ L' R) as [Lo [K [pre [post [E [F O]]]]]].
    split; [exact Lo|]. split; [exact K|].
    exists (StdoutData data :: pre), post. subst events.
    split; [reflexivity|]. split.
    + constructor; [now exists data; left | exact F].
    + rewrite O. simpl. now rewrite append_assoc.
  - destruct (IH _ _ _ L R) as [Lo [K [pre [post [E [F O]]]]]].
    split; [exact Lo|]. split; [exact K|].
    exists (StderrData data :: pre), post. subst events.
    split; [reflexivity|]. split.
    + constructor; [now exists data; right | exact F].
    + exact O.
  - destruct code as [[|c|c]|]; simpl in R |- *; try discriminate.
    inversion R; subst out.
    split; [exact L|]. split; [reflexivity|].
    exists [], events. split; [reflexivity|]. split; [constructor|].
    simpl. now rewrite append_empty.
Qed.

Lemma first_settlement_without_stderr (events : list proc_event) :
  forall out err,
    let with_err := first_settlement B W timeoutMs out err events in
    let without := first_settlement B W timeoutMs out "" (without_stderr events) in
    snd with_err = snd without
    /\ (fst with_err = fst without
        \/ exists code err',
             code <> Some 0
             /\ fst with_err = Throw (exit_message code err')
             /\ fst without = Throw (exit_message code ""))
    /\ (forall o, fst with_err = Ok o <-> fst without = Ok o).
Proof.
  assert (G : forall events out err err0,
             let with_err := first_settlement B W timeoutMs out err events in
             let without := first_settlement B W timeoutMs out err0 (without_stderr events) in
             snd with_err = snd without
             /\ (fst with_err = fst without
                 \/ exists code err',
                      code <> Some 0
                      /\ fst with_err = Throw (exit_message code err')
                      /\ fst without = Throw (exit_message code err0))).
  { clear events. induction events as [|e events IH]; intros out err err0; simpl.
    - split; [reflexivity | now left].
    - destruct e as [data|data|code|message|]; simpl.
      + destruct (Qltb _ _); [split; [reflexivity | now left] | apply IH].
      + apply IH.
      + destruct code as [[|c|c]|]; simpl; (split; [reflexivity|]);
          try (now left); right.
        * exists (Some (Z.pos c)), err. now repeat split.
        * exists (Some (Z.neg c)), err. now repeat split.
        * exists None, err. now repeat split.
      + split; [reflexivity | now left].
      + split; [reflexivity | now left]. }
  intros out err with_err without.
  destruct (G events out err "") as [K D]. fold with_err without in K, D.
  split; [exact K|]. split; [exact D|].
  intros o. destruct D as [E | [code [err' [_ [E1 E2]]]]].
  - now rewrite E.
  - rewrite E1, E2. split; discriminate.
Qed.
End BridgeBounds.

(** X7. When the promise of [executePythonScript] resolves, its value is the
    output chunks received before the close with code 0, concatenated in
    order, its length is within the cap on the output, and the process was
    not killed. Whatever happens, the process is killed at most once. *)
Theorem resolved_output_within_cap (B : Js.Builtins) (W : Actions.World)
  (timeoutMs : Q) (trace : list Actions.proc_event) :
  let final := Actions.exec_run B W timeoutMs (trace ++ [Actions.TimerFired]) in
  (Actions.kills final <= 1)%nat
  /\ forall out,
       Actions.promise final = Some (Ok out) ->
       (inject_Z (JsString.length out) <= Actions.PYTHON_STDOUT_MAX_BYTES B W)%Q
       /\ Actions.kills final = 0%nat
       /\ exists pre post,
            trace = (pre ++ Actions.Close (Some 0) :: post)%list
            /\ out = stdout_of pre.
Proof.
  intros final.
  destruct (run_settles B W timeoutMs trace Actions.exec_init eq_refl eq_refl)
    as [_ K].
  fold (Actions.exec_run B W timeoutMs (trace ++ [Actions.TimerFired])) in K.
  fold final in K. cbn [Actions.exec_init Actions.kills Actions.stdout
                        Actions.stderr Nat.add] in K.
  split.
  - rewrite K. apply first_settlement_kills.
  - intros out P. unfold final in P. rewrite promise_settlement in P.
    inversion P as [R].
    assert (L0 : (inject_Z (JsString.length "")
                  <= Actions.PYTHON_STDOUT_MAX_BYTES B W)%Q).
    { apply Qlt_le_weak. apply stdout_cap_positive. }
    destruct (first_settlement_resolved B W timeoutMs trace "" "" out L0 R)
      as [L [Z [pre [post [E [_ O]]]]]].
    split; [exact L|]. split; [now rewrite K|].
    exists pre, post. now split.
Qed.

Lemma resolved_output_within_cap_witness :
  (inject_Z (JsString.length "{}") <= Actions.PYTHON_STDOUT_MAX_BYTES Host.builtins Samples.tuned_world)%Q
  /\ Actions.kills (Actions.exec_run Host.builtins Samples.tuned_world 30000
       ([Actions.StdoutData "{"; Actions.StderrData "warning"; Actions.StdoutData "}";
         Actions.Close (Some 0); Actions.StdoutData "late"] ++ [Actions.TimerFired])) = 0%nat.
Proof.
  destruct (proj2 (resolved_output_within_cap Host.builtins Samples.tuned_world 30000
              [Actions.StdoutData "{"; Actions.StderrData "warning";
               Actions.StdoutData "}"; Actions.Close (Some 0);
               Actions.StdoutData "late"]) "{}" eq_refl) as [L [K _]].
  split; [exact L | exact K].
Defined.

(** X8. What the child writes to its error stream never decides how the
    promise of [executePythonScript] settles: with the error chunks removed
    from the trace, the promise resolves in the same cases and with the same
    value, the process is killed as often, and a rejection has the same
    message unless it is the one that reports an exit code other than 0,
    which then quotes no error text. *)
Theorem stderr_never_decides (B : Js.Builtins) (W : Actions.World)
  (timeoutMs : Q) (trace : list Actions.proc_event) :
  let final := Actions.exec_run B W timeoutMs (trace ++ [Actions.TimerFired]) in
  let final' := Actions.exec_run B W timeoutMs
                  (without_stderr trace ++ [Actions.TimerFired]) in
  Actions.kills final = Actions.kills final'
  /\ (forall out, Actions.promise final = Some (Ok out)
                  <-> Actions.promise final' = Some (Ok out))
  /\ (Actions.promise final = Actions.promise final'
      \/ exists code err,
           code <> Some 0
           /\ Actions.promise final = Some (Throw (exit_message code err))
           /\ Actions.promise final'
              = Some (Throw (exit_message code ""))).
Proof.
  intros final final'.
  destruct (run_settles B W timeoutMs trace Actions.exec_init eq_refl eq_refl)
    as [_ K].
  destruct (run_settles B W timeoutMs (without_stderr trace) Actions.exec_init
              eq_refl eq_refl) as [_ K'].
  fold (Actions.exec_run B W timeoutMs (trace ++ [Actions.TimerFired])) in K.
  fold (Actions.exec_run B W timeoutMs (without_stderr trace ++ [Actions.TimerFired])) in K'.
  fold final in K. fold final' in K'.
  cbn [Actions.exec_init Actions.kills Actions.stdout Actions.stderr Nat.add] in K, K'.
  unfold final, final'. rewrite !promise_settlement.
  destruct (first_settlement_without_stderr B W timeoutMs trace "" "")
    as [S [D R]].
  split; [fold final final'; congruence|]. split.
  - intros out. split; intros H; injection H as H'; apply R in H';
      now rewrite H'.
  - destruct D as [E | [code [err [N [E1 E2]]]]].
    + left. now rewrite E.
    + right. exists code, err. rewrite E1, E2. now repeat split.
Qed.

Lemma stderr_never_decides_witness :
  Actions.promise
    (Actions.exec_run Host.builtins Samples.tuned_world 30000
       ([Actions.StderrData "Traceback"; Actions.Close (Some 1)] ++ [Actions.TimerFired]))
  = Some (Throw "Python script exited with code 1: Traceback")
  /\ Actions.promise
       (Actions.exec_run Host.builtins Samples.tuned_world 30000
          (without_stderr [Actions.StderrData "Traceback"; Actions.Close (Some 1)]
           ++ [Actions.TimerFired]))
     = Some (Throw "Python script exited with code 1: No stderr output").
Proof.
  destruct (proj2 (proj2 (stderr_never_decides Host.builtins Samples.tuned_world 30000
              [Actions.StderrData "Traceback"; Actions.Close (Some 1)])))
    as [E | _]; [discriminate E|].
  split; reflexivity.
Defined.

(* ================================================================= *)
(** * The table returned by [getDatasetRows] *)

Section TableFacts.
Import JsString Js Actions.

Lemma split_not_nil (sep : ascii) (s : string) : split sep s <> [].
Proof.
  destruct s as [|c s]; simpl; [discriminate|].
  destruct (Ascii.eqb c sep); [discriminate|].
  destruct (split sep s); discriminate.
Qed.

Lemma split_without (c sep : ascii) (s : string) :
  has_char c s = false \/ c = sep ->
  Forall (fun piece => has_char c piece = false) (split sep s).
Proof.
  induction s as [|x s IH]; intros H; simpl.
  - constructor; [reflexivity | constructor].
  - assert (H' : has_char c s = false \/ c = sep).
    { destruct H as [H|H]; [left | now right].
      simpl in H. now apply orb_false_iff in H. }
    specialize (IH H').
    destruct (Ascii.eqb x sep) eqn:E.
    + constructor; [reflexivity | exact IH].
    + assert (X : Ascii.eqb x c = false).
      { destruct H as [H| ->]; [|exact E].
        simpl in H. now apply orb_false_iff in H. }
      destruct (split sep s) as [|h t].
      * constructor; [simpl; now rewrite X | constructor].
      * inversion IH; subst. constructor; [simpl; now rewrite X | assumption].
Qed.

Lemma trimStart_without (c : ascii) (s : string) :
  has_char c s = false -> has_char c (trimStart s) = false.
Proof.
  induction s as [|x s IH]; intros H; simpl; [reflexivity|].
  destruct (is_white x); [|exact H].
  apply IH. simpl in H. now apply orb_false_iff in H.
Qed.

Lemma trimEnd_without (c : ascii) (s : string) :
  has_char c s = false -> has_char c (trimEnd s) = false.
Proof.
  induction s as [|x s IH]; intros H; simpl; [reflexivity|].
  simpl in H. apply orb_false_iff in H. destruct H as [X H].
  specialize (IH H).
  destruct (trimEnd s) as [|y t].
  - destruct (is_white x); simpl; [reflexivity | now rewrite X].
  - simpl in IH |- *. now rewrite X.
Qed.

Lemma trimStart_first (s : string) : first_white (trimStart s) = false.
Proof.
  induction s as [|x s IH]; simpl; [reflexivity|].
  destruct (is_white x) eqn:E; [exact IH | exact E].
Qed.

Lemma trimEnd_first (s : string) :
  first_white s = false -> first_white (trimEnd s) = false.
Proof.
  destruct s as [|x s]; simpl; intros H; [reflexivity|].
  destruct (trimEnd s); [rewrite H|]; exact H.
Qed.

Lemma trimEnd_last (s : string) : last_white (trimEnd s) = false.
Proof.
  induction s as [|x s IH]; simpl; [reflexivity|].
  destruct (trimEnd s) as [|y t].
  - destruct (is_white x) eqn:E; [reflexivity | exact E].
  - exact IH.
Qed.

Lemma trim_clean (s : string) :
  has_char ","%char s = false -> has_char LF s = false -> clean_cell (trim s).
Proof.
  intros C L. unfold trim. repeat split.
  - now apply trimEnd_without, trimStart_without.
  - now apply trimEnd_without, trimStart_without.
  - apply trimEnd_first, trimStart_first.
  - apply trimEnd_last.
Qed.

(** The cells of a line that holds no line feed. *)
Lemma cells_clean (line : string) :
  has_char LF line = false ->
  map trim (split "," line) <> []
  /\ Forall clean_cell (map trim (split "," line)).
Proof.
  intros L. split.
  - intros E. apply map_eq_nil in E. now apply split_not_nil in E.
  - apply Forall_map.
    assert (A := split_without ","%char ","%char line (or_intror eq_refl)).
    assert (A' := split_without LF ","%char line (or_introl L)).
    rewrite Forall_forall in A, A' |- *.
    intros piece I. apply trim_clean; auto.
Qed.

Lemma csv_lines_without_LF (csvContent : string) :
  Forall (fun line => has_char LF line = false) (csv_lines csvContent).
Proof. apply split_without. now right. Qed.

Lemma hd_Forall {A : Type} (P : A -> Prop) (d : A) (xs : list A) :
  P d -> Forall P xs -> P (hd d xs).
Proof. intros D F. destruct F; assumption. Qed.

Lemma tl_Forall {A : Type} (P : A -> Prop) (xs : list A) :
  Forall P xs -> Forall P (tl xs).
Proof. intros F. destruct F; [constructor | assumption]. Qed.

Lemma filter_Forall {A : Type} (P : A -> Prop) (f : A -> bool) (xs : list A) :
  Forall P xs -> Forall P (filter f xs).
Proof.
  rewrite !Forall_forall. intros F x I. apply filter_In in I. now apply F.
Qed.
End TableFacts.

(** X21. [getDatasetRows] does not validate the table: for a whitelisted
    dataset whose file can be read it returns success with the trimmed
    header cells and, for every non-blank line after the header, its
    trimmed cells, whatever the header names, the number of cells in a row
    or the number of rows, after one read of the data file. It answers
    [success: false] only when the id is not whitelisted or the file cannot
    be read. *)
Theorem getDatasetRows_unvalidated (W : Actions.World) (datasetId : string)
  (log : list Actions.event) :
  (forall filename csvContent,
      Actions.isValidDataset datasetId = true ->
      Actions.assoc datasetId Actions.DATASET_FILES = Some filename ->
      Actions.fs_read W (Actions.path_join [Actions.cwd W; "data"; filename])
      = Ok csvContent ->
      let lines := Actions.csv_lines csvContent in
      Actions.getDatasetRows W datasetId log
      = (Ok (Js.Obj
               [("success", Js.Bool true);
                ("headers", Js.Arr (map Js.Str (Actions.csv_headers lines)));
                ("rows",
                 Js.Arr (map (fun line =>
                                Js.Arr (map Js.Str
                                          (map JsString.trim (JsString.split "," line))))
                             (Actions.csv_dataRows lines)))]),
         (log ++ [Actions.ReadFileSync
                    (Actions.path_join [Actions.cwd W; "data"; filename])])%list))
  /\ (forall message log',
         Actions.getDatasetRows W datasetId log
         = (Ok (Actions.failure_response message), log') ->
         Actions.isValidDataset datasetId = false
         \/ exists filename,
              Actions.assoc datasetId Actions.DATASET_FILES = Some filename
              /\ Actions.fs_read W (Actions.path_join [Actions.cwd W; "data"; filename])
                 = Throw message).
Proof.
  split.
  - intros filename csvContent Hv Ha Hr lines.
    unfold Actions.getDatasetRows.
    rewrite (valid_dataset_truthy _ Hv), Hv, Ha. cbn [negb].
    cbv [Actions.try_catch Actions.bind Actions.readFileSync Actions.emit
         Actions.lift Actions.ret].
    rewrite Hr. unfold Actions.csv_dataRows. fold lines.
    rewrite !map_map. reflexivity.
  - intros message log' H.
    destruct (Actions.isValidDataset datasetId) eqn:Hv; [right | now left].
    unfold Actions.getDatasetRows, Actions.failure_response in H.
    rewrite (valid_dataset_truthy _ Hv), Hv in H. cbn [negb] in H.
    destruct (Actions.assoc datasetId Actions.DATASET_FILES) as [filename|] eqn:Ha.
    + exists filename. split; [reflexivity|].
      cbv [Actions.try_catch Actions.bind Actions.readFileSync Actions.emit
           Actions.lift Actions.ret] in H.
      destruct (Actions.fs_read W _) as [csvContent|e]; [discriminate|].
      inversion H. reflexivity.
    + destruct (valid_dataset_file _ Hv) as [f Hf]. congruence.
Qed.

Lemma getDatasetRows_unvalidated_witness :
  Actions.getDatasetRows
    (Host.live Host.ragged_csv "" Js.Null) "automobile" []
  = (Ok (Js.Obj
           [("success", Js.Bool true);
            ("headers",
             Js.Arr (map Js.Str (Actions.csv_headers (Actions.csv_lines Host.ragged_csv))));
            ("rows",
             Js.Arr (map (fun line =>
                            Js.Arr (map Js.Str
                                      (map JsString.trim (JsString.split "," line))))
                         (Actions.csv_dataRows (Actions.csv_lines Host.ragged_csv))))]),
     ([] ++ [Actions.ReadFileSync "/srv/data/Automobile.csv"])%list).
Proof.
  exact (proj1 (getDatasetRows_unvalidated (Host.live Host.ragged_csv "" Js.Null)
                  "automobile" [])
           "Automobile.csv" Host.ragged_csv eq_refl eq_refl eq_refl).
Defined.

(** A data file of 25 rows under a header of two columns, whose last row
    has a single cell, is served as it is. *)
Example getDatasetRows_ragged :
  let W := Host.live Host.ragged_csv "" Js.Null in
  exists response log rows,
    Actions.getDatasetRows W "automobile" [] = (Ok response, log)
    /\ Js.get response "success" = Js.Bool true
    /\ Js.get response "headers" = Js.Arr [Js.Str "mpg"; Js.Str "cylinders"]
    /\ Js.get response "rows" = Js.Arr rows
    /\ List.length rows = 25%nat
    /\ last rows Js.Null = Js.Arr [Js.Str "9"].
Proof.
  eexists _, _, _. split; [vm_compute; reflexivity|].
  repeat split.
Qed.

(** X9. A table answered by [getDatasetRows] is well formed as far as the
    cells go: there is at least one header cell, every row has at least one
    cell, and no cell, header or data, holds a comma or a line feed or
    starts or ends with white space. It is produced by exactly one read of
    the whitelisted file. *)
Theorem getDatasetRows_table (W : Actions.World) (datasetId : string)
  (log log' : list Actions.event) (response : Js.value) :
  Actions.getDatasetRows W datasetId log = (Ok response, log') ->
  Js.get response "success" = Js.Bool true ->
  exists (filename : string) (headers : list string) (rows : list (list string)),
    Actions.assoc datasetId Actions.DATASET_FILES = Some filename
    /\ log' = (log ++ [Actions.ReadFileSync
                         (Actions.path_join [Actions.cwd W; "data"; filename])])%list
    /\ Js.get response "headers" = Js.Arr (map Js.Str headers)
    /\ Js.get response "rows" = Js.Arr (map (fun r => Js.Arr (map Js.Str r)) rows)
    /\ headers <> []
    /\ Forall clean_cell headers
    /\ Forall (fun r => r <> [] /\ Forall clean_cell r) rows.
Proof.
  intros H S. unfold Actions.getDatasetRows in H.
  destruct (negb (Js.truthy (Js.Str datasetId)));
    [inversion H; subst; discriminate S|].
  destruct (negb (Actions.isValidDataset datasetId));
    [inversion H; subst; discriminate S|].
  destruct (Actions.assoc datasetId Actions.DATASET_FILES) as [filename|];
    [|inversion H; subst; discriminate S].
  cbv [Actions.try_catch Actions.bind Actions.readFileSync Actions.emit
       Actions.lift Actions.ret] in H.
  destruct (Actions.fs_read W _) as [csvContent|e];
    [|inversion H; subst; discriminate S].
  inversion H; subst response log'. clear H S.
  assert (L := csv_lines_without_LF csvContent).
  exists filename, (Actions.csv_headers (Actions.csv_lines csvContent)),
    (map (fun l => map JsString.trim (JsString.split "," l))
       (filter (fun l => Js.truthy (Js.Str (JsString.trim l)))
          (tl (Actions.csv_lines csvContent)))).
  split; [reflexivity|]. split; [reflexivity|].
  split; [reflexivity|].
  split; [reflexivity|].
  assert (Hh : has_char JsString.LF (hd EmptyString (Actions.csv_lines csvContent)) = false).
  { now apply (hd_Forall (fun line => has_char JsString.LF line = false)). }
  split; [apply (cells_clean _ Hh)|]. split; [apply (cells_clean _ Hh)|].
  apply Forall_map. apply filter_Forall.
  apply tl_Forall in L. rewrite Forall_forall in L |- *.
  intros line I. apply cells_clean. now apply L.
Qed.

Lemma getDatasetRows_table_witness :
  exists headers : list string,
    Js.get (Samples.loan_table) "headers" = Js.Arr (map Js.Str headers)
    /\ headers <> [] /\ Forall clean_cell headers.
Proof.
  destruct (getDatasetRows_table Samples.loan_world "loan" [] _ Samples.loan_table
              eq_refl eq_refl)
    as [filename [headers [rows [_ [_ [H [_ [N [C _]]]]]]]]].
  exists headers. split; [exact H|]. split; [exact N | exact C].
Defined.

(* ================================================================= *)
(** * The check of the precomputed results *)

Section CheckFacts.
Import JsString Js Actions CheckPrecomputed.
Variable W : World.
Variable PRECOMPUTED_DIR : string.

Lemma tally_fold (names : list string) :
  forall t,
    let t' := fold_left (check_file W PRECOMPUTED_DIR) names t in
    totalFiles t' = (totalFiles t + List.length names)%nat
    /\ validFiles t' = (validFiles t + List.length (filter (file_ready W PRECOMPUTED_DIR) names))%nat
    /\ missingFiles t' = (missingFiles t ++ filter (file_missing W PRECOMPUTED_DIR) names)%list.
Proof.
  induction names as [|n names IH]; intros t; simpl.
  - repeat split; try lia. now rewrite app_nil_r.
  - destruct (IH (check_file W PRECOMPUTED_DIR t n)) as [T [V M]].
    rewrite T, V, M. unfold check_file, file_ready, file_missing.
    destruct (fs_exists W (path_join [PRECOMPUTED_DIR; n])); simpl.
    + destruct (file_valid W (path_join [PRECOMPUTED_DIR; n])); simpl;
        repeat split; lia.
    + rewrite <- app_assoc. repeat split; lia.
Qed.

Lemma filter_length_all {A : Type} (f : A -> bool) (xs : list A) :
  List.length (filter f xs) = List.length xs <-> forallb f xs = true.
Proof.
  induction xs as [|x xs IH]; simpl; [easy|].
  assert (L := filter_length_le f xs).
  destruct (f x); simpl.
  - rewrite <- IH. split; lia.
  - split; [lia | discriminate].
Qed.

Lemma filter_none {A : Type} (f : A -> bool) (xs : list A) :
  filter f xs = [] <-> forallb (fun x => negb (f x)) xs = true.
Proof.
  induction xs as [|x xs IH]; simpl; [easy|].
  destruct (f x); simpl; [split; discriminate | exact IH].
Qed.

Lemma count_files_eq :
  totalFiles (count_files W PRECOMPUTED_DIR) = 12%nat
  /\ validFiles (count_files W PRECOMPUTED_DIR)
     = List.length (filter (file_ready W PRECOMPUTED_DIR) all_names)
  /\ missingFiles (count_files W PRECOMPUTED_DIR) = filter (file_missing W PRECOMPUTED_DIR) all_names.
Proof.
  unfold count_files, all_names.
  destruct (tally_fold (map voting_name DATASETS)
              {| totalFiles := 0; validFiles := 0; missingFiles := [] |})
    as [T1 [V1 M1]].
  destruct (tally_fold stacking_names
              (fold_left (check_file W PRECOMPUTED_DIR) (map voting_name DATASETS)
                 {| totalFiles := 0; validFiles := 0; missingFiles := [] |}))
    as [T2 [V2 M2]].
  rewrite T2, V2, M2, T1, V1, M1. rewrite !filter_app, length_app.
  repeat split.
Qed.

Lemma checkPrecomputed_zero :
  checkPrecomputed W PRECOMPUTED_DIR = 0
  <-> fs_exists W PRECOMPUTED_DIR = true /\ forallb (file_ready W PRECOMPUTED_DIR) all_names = true.
Proof.
  unfold checkPrecomputed. destruct count_files_eq as [T [V M]].
  rewrite T, V, M.
  destruct (fs_exists W PRECOMPUTED_DIR); simpl negb; cbv iota;
    [|split; [discriminate | intros [? _]; discriminate]].
  destruct (forallb (file_ready W PRECOMPUTED_DIR) all_names) eqn:F.
  - assert (N : filter (file_missing W PRECOMPUTED_DIR) all_names = []).
    { apply filter_none. rewrite forallb_forall in F |- *. intros n I.
      specialize (F n I). unfold file_ready in F. unfold file_missing.
      apply andb_true_iff in F. destruct F as [F _]. now rewrite F. }
    rewrite N. change (0 <? List.length (@nil string))%nat with false. cbv iota.
    apply filter_length_all in F. rewrite F.
    split; [intros _; split; reflexivity | intros _; reflexivity].
  - split; [|intros [_ ?]; discriminate].
    destruct (filter (file_missing W PRECOMPUTED_DIR) all_names) as [|x xs].
    + change (0 <? List.length (@nil string))%nat with false. cbv iota.
      destruct (Nat.eqb_spec (List.length (filter (file_ready W PRECOMPUTED_DIR) all_names)) 12) as [E|E];
        [|discriminate].
      apply (filter_length_all (file_ready W PRECOMPUTED_DIR) all_names) in E. congruence.
    + change (0 <? List.length (x :: xs))%nat with true. cbv iota. discriminate.
Qed.

Lemma all_names_spec (n : string) :
  In n all_names
  <-> exists d, In d DATASETS
                /\ (n = voting_name d
                    \/ exists m, In m META_LEARNERS /\ n = stacking_name d m).
Proof.
  unfold all_names, stacking_names. rewrite in_app_iff, in_map_iff, in_flat_map.
  split.
  - intros [[d [E I]] | [d [I J]]].
    + exists d. split; [exact I | now left].
    + apply in_map_iff in J. destruct J as [m [E J]].
      exists d. split; [exact I|]. right. now exists m.
  - intros [d [I [E | [m [J E]]]]].
    + left. now exists d.
    + right. exists d. split; [exact I|]. apply in_map_iff. now exists m.
Qed.

Lemma file_valid_parsed (filepath : string) :
  file_valid W filepath = true ->
  exists content data,
    fs_read W filepath = Ok content /\ JSON_parse W content = Ok data
    /\ truthy (get data "success") = true.
Proof.
  unfold file_valid, getT. intros H.
  destruct (fs_read W filepath) as [content|] eqn:R; [|discriminate].
  destruct (JSON_parse W content) as [data|] eqn:P; [|discriminate].
  destruct (nullish data); [discriminate|].
  exists content, data. split; [reflexivity|]. split; [exact P | exact H].
Qed.

Lemma array_includes_In (xs : list string) (x : string) :
  array_includes xs x = true <-> In x xs.
Proof.
  unfold array_includes. rewrite existsb_exists. split.
  - intros [y [I E]]. apply String.eqb_eq in E. now subst.
  - intros I. exists x. split; [exact I | apply String.eqb_refl].
Qed.
End CheckFacts.

(** X10. The check of the precomputed results exits with 0 or 1. It exits
    with 0 exactly when the directory exists and each of the three voting
    files and nine stacking files exists, can be read, parses, and has a
    truthy [success]. *)
Theorem checkPrecomputed_exit_code (W : Actions.World) (PRECOMPUTED_DIR : string) :
  (CheckPrecomputed.checkPrecomputed W PRECOMPUTED_DIR = 0
   \/ CheckPrecomputed.checkPrecomputed W PRECOMPUTED_DIR = 1)
  /\ (CheckPrecomputed.checkPrecomputed W PRECOMPUTED_DIR = 0
      <-> Actions.fs_exists W PRECOMPUTED_DIR = true
          /\ forall d, In d CheckPrecomputed.DATASETS ->
               file_ready W PRECOMPUTED_DIR (CheckPrecomputed.voting_name d) = true
               /\ forall m, In m CheckPrecomputed.META_LEARNERS ->
                    file_ready W PRECOMPUTED_DIR (CheckPrecomputed.stacking_name d m)
                    = true).
Proof.
  split.
  - unfold CheckPrecomputed.checkPrecomputed.
    destruct (negb _); [now right|]. cbv zeta.
    destruct (_ <? _)%nat; [now right|].
    destruct (_ =? _)%nat; [now left | now right].
  - rewrite checkPrecomputed_zero, forallb_forall.
    split; intros [D F]; (split; [exact D|]).
    + intros d I. split.
      * apply F, all_names_spec. exists d. split; [exact I | now left].
      * intros m J. apply F, all_names_spec. exists d. split; [exact I|].
        right. now exists m.
    + intros n I. apply all_names_spec in I.
      destruct I as [d [I [-> | [m [J ->]]]]].
      * now apply F.
      * now apply F.
Qed.

Lemma checkPrecomputed_exit_code_witness :
  CheckPrecomputed.checkPrecomputed Samples.precomputed_world
    "/srv/public/precomputed-results" = 0
  /\ CheckPrecomputed.checkPrecomputed Host.bare "/srv/public/precomputed-results" = 1.
Proof.
  split.
  - apply (proj2 (proj2 (checkPrecomputed_exit_code Samples.precomputed_world
                           "/srv/public/precomputed-results"))).
    split; [reflexivity|].
    intros d I. split.
    + repeat (destruct I as [<- | I]; [vm_compute; reflexivity|]). destruct I.
    + intros m J.
      repeat (destruct I as [<- | I];
              [repeat (destruct J as [<- | J]; [vm_compute; reflexivity|]);
               destruct J|]).
      destruct I.
  - destruct (proj1 (checkPrecomputed_exit_code Host.bare
                       "/srv/public/precomputed-results")) as [E | E];
      [discriminate E | exact E].
Defined.

(** X11. The check and the server agree on the files: when the check passes
    for the directory the server reads, and every file marked successful
    carries a [data] that is neither missing nor [null], every request that
    passes validation is answered from the precomputed files, after two
    existence checks and two reads, without looking at the data file and
    without starting the interpreter. *)
Theorem checked_cache_serves_all (B : Js.Builtins) (W : Actions.World)
  (formData : Actions.FormData) (log : list Actions.event)
  (datasetId metaLearner : string) :
  CheckPrecomputed.checkPrecomputed W (Actions.precomputedPath W) = 0 ->
  (forall path content data,
      Actions.fs_read W path = Ok content ->
      Actions.JSON_parse W content = Ok data ->
      Js.truthy (Js.get data "success") = true ->
      Js.nullish (Js.get data "data") = false) ->
  Actions.formData_get formData "dataset" = Js.Str datasetId ->
  Actions.isValidDataset datasetId = true ->
  Actions.text (Js.or (Actions.formData_get formData "meta_learner") (Js.Str "linear"))
  = metaLearner ->
  Actions.isValidMetaLearner metaLearner = true ->
  exists data,
    Actions.processDataset B W formData log
    = (Ok (Actions.success_response data),
       (log ++ [Actions.ExistsSync (Actions.votingFile W datasetId);
                Actions.ExistsSync (Actions.stackingFile W datasetId metaLearner);
                Actions.ReadFileSync (Actions.votingFile W datasetId);
                Actions.ReadFileSync (Actions.stackingFile W datasetId metaLearner)])%list).
Proof.
  intros C N Hd Hvd Hm Hvm.
  rewrite (processDataset_valid B W formData log datasetId metaLearner Hd Hvd Hm Hvm).
  apply checkPrecomputed_zero in C. destruct C as [_ F].
  rewrite forallb_forall in F.
  apply array_includes_In in Hvd. apply array_includes_In in Hvm.
  assert (Rv : file_ready W (Actions.precomputedPath W)
                 (CheckPrecomputed.voting_name datasetId) = true).
  { apply F, all_names_spec. exists datasetId. split; [exact Hvd | now left]. }
  assert (Rs : file_ready W (Actions.precomputedPath W)
                 (CheckPrecomputed.stacking_name datasetId metaLearner) = true).
  { apply F, all_names_spec. exists datasetId. split; [exact Hvd|].
    right. now exists metaLearner. }
  unfold file_ready in Rv, Rs.
  apply andb_true_iff in Rv. destruct Rv as [Ev Vv].
  apply andb_true_iff in Rs. destruct Rs as [Es Vs].
  change (Actions.path_join [Actions.precomputedPath W;
                             CheckPrecomputed.voting_name datasetId])
    with (Actions.votingFile W datasetId) in Ev, Vv.
  change (Actions.path_join [Actions.precomputedPath W;
                             CheckPrecomputed.stacking_name datasetId metaLearner])
    with (Actions.stackingFile W datasetId metaLearner) in Es, Vs.
  rewrite Ev, Es.
  apply file_valid_parsed in Vv. destruct Vv as [vt [vd [Rv [Pv Tv]]]].
  apply file_valid_parsed in Vs. destruct Vs as [st [sd [Rs [Ps Ts]]]].
  unfold cache_result, cache_reads.
  rewrite Rv, Pv, Rs, Ps, Tv, Ts, (N _ _ _ Rv Pv Tv), (N _ _ _ Rs Ps Ts).
  eexists. reflexivity.
Qed.

Lemma checked_cache_serves_all_witness :
  exists data,
    Actions.processDataset Host.builtins Samples.precomputed_world
      [("dataset", "concrete"); ("meta_learner", "xgboost")] []
    = (Ok (Actions.success_response data),
       ([] ++ [Actions.ExistsSync (Actions.votingFile Samples.precomputed_world "concrete");
               Actions.ExistsSync
                 (Actions.stackingFile Samples.precomputed_world "concrete" "xgboost");
               Actions.ReadFileSync (Actions.votingFile Samples.precomputed_world "concrete");
               Actions.ReadFileSync
                 (Actions.stackingFile Samples.precomputed_world "concrete" "xgboost")])%list).
Proof.
  apply (checked_cache_serves_all Host.builtins Samples.precomputed_world
           [("dataset", "concrete"); ("meta_learner", "xgboost")] []
           "concrete" "xgboost").
  - vm_compute. reflexivity.
  - intros path content data _ P _. simpl in P.
    destruct (JsString.includes content "-voting.json");
      inversion P; reflexivity.
  - reflexivity.
  - reflexivity.
  - reflexivity.
  - reflexivity.
Defined.

(* ================================================================= *)
(** * The dashboard's base models *)

Section DashboardFacts.
Import JsString Js Dashboard.

Lemma transform_fold (f : string -> value) (ks : list string) :
  forall acc k,
    lookup k (fold_left transform_step (map (fun k => (k, f k)) ks) acc)
    = if negb (String.eqb k "Voting Ensemble") && negb (String.eqb k "__proto__")
         && existsb (String.eqb k) ks
      then Some (f k) else lookup k acc.
Proof.
  induction ks as [|a ks IH]; intros acc k; simpl.
  - now rewrite andb_false_r.
  - rewrite IH. unfold transform_step. cbn [fst snd].
    destruct (String.eqb_spec k a) as [->|N]; simpl.
    + destruct (String.eqb a "Voting Ensemble") eqn:V; simpl; [reflexivity|].
      destruct (String.eqb_spec a "__proto__") as [->|P]; simpl.
      * apply lookup_assign_proto.
      * rewrite lookup_assign_same by exact P.
        now destruct (existsb (String.eqb a) ks).
    + destruct (negb (String.eqb k "Voting Ensemble") && negb (String.eqb k "__proto__")
                && existsb (String.eqb k) ks);
        [reflexivity|].
      destruct (negb (String.eqb a "Voting Ensemble")); [|reflexivity].
      now apply lookup_assign_other.
Qed.

Lemma existsb_eqb_In (k : string) (ks : list string) :
  existsb (String.eqb k) ks = true <-> In k ks.
Proof.
  rewrite existsb_exists. split.
  - intros [y [I E]]. apply String.eqb_eq in E. now subst.
  - intros I. exists k. split; [exact I | apply String.eqb_refl].
Qed.

Lemma lookup_spread (v : value) (k : string) :
  lookup k (spread v) = if existsb (String.eqb k) (keys v) then Some (get v k) else None.
Proof.
  unfold spread. induction (keys v) as [|a ks IH]; simpl; [reflexivity|].
  rewrite String.eqb_sym.
  destruct (String.eqb_spec k a) as [->|N]; simpl; [reflexivity | exact IH].
Qed.

(** A copy of an object has the properties of the object. *)
Lemma get_spread_object (ps : list (string * value)) (k : string) :
  get (Obj (spread (Obj ps))) k = get (Obj ps) k.
Proof.
  cbn [get]. rewrite lookup_spread.
  destruct (existsb (String.eqb k) (keys (Obj ps))) eqn:E; [reflexivity|].
  assert (N : ~ In k (keys (Obj ps))).
  { intros I. apply existsb_eqb_In in I. congruence. }
  apply get_in_keys in N. cbn [get] in N. now rewrite N.
Qed.

Lemma get_spread_own (v : value) (k : string) :
  In k (keys v) -> get (Obj (spread v)) k = get v k.
Proof.
  intros I. cbn [get]. rewrite lookup_spread.
  apply existsb_eqb_In in I. now rewrite I.
Qed.

Lemma baseModels_object (methodData : value) :
  exists ps, baseModels methodData = Obj ps.
Proof.
  unfold baseModels.
  destruct (truthy (optGet methodData "base_models")
            && isRecord (optGet methodData "base_models")) eqn:E.
  - apply andb_true_iff in E. destruct E as [_ E].
    destruct (optGet methodData "base_models"); try discriminate. now eexists.
  - destruct (truthy (optGet methodData "metrics")); now eexists.
Qed.

Lemma get_object (ps : list (string * value)) (k : string) :
  get (Obj ps) k = from_option (lookup k ps).
Proof. reflexivity. Qed.

Lemma get_set_same (k : string) (v : value) (ps : list (string * value)) :
  get (Obj (set k v ps)) k = v.
Proof. cbn [get]. now rewrite lookup_set_same. Qed.

Lemma get_set_other (k k' : string) (v : value) (ps : list (string * value)) :
  k' <> k -> get (Obj (set k v ps)) k' = get (Obj ps) k'.
Proof. intros N. cbn [get]. now rewrite lookup_set_other. Qed.

Lemma coalesce_keeps (a b : value) : nullish a = false -> coalesce a b = a.
Proof. unfold coalesce. now intros ->. Qed.

Lemma optGet_get (v : value) (k : string) : optGet v k = get v k.
Proof. unfold optGet. now destruct v. Qed.

(** An entry of the enhanced object keeps what the model reported. *)
Lemma enhanced_entry_keeps (baseModels : value) (name : string) (approx : value)
  (f : string) :
  let old := get baseModels name in
  In f (keys old) ->
  nullish (get old f) = false \/ (f <> "rmse" /\ f <> "mae") ->
  get (enhanced_entry baseModels name approx) f = get old f.
Proof.
  intros old I H. unfold enhanced_entry. rewrite !optGet_get. fold old.
  destruct (string_dec f "mae") as [->|Nm].
  - rewrite get_set_same. apply coalesce_keeps.
    destruct H as [H|[_ H]]; [exact H | now elim H].
  - rewrite get_set_other by exact Nm.
    destruct (string_dec f "rmse") as [->|Nr].
    + rewrite get_set_same. apply coalesce_keeps.
      destruct H as [H|[H _]]; [exact H | now elim H].
    + rewrite get_set_other by exact Nr. now apply get_spread_own.
Qed.
End DashboardFacts.

(** X12. When a method's result has no usable [base_models] object but has
    [metrics], the dashboard's base models are the entries of [metrics]
    except the one named exactly "Voting Ensemble" and the one named
    "__proto__" (assigning to that name sets no property), each with its
    value unchanged. So an entry named "Stacking Ensemble" stays among the
    base models, while [ensemble] reads the same entry as the ensemble's
    performance when no other source is there. A [base_models] object is
    passed through as it is. *)
Theorem baseModels_from_metrics (methodData : Js.value) :
  (forall ps, Js.optGet methodData "base_models" = Js.Obj ps ->
              Dashboard.baseModels methodData = Js.Obj ps)
  /\ (Js.truthy (Js.optGet methodData "base_models")
      && Js.isRecord (Js.optGet methodData "base_models") = false ->
      Js.truthy (Js.optGet methodData "metrics") = true ->
      let metrics := Js.optGet methodData "metrics" in
      (forall k, In k (Js.keys (Dashboard.baseModels methodData))
                 <-> In k (Js.keys metrics)
                     /\ k <> "Voting Ensemble" /\ k <> "__proto__")
      /\ (forall k, In k (Js.keys (Dashboard.baseModels methodData)) ->
                    Js.get (Dashboard.baseModels methodData) k = Js.get metrics k)
      /\ (In "Stacking Ensemble" (Js.keys metrics) ->
          Js.truthy (Js.get metrics "Stacking Ensemble") = true ->
          Js.truthy (Js.optGet methodData "ensemble_performance") = false ->
          Js.truthy (Js.optGet methodData "meta_model_performance") = false ->
          Js.truthy (Js.optGet metrics "Voting Ensemble") = false ->
          Dashboard.ensemble methodData
          = Js.get (Dashboard.baseModels methodData) "Stacking Ensemble")).
Proof.
  split.
  - intros ps E. unfold Dashboard.baseModels. now rewrite E.
  - intros NB TM metrics. unfold Dashboard.baseModels. rewrite NB, TM.
    fold metrics. unfold Dashboard.spread.
    assert (L : forall k,
               Js.lookup k (fold_left Dashboard.transform_step
                              (map (fun k => (k, Js.get metrics k)) (Js.keys metrics)) [])
               = if negb (String.eqb k "Voting Ensemble")
                    && negb (String.eqb k "__proto__")
                    && existsb (String.eqb k) (Js.keys metrics)
                 then Some (Js.get metrics k) else None).
    { intros k. now rewrite transform_fold. }
    assert (K : forall k,
               In k (Js.keys (Js.Obj (fold_left Dashboard.transform_step
                              (map (fun k => (k, Js.get metrics k)) (Js.keys metrics)) [])))
               <-> In k (Js.keys metrics)
                   /\ k <> "Voting Ensemble" /\ k <> "__proto__").
    { intros k. rewrite lookup_in_keys, L, <- existsb_eqb_In.
      destruct (String.eqb_spec k "Voting Ensemble") as [->|N]; simpl.
      - split; [intros H; now elim H | intros [_ [H _]]; now elim H].
      - destruct (String.eqb_spec k "__proto__") as [->|P]; simpl.
        + split; [intros H; now elim H | intros [_ [_ H]]; now elim H].
        + destruct (existsb (String.eqb k) (Js.keys metrics)).
          * split; [now repeat split | discriminate].
          * split; [intros H; now elim H | intros [H _]; discriminate]. }
    split; [exact K|]. split.
    + intros k I. apply K in I. destruct I as [I [N P]].
      cbn [Js.get]. rewrite L.
      apply existsb_eqb_In in I. rewrite I.
      destruct (String.eqb_spec k "Voting Ensemble"); [congruence|].
      destruct (String.eqb_spec k "__proto__"); [congruence | reflexivity].
    + intros I T E1 E2 E3. unfold Dashboard.ensemble.
      rewrite E1, E2. fold metrics. rewrite E3.
      rewrite (optGet_get metrics "Stacking Ensemble"), T.
      rewrite <- (optGet_get methodData "metrics"). fold metrics.
      rewrite get_object, L. apply existsb_eqb_In in I. now rewrite I.
Qed.

Lemma baseModels_from_metrics_witness :
  Js.keys (Dashboard.baseModels Samples.classification_method)
  = ["Logistic Regression"; "Stacking Ensemble"]
  /\ Dashboard.ensemble Samples.classification_method
     = Js.get (Dashboard.baseModels Samples.classification_method) "Stacking Ensemble".
Proof.
  split; [reflexivity|].
  apply (proj2 (baseModels_from_metrics Samples.classification_method));
    try reflexivity.
  simpl. tauto.
Defined.

(** X13. Deriving the missing errors never changes a value that was
    reported: in the object the dashboard shows, every entry other than the
    three regression models is the one of the base models, and each of the
    three models keeps every property it has, except an [rmse] or [mae] that
    is [null] or undefined. For a classification task, for models that all
    report a truthy [rmse], and without a sample of predictions, the object
    is the base models unchanged. *)
Theorem baseModelsEnhanced_keeps_reported (B : Js.Builtins)
  (isClassification : bool) (methodData : Js.value) :
  let old := Dashboard.baseModels methodData in
  let new := Dashboard.baseModelsEnhanced B isClassification methodData in
  (forall k, ~ In k ["Linear Regression"; "Random Forest"; "XGBoost"] ->
             Js.get new k = Js.get old k)
  /\ (forall name f,
         In f (Js.keys (Js.get old name)) ->
         Js.nullish (Js.get (Js.get old name) f) = false
         \/ (f <> "rmse" /\ f <> "mae") ->
         Js.get (Js.get new name) f = Js.get (Js.get old name) f)
  /\ (isClassification = true
      \/ Dashboard.needFix old = false
      \/ Dashboard.predictions methodData = [] ->
      new = old).
Proof.
  intros old new. unfold new, Dashboard.baseModelsEnhanced. fold old.
  destruct (baseModels_object methodData) as [ps E]. fold old in E.
  destruct isClassification; [repeat split; reflexivity|].
  destruct (negb (Dashboard.needFix old)
            || (List.length (Dashboard.predictions methodData) =? 0)%nat) eqn:C;
    [repeat split; reflexivity|].
  split; [|split].
  - intros k N.
    rewrite !get_set_other.
    + rewrite E. apply get_spread_object.
    + intros ->. apply N. now left.
    + intros ->. apply N. right. now left.
    + intros ->. apply N. right. right. now left.
  - intros name f I H.
    destruct (string_dec name "XGBoost") as [->|N1].
    { rewrite get_set_same. now apply enhanced_entry_keeps. }
    rewrite get_set_other by exact N1.
    destruct (string_dec name "Random Forest") as [->|N2].
    { rewrite get_set_same. now apply enhanced_entry_keeps. }
    rewrite get_set_other by exact N2.
    destruct (string_dec name "Linear Regression") as [->|N3].
    { rewrite get_set_same. now apply enhanced_entry_keeps. }
    rewrite get_set_other by exact N3.
    rewrite E. now rewrite get_spread_object.
  - apply orb_false_iff in C. destruct C as [C1 C2].
    apply negb_false_iff in C1.
    intros [H|[H|H]]; [discriminate | congruence |].
    rewrite H in C2. discriminate.
Qed.

Lemma baseModelsEnhanced_keeps_reported_witness :
  Js.get (Js.get (Dashboard.baseModelsEnhanced Host.builtins false Host.stacking_regression)
            "Random Forest") "rmse"
  = Js.get (Js.get (Dashboard.baseModels Host.stacking_regression) "Random Forest") "rmse".
Proof.
  apply (proj1 (proj2 (baseModelsEnhanced_keeps_reported Host.builtins false
                         Host.stacking_regression)) "Random Forest" "rmse").
  - simpl. tauto.
  - left. reflexivity.
Defined.

(* ================================================================= *)
(** * The best base model *)

Section BestFacts.
Import JsString Js Dashboard.
Local Open Scope Q_scope.
Variable enhanced : value.
Variable metricKeyForBest : string.

Lemma Qltb_true_lt (a b : Q) : Qltb a b = true -> a < b.
Proof.
  unfold Qltb. intros H. apply negb_true_iff in H.
  apply Qnot_le_lt. intros L. apply Qle_bool_iff in L. congruence.
Qed.

Lemma Qltb_false_ge (a b : Q) : Qltb a b = false -> b <= a.
Proof.
  unfold Qltb. intros H. apply negb_false_iff in H. now apply Qle_bool_iff.
Qed.

Lemma best_step_keeps (ks : list string) (acc : Best.best) (x : string) :
  best_of enhanced metricKeyForBest ks acc ->
  best_of enhanced metricKeyForBest (ks ++ [x]) (Best.best_step enhanced metricKeyForBest acc x).
Proof.
  intros H. unfold Best.best_step. fold (metric_at enhanced metricKeyForBest x).
  destruct (metric_at enhanced metricKeyForBest x) as [| |b|[|w]|s|items|props] eqn:M;
    try (destruct acc as [[k|] [v|]]; simpl in H |- *; try contradiction;
         [ destruct H as [pre [post [E [Mk [Lo Hi]]]]];
           exists pre, (post ++ [x])%list; subst ks;
           split; [now rewrite <- app_assoc|]; split; [exact Mk|];
           split; [exact Lo|];
           intros k' v' I Mk'; apply in_app_iff in I; destruct I as [I|[<-|[]]];
           [now apply (Hi k') | congruence]
         | intros k' I; apply in_app_iff in I; destruct I as [I|[<-|[]]];
           [now apply H | now rewrite M] ]).
  destruct acc as [[k|] [v|]]; simpl in H |- *; try contradiction.
  - destruct H as [pre [post [E [Mk [Lo Hi]]]]].
    destruct (Qltb v w) eqn:C; simpl.
    + apply Qltb_true_lt in C.
      exists ks, []. split; [reflexivity|]. split; [exact M|].
      split; [|intros k' v' []].
      intros k' v' I Mk'. subst ks.
      apply in_app_iff in I. destruct I as [I|[<-|I]].
      * apply Qlt_trans with v; [now apply (Lo k') | exact C].
      * assert (v' = v) by congruence. now subst.
      * apply Qle_lt_trans with v; [now apply (Hi k') | exact C].
    + apply Qltb_false_ge in C.
      exists pre, (post ++ [x])%list. subst ks.
      split; [now rewrite <- app_assoc|]. split; [exact Mk|].
      split; [exact Lo|].
      intros k' v' I Mk'. apply in_app_iff in I. destruct I as [I|[<-|[]]].
      * now apply (Hi k').
      * assert (v' = w) by congruence. now subst.
  - exists ks, []. split; [reflexivity|]. split; [exact M|].
    split; [|intros k' v' []].
    intros k' v' I Mk'. specialize (H k' I). rewrite Mk' in H. discriminate.
Qed.

Lemma best_fold (ks : list string) :
  forall done acc,
    best_of enhanced metricKeyForBest done acc ->
    best_of enhanced metricKeyForBest (done ++ ks)
      (fold_left (Best.best_step enhanced metricKeyForBest) ks acc).
Proof.
  induction ks as [|x ks IH]; intros done acc H; simpl.
  - now rewrite app_nil_r.
  - replace (done ++ x :: ks)%list with ((done ++ [x]) ++ ks)%list
      by now rewrite <- app_assoc.
    apply IH. now apply best_step_keeps.
Qed.

End BestFacts.

(** X14. The loop that picks the best base model for the hero message ends
    with no model exactly when none of the three has a plain number as its
    metric. Otherwise it ends with one of the three keys and that model's
    metric, which is at least every other model's metric and strictly
    greater than the metric of every key before it (of equal values the
    first one wins). The improvement the dashboard derives is measured
    against this same value. *)
Theorem bestBase_spec (B : Js.Builtins) (isClassification : bool)
  (primaryModelKey : string) (enhanced : Js.value) :
  let ks := [primaryModelKey; "Random Forest"; "XGBoost"] in
  let metric := metric_at enhanced (Dashboard.metricKey isClassification) in
  match Best.bestBase isClassification primaryModelKey enhanced with
  | (Some k, Some v) =>
      (exists pre post,
          ks = (pre ++ k :: post)%list
          /\ metric k = Js.Number (Js.Num v)
          /\ (forall k' v', In k' pre -> metric k' = Js.Number (Js.Num v') -> (v' < v)%Q)
          /\ (forall k' v', In k' post -> metric k' = Js.Number (Js.Num v') -> (v' <= v)%Q))
      /\ forall ensemble e,
           Js.optGet ensemble (Dashboard.metricKey isClassification)
           = Js.Number (Js.Num e) ->
           exists raw,
             Js.get (Dashboard.derivedImprovement B isClassification primaryModelKey
                       enhanced ensemble) "raw" = Js.Number (Js.Num raw)
             /\ (raw == (e - v) * 100)%Q
  | (None, None) =>
      (forall k, In k ks -> Dashboard.is_plain_number (metric k) = false)
      /\ forall ensemble,
           Dashboard.derivedImprovement B isClassification primaryModelKey
             enhanced ensemble = Js.Null
  | _ => False
  end.
Proof.
  intros ks metric. unfold metric. clear metric.
  assert (H : best_of enhanced (Dashboard.metricKey isClassification) ks
                (Best.bestBase isClassification primaryModelKey enhanced)).
  { exact (best_fold enhanced (Dashboard.metricKey isClassification) ks []
             (None, None) (fun k' I => match I with end)). }
  assert (V : Dashboard.baseValues isClassification primaryModelKey enhanced
              = map Js.Num (plain_values (map (metric_at enhanced (Dashboard.metricKey isClassification)) ks))).
  { unfold Dashboard.baseValues. now rewrite <- plain_values_map. }
  destruct (Best.bestBase isClassification primaryModelKey enhanced) as [[k|] [v|]];
    simpl in H; try contradiction.
  - split; [exact H|].
    destruct H as [pre [post [E [Mk [Lo Hi]]]]].
    intros ensemble e He. unfold Dashboard.derivedImprovement. rewrite V, He.
    assert (Iv : In v (plain_values (map (metric_at enhanced (Dashboard.metricKey isClassification)) ks))).
    { apply plain_values_In. exists k. split; [|exact Mk].
      rewrite E. apply in_app_iff. right. now left. }
    assert (Uv : forall q, In q (plain_values (map (metric_at enhanced (Dashboard.metricKey isClassification)) ks)) -> (q <= v)%Q).
    { intros q Iq. apply plain_values_In in Iq. destruct Iq as [k' [Ik' Mk']].
      rewrite E in Ik'. apply in_app_iff in Ik'. destruct Ik' as [I|[<-|I]].
      - apply Qlt_le_weak. now apply (Lo k').
      - assert (q = v) by congruence. subst. apply Qle_refl.
      - now apply (Hi k'). }
    destruct (plain_values (map (metric_at enhanced (Dashboard.metricKey isClassification)) ks)) as [|q0 qs]; [now elim Iv|].
    cbn [map Js.typeof_number negb].
    destruct (Math_max_greatest qs q0) as [m [Hm [Im Um]]].
    rewrite Hm. cbn [Dashboard.number_of Js.sub Js.mul Js.get Js.lookup String.eqb
                     Ascii.eqb Bool.eqb Js.from_option].
    eexists. split; [reflexivity|].
    assert (Em : (m == v)%Q) by (apply Qle_antisym; [now apply Uv | now apply Um]).
    now rewrite Em.
  - split; [exact H|].
    intros ensemble. unfold Dashboard.derivedImprovement. rewrite V.
    assert (N : plain_values (map (metric_at enhanced (Dashboard.metricKey isClassification)) ks) = []).
    { destruct (plain_values (map (metric_at enhanced (Dashboard.metricKey isClassification)) ks)) as [|q qs] eqn:P; [reflexivity|].
      assert (I : In q (plain_values (map (metric_at enhanced (Dashboard.metricKey isClassification)) ks))) by (rewrite P; now left).
      apply plain_values_In in I. destruct I as [k' [Ik' Mk']].
      specialize (H k' Ik').
      rewrite Mk' in H. discriminate. }
    now rewrite N.
Qed.

Lemma bestBase_spec_witness :
  Best.bestBase false "Linear Regression" (Js.get Host.stacking_regression "base_models")
  = (Some "XGBoost", Some (86 # 100)%Q)
  /\ exists raw,
       Js.get (Dashboard.derivedImprovement Host.builtins false "Linear Regression"
                 (Js.get Host.stacking_regression "base_models")
                 (Js.Obj [("r2_score", Js.Number (Js.Num (90 # 100)))])) "raw"
       = Js.Number (Js.Num raw)
       /\ (raw == ((90 # 100) - (86 # 100)) * 100)%Q.
Proof.
  split; [reflexivity|].
  exact (proj2 (bestBase_spec Host.builtins false "Linear Regression"
                  (Js.get Host.stacking_regression "base_models"))
           (Js.Obj [("r2_score", Js.Number (Js.Num (90 # 100)))]) (90 # 100)%Q eq_refl).
Defined.

(* ================================================================= *)
(** * The quality marks of the charts *)

Ltac Qle_bool_cases :=
  repeat match goal with
         | |- context [Qle_bool ?x ?y] =>
             let E := fresh "E" in
             destruct (Qle_bool x y) eqn:E;
             [apply Qle_bool_iff in E
             |assert (~ (x <= y)%Q)
                by (let L := fresh in intros L; apply Qle_bool_iff in L; congruence);
              clear E]
         end.

(** X15. The quality mark of a chart follows the value: for the scores a
    greater value never gets a lower mark, for the errors a smaller value
    never gets a lower mark, and the same error is never marked lower on the
    concrete dataset than elsewhere. A value that is not a number is marked
    "Fair" for all eight metrics, and exactly the other metric names are
    marked "Unknown". *)
Theorem quality_monotone (isConcrete : bool) (metric : string) (a b : Q) :
  (a <= b)%Q ->
  (In metric score_metrics ->
   (rank (Charts.getPerformanceQuality isConcrete metric (Js.Num a))
    <= rank (Charts.getPerformanceQuality isConcrete metric (Js.Num b)))%nat)
  /\ (In metric error_metrics ->
      (rank (Charts.getPerformanceQuality isConcrete metric (Js.Num b))
       <= rank (Charts.getPerformanceQuality isConcrete metric (Js.Num a)))%nat
      /\ (rank (Charts.getPerformanceQuality false metric (Js.Num a))
          <= rank (Charts.getPerformanceQuality true metric (Js.Num a)))%nat)
  /\ (In metric (score_metrics ++ error_metrics) ->
      Charts.getPerformanceQuality isConcrete metric Js.NaN = Charts.Fair)
  /\ (Charts.getPerformanceQuality isConcrete metric (Js.Num a) = Charts.Unknown
      <-> ~ In metric (score_metrics ++ error_metrics)).
Proof.
  intros L. split; [|split; [|split]].
  - intros I. unfold score_metrics in I.
    repeat (destruct I as [<-|I];
            [cbn -[Qle_bool]; Qle_bool_cases; cbn; try lia; exfalso; lra|]).
    destruct I.
  - intros I. unfold error_metrics in I.
    repeat (destruct I as [<-|I];
            [split; destruct isConcrete; cbn -[Qle_bool]; Qle_bool_cases; cbn;
             try lia; exfalso; lra|]).
    destruct I.
  - intros I. cbn in I.
    repeat (destruct I as [<-|I]; [reflexivity|]). destruct I.
  - split.
    + intros U I. cbn in I.
      repeat (destruct I as [<-|I];
              [revert U; destruct isConcrete; cbn -[Qle_bool]; Qle_bool_cases;
               discriminate|]).
      destruct I.
    + intros N. unfold Charts.getPerformanceQuality.
      destruct (Charts.is_one_of ["r2"; "accuracy"; "mainMetric"] metric) eqn:E1.
      { exfalso. apply N. apply existsb_eqb_In in E1. cbn in E1 |- *. tauto. }
      destruct (Charts.is_one_of ["precision"; "recall"; "f1"] metric) eqn:E2.
      { exfalso. apply N. apply existsb_eqb_In in E2. cbn in E2 |- *. tauto. }
      destruct (Charts.is_one_of ["rmse"; "mae"] metric) eqn:E3.
      { exfalso. apply N. apply existsb_eqb_In in E3. cbn in E3 |- *. tauto. }
      reflexivity.
Qed.

Lemma quality_monotone_witness :
  (rank (Charts.getPerformanceQuality false "accuracy" (Js.Num (80 # 100)))
   <= rank (Charts.getPerformanceQuality false "accuracy" (Js.Num (90 # 100))))%nat
  /\ (rank (Charts.getPerformanceQuality false "rmse" (Js.Num 4))
      <= rank (Charts.getPerformanceQuality true "rmse" (Js.Num 4)))%nat.
Proof.
  split.
  - apply (proj1 (quality_monotone false "accuracy" (80 # 100) (90 # 100)
                    ltac:(discriminate))).
    cbn. tauto.
  - apply (proj2 (proj1 (proj2 (quality_monotone false "rmse" 4 4 ltac:(discriminate)))
                    ltac:(cbn; tauto))).
Defined.

(* ================================================================= *)
(** * The loan payload and the preview table *)

(** X16. When a request for the loan dataset ends with a spawn and a
    success, the [dataset_info] it returns agrees with the table that
    [getDatasetRows] serves for the same file and with what the trainer
    printed: [target_variable] is the last header cell, and each of
    [n_samples], [n_features] and [feature_names] is the field of the
    [dataset_info] in the parsed output of the spawned trainer, or, where
    the trainer leaves the field out (or [null]), the number of rows of the
    table, the number of header cells less one, and the whole header,
    target column included. *)
Theorem loan_info_matches_preview (B : Js.Builtins) (W : Actions.World)
  (formData : Actions.FormData) (log log' : list Actions.event)
  (response : Js.value) :
  Actions.formData_get formData "dataset" = Js.Str "loan" ->
  Actions.processDataset B W formData log = (Ok response, log') ->
  Js.get response "success" = Js.Bool true ->
  existsb is_spawn log = false ->
  existsb is_spawn log' = true ->
  let metaLearner :=
    Actions.text (Js.or (Actions.formData_get formData "meta_learner")
                    (Js.Str "linear")) in
  exists (headers : list string) (rows : list Js.value) (table : Js.value)
         (preview_log : list Actions.event) (out jsonStr : string)
         (pythonResults : Js.value),
    Actions.getDatasetRows W "loan" [] = (Ok table, preview_log)
    /\ Js.get table "headers" = Js.Arr (map Js.Str headers)
    /\ Js.get table "rows" = Js.Arr rows
    /\ Actions.promise
         (Actions.exec_run B W (Actions.PYTHON_TIMEOUT_MS B W)
            (Actions.executePythonScript_events W (pythonScript W "loan")
               (pythonArgs W "loan" metaLearner "Loan Approval.csv")))
       = Some (Ok out)
    /\ Extract.extractJsonFromStdout out = Ok jsonStr
    /\ Actions.JSON_parse W jsonStr = Ok pythonResults
    /\ let reported := Js.get pythonResults "dataset_info" in
       let info := Js.get (Js.get response "data") "dataset_info" in
       Js.isRecord reported = true
       /\ Js.get info "target_variable" = Js.Str (last headers "")
       /\ Js.get info "n_samples"
          = Js.coalesce (Js.get reported "n_samples")
              (Js.Number (Js.Num (inject_Z (Z.of_nat (List.length rows)))))
       /\ Js.get info "n_features"
          = Js.coalesce (Js.get reported "n_features")
              (Js.Number (Js.Num (inject_Z (Z.of_nat (List.length headers) - 1))))
       /\ Js.get info "feature_names"
          = Js.coalesce (Js.get reported "feature_names") (Js.Arr (map Js.Str headers)).
Proof.
  intros Hd H Hs Hl Hl' metaLearner.
  destruct (live_success_payload B W formData log log' response H Hs Hl Hl')
    as [d [filename [csvContent [out [jsonStr [pythonResults
         [Hd' [_ [Ha [Rd [P [X [J [R D]]]]]]]]]]]]]].
  assert (d = "loan") by congruence. subst d.
  assert (filename = "Loan Approval.csv") by (vm_compute in Ha; congruence).
  subst filename. fold metaLearner in P.
  destruct D as [[_ [v [s E]]]|[Nl _]]; [|now elim Nl].
  exists (Actions.csv_headers (Actions.csv_lines csvContent)),
    (map (fun r => Js.Arr (map Js.Str r))
       (map (fun l => map JsString.trim (JsString.split "," l))
          (Actions.csv_dataRows (Actions.csv_lines csvContent)))),
    (Js.Obj [("success", Js.Bool true);
             ("headers", Js.Arr (map Js.Str
                                   (Actions.csv_headers (Actions.csv_lines csvContent))));
             ("rows",
              Js.Arr (map (fun r => Js.Arr (map Js.Str r))
                        (map (fun l => map JsString.trim (JsString.split "," l))
                           (Actions.csv_dataRows (Actions.csv_lines csvContent)))))]),
    [Actions.ReadFileSync (datasetsPath W "Loan Approval.csv")],
    out, jsonStr, pythonResults.
  split.
  { unfold Actions.getDatasetRows.
    cbn [Js.truthy String.eqb negb Actions.isValidDataset Actions.array_includes
         Actions.ALLOWED_DATASETS existsb Ascii.eqb Bool.eqb orb
         Actions.assoc Actions.DATASET_FILES].
    cbv [Actions.try_catch Actions.bind Actions.readFileSync Actions.emit
         Actions.lift Actions.ret].
    unfold datasetsPath in Rd. rewrite Rd. reflexivity. }
  split; [reflexivity|]. split; [reflexivity|].
  split; [exact P|]. split; [exact X|]. split; [exact J|].
  cbv zeta. split; [exact R|].
  rewrite E, !length_map.
  unfold Actions.classificationPayload, Actions.success_response.
  cbn [Js.get Js.lookup Js.from_option String.eqb Ascii.eqb Bool.eqb].
  rewrite !optGet_get. repeat split.
Qed.

Lemma loan_info_matches_preview_witness :
  let metaLearner :=
    Actions.text (Js.or (Actions.formData_get Samples.loan_request "meta_learner")
                    (Js.Str "linear")) in
  exists (headers : list string) (rows : list Js.value) (table : Js.value)
         (preview_log : list Actions.event) (out jsonStr : string)
         (pythonResults : Js.value),
    Actions.getDatasetRows Samples.loan_world "loan" [] = (Ok table, preview_log)
    /\ Js.get table "headers" = Js.Arr (map Js.Str headers)
    /\ Js.get table "rows" = Js.Arr rows
    /\ Actions.promise
         (Actions.exec_run Host.builtins Samples.loan_world (Actions.PYTHON_TIMEOUT_MS Host.builtins Samples.loan_world)
            (Actions.executePythonScript_events Samples.loan_world (pythonScript Samples.loan_world "loan")
               (pythonArgs Samples.loan_world "loan" metaLearner "Loan Approval.csv")))
       = Some (Ok out)
    /\ Extract.extractJsonFromStdout out = Ok jsonStr
    /\ Actions.JSON_parse Samples.loan_world jsonStr = Ok pythonResults
    /\ let reported := Js.get pythonResults "dataset_info" in
       let info := Js.get (Js.get Samples.loan_response "data") "dataset_info" in
       Js.isRecord reported = true
       /\ Js.get info "target_variable" = Js.Str (last headers "")
       /\ Js.get info "n_samples"
          = Js.coalesce (Js.get reported "n_samples")
              (Js.Number (Js.Num (inject_Z (Z.of_nat (List.length rows)))))
       /\ Js.get info "n_features"
          = Js.coalesce (Js.get reported "n_features")
              (Js.Number (Js.Num (inject_Z (Z.of_nat (List.length headers) - 1))))
       /\ Js.get info "feature_names"
          = Js.coalesce (Js.get reported "feature_names") (Js.Arr (map Js.Str headers)).
Proof.
  exact (loan_info_matches_preview Host.builtins Samples.loan_world
           Samples.loan_request [] Samples.loan_log Samples.loan_response
           eq_refl processDataset_loan_run eq_refl eq_refl eq_refl).
Defined.

(* ================================================================= *)
(** * From the live response to the dashboard *)

(** X17. The dashboard recognises the dataset of every response that comes
    from a live run: it takes the response for the loan dataset exactly when
    loan was requested, shows the automobile theme for automobile and the
    concrete theme for concrete, and treats a loan response as a
    classification. For the two regression datasets it treats the response
    as a classification exactly when the trainer's [is_classification] is
    truthy. *)
Theorem dashboard_recognises_live_response (B : Js.Builtins) (W : Actions.World)
  (formData : Actions.FormData) (log log' : list Actions.event)
  (response : Js.value) :
  Actions.processDataset B W formData log = (Ok response, log') ->
  Js.get response "success" = Js.Bool true ->
  existsb is_spawn log = false ->
  existsb is_spawn log' = true ->
  let info := Flags.datasetInfo (Js.get response "data") in
  let datasetId := Actions.text (Actions.formData_get formData "dataset") in
  Flags.isLoan info = String.eqb datasetId "loan"
  /\ (datasetId = "automobile" ->
      Flags.isAutomobile info = true /\ Flags.isConcrete info = false
      /\ Flags.primary info = "red-500")
  /\ (datasetId = "concrete" ->
      Flags.isConcrete info = true /\ Flags.isAutomobile info = false
      /\ Flags.primary info = "yellow-500")
  /\ (datasetId = "loan" -> Flags.isClassification info = true)
  /\ Flags.isClassification info = Js.truthy (Js.get info "is_classification").
Proof.
  intros H Hs Hl Hl' info datasetId.
  destruct (live_success_payload B W formData log log' response H Hs Hl Hl')
    as [d [filename [csvContent [out [jsonStr [pythonResults
         [Hd [_ [_ [_ [_ [_ [_ [R D]]]]]]]]]]]]]].
  destruct D as [[-> [v [s E]]]|[Nl E]];
    subst response; unfold datasetId; rewrite Hd; cbn [Actions.text]; subst info.
  - cbn. repeat split; discriminate.
  - unfold Flags.datasetInfo, Actions.success_response, Actions.regressionResults.
    cbn [Js.get Js.optGet Js.nullish Js.lookup Js.from_option String.eqb
         Ascii.eqb Bool.eqb].
    unfold Flags.isLoan, Flags.isAutomobile, Flags.isConcrete, Flags.primary,
      Flags.isClassification, Flags.isAutomobile, Flags.isConcrete.
    cbn [Js.get Js.optGet Js.nullish Js.lookup Js.from_option String.eqb
         Ascii.eqb Bool.eqb Flags.is_string].
    split; [reflexivity|].
    split; [intros ->; now repeat split|].
    split; [intros ->; now repeat split|].
    split; [intros ->; now elim Nl|].
    unfold Js.or.
    destruct (Js.truthy (Js.get (Js.get pythonResults "dataset_info")
                           "is_classification")) eqn:T.
    + rewrite T. cbn. now rewrite orb_true_r.
    + reflexivity.
Qed.

Lemma dashboard_recognises_live_response_witness :
  Flags.isLoan (Flags.datasetInfo (Js.get Samples.loan_response "data")) = true
  /\ Flags.isClassification (Flags.datasetInfo (Js.get Samples.loan_response "data"))
     = true.
Proof.
  pose proof (dashboard_recognises_live_response Host.builtins Samples.loan_world
                Samples.loan_request [] Samples.loan_log Samples.loan_response
                processDataset_loan_run eq_refl eq_refl eq_refl) as [H1 [_ [_ [H4 _]]]].
  split; [exact H1 | exact (H4 eq_refl)].
Defined.

(* ================================================================= *)
(** * The feature chart *)

Section FeatureFacts.
Import JsString Js FeatureChart.
Local Open Scope Q_scope.

Lemma insert_In (x y : feature) (l : list feature) :
  In y (insert x l) <-> y = x \/ In y l.
Proof.
  induction l as [|z l IH]; simpl.
  - split; [intros [<-|[]]; now left | intros [->|[]]; now left].
  - destruct (Qltb (fullImportance x) (fullImportance z)); simpl.
    + rewrite IH. split.
      * intros [<-|[->|H]]; auto.
      * intros [->|[<-|H]]; auto.
    + split.
      * intros [<-|[<-|H]]; auto.
      * intros [->|[<-|H]]; auto.
Qed.

Lemma insert_length (x : feature) (l : list feature) :
  List.length (insert x l) = S (List.length l).
Proof.
  induction l as [|z l IH]; simpl; [reflexivity|].
  destruct (Qltb (fullImportance x) (fullImportance z)); simpl; now rewrite ?IH.
Qed.

Lemma insert_sorted (x : feature) (l : list feature) :
  StronglySorted before l -> StronglySorted before (insert x l).
Proof.
  induction 1 as [|z l S IH F]; simpl.
  - constructor; constructor.
  - destruct (Qltb (fullImportance x) (fullImportance z)) eqn:C.
    + apply Qltb_true_lt in C. constructor; [exact IH|].
      apply Forall_forall. intros y I. apply insert_In in I.
      destruct I as [->|I].
      * now apply Qlt_le_weak.
      * rewrite Forall_forall in F. now apply F.
    + apply Qltb_false_ge in C. constructor; [now constructor|].
      constructor; [exact C|].
      apply Forall_forall. intros y I. rewrite Forall_forall in F.
      apply Qle_trans with (fullImportance z); [now apply F | exact C].
Qed.

Lemma sort_In (y : feature) (l : list feature) : In y (sort l) <-> In y l.
Proof.
  induction l as [|x l IH]; simpl; [tauto|].
  rewrite insert_In, IH. split; intros [H|H]; auto.
Qed.

Lemma sort_length (l : list feature) : List.length (sort l) = List.length l.
Proof.
  induction l as [|x l IH]; simpl; [reflexivity|]. now rewrite insert_length, IH.
Qed.

Lemma sort_sorted (l : list feature) : StronglySorted before (sort l).
Proof.
  induction l as [|x l IH]; simpl; [constructor | now apply insert_sorted].
Qed.

Lemma firstn_sorted (l : list feature) :
  StronglySorted before l ->
  forall n,
    StronglySorted before (firstn n l)
    /\ forall a b, In a (firstn n l) -> In b (skipn n l) -> before a b.
Proof.
  induction 1 as [|z l S IH F]; intros n.
  - rewrite firstn_nil, skipn_nil. split; [constructor | intros a b []].
  - destruct n as [|n]; simpl.
    + split; [constructor | intros a b []].
    + destruct (IH n) as [S' T]. rewrite Forall_forall in F. split.
      * constructor; [exact S'|]. apply Forall_forall. intros y I.
        apply F. rewrite <- (firstn_skipn n l). apply in_app_iff. now left.
      * intros a b [<-|Ia] Ib.
        -- apply F. rewrite <- (firstn_skipn n l). apply in_app_iff. now right.
        -- now apply T.
Qed.
End FeatureFacts.

(** X18. The feature chart shows the most important features first: its bars
    are entries of [featureImportance], at most eight of them (all of them
    when there are no more than eight), in descending order of their
    importance, and every entry that is left out is no more important than
    any bar shown. An importance that is not a finite number counts as
    zero. *)
Theorem featureData_top_eight (B : Js.Builtins) (toUpperCase : string -> string)
  (featureImportance : Js.value) :
  let bars := FeatureChart.featureData B toUpperCase featureImportance in
  let entry := FeatureChart.bar B toUpperCase featureImportance in
  (List.length bars <= 8)%nat
  /\ (Js.truthy featureImportance = true ->
      List.length bars = Nat.min 8 (List.length (Js.keys featureImportance)))
  /\ StronglySorted before bars
  /\ (forall f, In f bars ->
                exists k, In k (Js.keys featureImportance) /\ f = entry k)
  /\ (Js.truthy featureImportance = true ->
      forall k, In k (Js.keys featureImportance) ->
                In (entry k) bars \/ forall f, In f bars -> before f (entry k)).
Proof.
  intros bars entry. unfold bars, FeatureChart.featureData. fold entry.
  destruct (Js.truthy featureImportance) eqn:T; cbn [andb].
  2:{ split; [cbn; lia|]. split; [discriminate|]. split; [constructor|].
      split; [intros f []|discriminate]. }
  destruct (0 <? List.length (Js.keys featureImportance))%nat eqn:N.
  2:{ apply Nat.ltb_ge in N.
      assert (E : Js.keys featureImportance = []).
      { destruct (Js.keys featureImportance); [reflexivity | simpl in N; lia]. }
      rewrite E. split; [cbn; lia|]. split; [reflexivity|]. split; [constructor|].
      split; [intros f []|intros _ k []]. }
  set (sorted := FeatureChart.sort (map entry (Js.keys featureImportance))).
  assert (S := sort_sorted (map entry (Js.keys featureImportance))). fold sorted in S.
  destruct (firstn_sorted sorted S 8) as [S8 T8].
  assert (L : List.length sorted = List.length (Js.keys featureImportance)).
  { unfold sorted. now rewrite sort_length, length_map. }
  split; [apply firstn_le_length|].
  split; [intros _; now rewrite length_firstn, L|].
  split; [exact S8|]. split.
  - intros f I.
    assert (I' : In f sorted).
    { rewrite <- (firstn_skipn 8 sorted). apply in_app_iff. now left. }
    apply sort_In, in_map_iff in I'. destruct I' as [k [E I']]. now exists k.
  - intros _ k I.
    assert (I' : In (entry k) sorted) by (apply sort_In, in_map_iff; now exists k).
    rewrite <- (firstn_skipn 8 sorted) in I'. apply in_app_iff in I'.
    destruct I' as [I'|I']; [now left | right].
    intros f If. now apply T8.
Qed.

Lemma featureData_top_eight_witness :
  List.length (FeatureChart.featureData Host.builtins Samples.toUpperCase
                 Samples.importances)
  = Nat.min 8 3
  /\ map FeatureChart.name
       (FeatureChart.featureData Host.builtins Samples.toUpperCase Samples.importances)
     = ["Weight"; "Engine Size"; "Model Year"].
Proof.
  split; [|reflexivity].
  exact (proj1 (proj2 (featureData_top_eight Host.builtins Samples.toUpperCase
                         Samples.importances)) eq_refl).
Defined.

(* ================================================================= *)
(** * The text handed to the JSON parser *)

Section PieceFacts.
Import JsString.

Lemma piece_refl (s : string) : piece_of s s.
Proof. exists "", "". simpl. now rewrite append_empty. Qed.

Lemma piece_trans (a b c : string) : piece_of a b -> piece_of b c -> piece_of a c.
Proof.
  intros [p1 [q1 ->]] [p2 [q2 ->]]. exists (p2 ++ p1), (q1 ++ q2).
  now rewrite !append_assoc.
Qed.

Lemma take_piece (s : string) (n : nat) : piece_of (take n s) s.
Proof. exists "", (drop n s). simpl. now rewrite take_drop. Qed.

Lemma drop_piece (s : string) (n : nat) : piece_of (drop n s) s.
Proof. exists (take n s), "". now rewrite append_empty, take_drop. Qed.

Lemma substring_piece (s : string) (a b : Z) : piece_of (substring s a b) s.
Proof.
  unfold substring. rewrite substring_take_drop.
  eapply piece_trans; [apply take_piece | apply drop_piece].
Qed.

Lemma trimStart_piece (s : string) : piece_of (trimStart s) s.
Proof.
  induction s as [|c s IH]; simpl; [apply piece_refl|].
  destruct (is_white c); [|apply piece_refl].
  eapply piece_trans; [exact IH|]. exact (drop_piece (String c s) 1).
Qed.

Lemma trimEnd_prefix (s : string) : exists rest, s = trimEnd s ++ rest.
Proof.
  induction s as [|c s [rest IH]]; simpl; [now exists ""|].
  destruct (trimEnd s) as [|y t].
  - destruct (is_white c); [now exists (String c s) | now exists s].
  - exists rest. simpl in IH |- *. now rewrite <- IH.
Qed.

Lemma trim_piece (s : string) : piece_of (trim s) s.
Proof.
  unfold trim. eapply piece_trans; [|apply trimStart_piece].
  destruct (trimEnd_prefix (trimStart s)) as [rest E].
  exists "", rest. exact E.
Qed.

Lemma get_drop (s : string) :
  forall a n, String.get n (drop a s) = String.get (a + n) s.
Proof.
  induction s as [|c s IH]; intros [|a] n; simpl; try reflexivity.
  apply IH.
Qed.

Lemma take_S_get (s : string) :
  forall n c, String.get n s = Some c -> take (S n) s = take n s ++ String c "".
Proof.
  induction s as [|x s IH]; intros [|n] c H; simpl in H; try discriminate.
  - inversion H. now destruct s.
  - change (take (S (S n)) (String x s)) with (String x (take (S n) s)).
    now rewrite (IH n c H).
Qed.

(** From an opening brace to a later closing brace. *)
Lemma brace_shape (s : string) (a b : nat) :
  (a < b)%nat ->
  String.get a s = Some "{"%char -> String.get b s = Some "}"%char ->
  exists body, take (S b - a) (drop a s) = "{" ++ body ++ "}".
Proof.
  intros L Ga Gb.
  assert (G0 : String.get 0 (drop a s) = Some "{"%char)
    by (rewrite get_drop; now rewrite Nat.add_0_r).
  assert (Gn : String.get (b - a) (drop a s) = Some "}"%char)
    by (rewrite get_drop; now replace (a + (b - a))%nat with b by lia).
  replace (S b - a)%nat with (S (b - a)) by lia.
  destruct (drop a s) as [|x t]; [discriminate|].
  simpl in G0. inversion G0; subst x.
  destruct (b - a)%nat as [|m] eqn:E; [lia|].
  simpl in Gn. exists (take m t).
  change (take (S (S m)) (String "{" t)) with (String "{"%char (take (S m) t)).
  now rewrite (take_S_get t m _ Gn).
Qed.

Lemma last_white_end (x : string) (c : ascii) :
  last_white (x ++ String c "") = is_white c.
Proof.
  induction x as [|d x IH]; simpl; [reflexivity|].
  destruct (x ++ String c "") eqn:E; [|exact IH].
  destruct x; discriminate.
Qed.
End PieceFacts.

(** X20. The text that [extractJsonFromStdout] hands to the parser is a
    contiguous piece of the interpreter's output with no white space at
    either end. Unless both markers are there with the start marker first,
    also when they are there in the wrong order, it starts with an opening
    and ends with a closing brace. *)
Theorem extracted_text_shape (stdout json : string) :
  Extract.extractJsonFromStdout stdout = Ok json ->
  piece_of json stdout
  /\ first_white json = false
  /\ last_white json = false
  /\ (JsString.indexOf stdout Extract.markerStart = -1
      \/ JsString.indexOf stdout Extract.markerEnd = -1
      \/ JsString.indexOf stdout Extract.markerEnd
         <= JsString.indexOf stdout Extract.markerStart ->
      exists body, json = "{" ++ body ++ "}").
Proof.
  unfold Extract.extractJsonFromStdout.
  destruct (negb (JsString.indexOf stdout Extract.markerStart =? -1)
            && negb (JsString.indexOf stdout Extract.markerEnd =? -1)
            && (JsString.indexOf stdout Extract.markerEnd
                >? JsString.indexOf stdout Extract.markerStart)) eqn:C.
  - intros H. inversion H; subst json. clear H.
    split; [eapply piece_trans; [apply trim_piece | apply substring_piece]|].
    split; [apply trimEnd_first, trimStart_first|].
    split; [apply trimEnd_last|].
    intros N. exfalso.
    apply andb_true_iff in C. destruct C as [C C3].
    apply andb_true_iff in C. destruct C as [C1 C2].
    apply negb_true_iff, Z.eqb_neq in C1. apply negb_true_iff, Z.eqb_neq in C2.
    apply Z.gtb_lt in C3. lia.
  - destruct ((JsString.indexOf stdout "{" =? -1)
              || (JsString.lastIndexOf stdout "}" =? -1)
              || (JsString.lastIndexOf stdout "}" <=? JsString.indexOf stdout "{"))
      eqn:F; [discriminate|].
    intros H. inversion H; subst json. clear H.
    apply orb_false_iff in F. destruct F as [F F3].
    apply orb_false_iff in F. destruct F as [F1 F2].
    apply Z.eqb_neq in F1. apply Z.eqb_neq in F2. apply Z.leb_gt in F3.
    destruct (indexOf_char "{" stdout) as [[E _]|[a [Ea [Ga _]]]]; [congruence|].
    destruct (lastIndexOf_char "}" stdout) as [[E _]|[b [Eb [Gb _]]]]; [congruence|].
    rewrite Ea, Eb in *.
    assert (Lb := get_length _ _ _ Gb).
    replace (Z.of_nat b + 1) with (Z.of_nat (S b)) by lia.
    rewrite substring_within by lia.
    destruct (brace_shape stdout a b ltac:(lia) Ga Gb) as [body E].
    split; [eapply piece_trans; [apply take_piece | apply drop_piece]|].
    rewrite E.
    split; [reflexivity|]. split.
    + change ("{" ++ body ++ "}") with (String "{"%char (body ++ "}")).
      assert (L : last_white (body ++ "}") = false)
        by (rewrite last_white_end; reflexivity).
      simpl. destruct (body ++ "}") eqn:B; [destruct body; discriminate | exact L].
    + intros _. now exists body.
Qed.

Lemma extracted_text_shape_witness :
  exists body,
    "{ RESULTS_JSON_START }" = "{" ++ body ++ "}".
Proof.
  exact (proj2 (proj2 (proj2 (extracted_text_shape
           "RESULTS_JSON_END { RESULTS_JSON_START } done" "{ RESULTS_JSON_START }"
           eq_refl))) ltac:(right; right; discriminate)).
Defined.
